(** * generate_sprites.py: the sprite pipeline of "Cows in the Ditch"

    A shallow embedding of [generate_sprites.py].  The script draws every
    sprite on a 4x supersampled RGBA canvas through Pillow's [ImageDraw],
    downsamples it with LANCZOS to the @3x size, derives the @2x size from
    the @3x image and writes both next to a [Contents.json] manifest.

    Pillow, [random], [math], [json] and [os] are libraries the script
    calls; they appear here as interfaces (type classes) whose operations
    the embedded functions call in the order of the source.  Integers are
    Python's unbounded ints ([Z]); floats are IEEE binary64 values in the
    standard library's [spec_float]. *)

From Stdlib Require Import ZArith Bool Lia Ascii String.
From Stdlib Require Import Floats.SpecFloat.
From stdpp Require Import base option list gmap strings pretty.

Local Open Scope Z_scope.

(** ** Exceptions and results *)

(** The exception classes that the embedded code can meet.  [IOError] is
    an alias of [OSError] in Python 3. *)
Inductive exn : Set :=
  | OSError
  | ValueError
  | OverflowError
  | ZeroDivisionError
  | IndexError.

Global Instance exn_eq_dec : EqDecision exn.
Proof. solve_decision. Defined.

(** A call either returns a value or raises. *)
Inductive res (A : Type) : Type :=
  | Ok (a : A)
  | Raise (e : exn).
Arguments Ok {A} a.
Arguments Raise {A} e.

Definition res_bind {A B} (m : res A) (k : A -> res B) : res B :=
  match m with
  | Ok a => k a
  | Raise e => Raise e
  end.

Global Instance res_mret : MRet res := @Ok.
Global Instance res_mbind : MBind res := fun A B k m => res_bind m k.

Definition returns {A} (m : res A) : Prop :=
  match m with Ok _ => True | Raise _ => False end.

(** [[f(x) for x in l]] when [f] may raise. *)
Fixpoint res_map {A B} (f : A -> res B) (l : list A) : res (list B) :=
  match l with
  | [] => Ok []
  | x :: rest => y ← f x; ys ← res_map f rest; mret (y :: ys)
  end.

(** ** Python floats *)

Module PyFloat.

Abbreviation float := spec_float.

Definition prec : Z := 53.
Definition emax : Z := 1024.

(** [float(n)] for an int [n], rounded to nearest even. *)
Definition of_int (n : Z) : float := binary_normalize prec emax n 0 false.

Definition add (x y : float) : float := SFadd prec emax x y.
Definition mul (x y : float) : float := SFmul prec emax x y.

Definition is_zero (x : float) : bool :=
  match x with S754_zero _ => true | _ => false end.

(** [x / y] on floats: a zero divisor raises. *)
Definition div (x y : float) : res float :=
  if is_zero y then Raise ZeroDivisionError else Ok (SFdiv prec emax x y).

(** An int as an exact (not normalised) mantissa with exponent 0. *)
Definition exact (n : Z) : float :=
  match n with
  | Z0 => S754_zero false
  | Zpos p => S754_finite false p 0
  | Zneg p => S754_finite true p 0
  end.

(** [a / b] on ints ("true division"): the correctly rounded quotient of
    the two integers; a zero divisor raises, and so does a quotient too
    large for a float. *)
Definition int_truediv (a b : Z) : res float :=
  if b =? 0 then Raise ZeroDivisionError
  else match SFdiv prec emax (exact a) (exact b) with
       | S754_infinity _ => Raise OverflowError
       | q => Ok q
       end.

(** [int(x)]: truncation towards zero; infinities and NaN raise. *)
Definition to_int (x : float) : res Z :=
  match x with
  | S754_zero _ => Ok 0
  | S754_infinity _ => Raise OverflowError
  | S754_nan => Raise ValueError
  | S754_finite s m e =>
      let a := match e with
               | Z0 => Zpos m
               | Zpos _ => Z.shiftl (Zpos m) e
               | Zneg _ => Z.shiftr (Zpos m) (- e)
               end in
      Ok (if s then - a else a)
  end.

(** Decimal literals of the source, as their nearest doubles. *)
Definition lit (num den : positive) : float :=
  SFdiv prec emax (S754_finite false num 0) (S754_finite false den 0).

Definition lit_2_1 : float := lit 21 10.
Definition lit_0_2 : float := lit 2 10.
Definition lit_0_8 : float := lit 8 10.
Definition lit_19_0 : float := of_int 19.

(** [math.pi]. *)
Definition pi : float := S754_finite false 7074237752028440 (-51).

(** [math.radians(x)]: [x * (pi / 180.0)]. *)
Definition radians (x : float) : float :=
  mul x (SFdiv prec emax pi (of_int 180)).

(** Neither an infinity nor NaN. *)
Definition is_finite (x : float) : bool :=
  match x with
  | S754_zero _ | S754_finite _ _ _ => true
  | _ => false
  end.

(** Zero, or a mantissa below 2^53 with an exponent from -1074 to [E]:
    a float of magnitude below [2^(53 + E)]. *)
Definition fbounded (E : Z) (x : float) : bool :=
  match x with
  | S754_zero _ => true
  | S754_finite _ m e => (Zpos m <? 2 ^ 53) && (-1074 <=? e) && (e <=? E)
  | _ => false
  end.

End PyFloat.

(** ** Values passed to Pillow *)

(** A colour is the tuple the source writes: three or four channels. *)
Inductive color : Set :=
  | RGB (r g b : Z)
  | RGBA (r g b a : Z).

Global Instance color_eq_dec : EqDecision color.
Proof. solve_decision. Defined.

Definition point : Set := Z * Z.

(** A bounding box [[x0, y0, x1, y1]]. *)
Record box : Set := Box { bx0 : Z; by0 : Z; bx1 : Z; by1 : Z }.

Global Instance box_eq_dec : EqDecision box.
Proof. solve_decision. Defined.

(** The resampling filters of [PIL.Image]. *)
Inductive resample : Set := NEAREST | BILINEAR | BICUBIC | LANCZOS.

(** Fonts come from [ImageFont]: a TrueType file may fail to load, the
    built-in bitmap font is always there. *)
Class Fonts := {
  font : Type;
  truetype : string -> Z -> res font;
  load_default : font;
}.

(** One call on an [ImageDraw.Draw] object, with the arguments the source
    passes; a keyword the source leaves out is [None]. *)
Inductive draw_cmd `{Fonts} : Type :=
  | Ellipse (xy : box) (fill outline : option color) (width : option Z)
  | Rectangle (xy : box) (fill outline : option color) (width : option Z)
  | RoundedRectangle (xy : box) (radius : Z) (fill outline : option color)
      (width : option Z)
  | Polygon (xy : list point) (fill outline : option color) (width : option Z)
  | Line (xy : list point) (fill : color) (width : option Z)
  | Arc (xy : box) (start end_ : Z) (fill : color) (width : Z)
  | Text (xy : point) (text : string) (fnt : font) (fill : color)
      (anchor : string).

Definition pixel : Set := Z * Z * Z * Z.

Definition transparent : pixel := (0, 0, 0, 0).

Definition channels (c : color) : pixel :=
  match c with
  | RGB r g b => (r, g, b, 255)
  | RGBA r g b a => (r, g, b, a)
  end.

(** Pillow's images.  [render c im] is the image after the draw call [c];
    [pixel_at im p] is the pixel stored at [p], if [p] lies on the raster;
    [covers c p] says that the call may touch pixel [p];
    [footprint src dst f p q] says that source pixel [q] lies in the filter
    window of destination pixel [p] when an image of size [src] is resized
    to [dst] with filter [f]. *)
Class Imaging `{Fonts} := {
  image : Type;
  Image_new : string -> Z * Z -> color -> image;
  render : draw_cmd -> image -> image;
  resize : image -> Z * Z -> resample -> image;
  im_size : image -> Z * Z;
  im_mode : image -> string;
  pixel_at : image -> point -> option pixel;
  covers : draw_cmd -> point -> Prop;
  footprint : Z * Z -> Z * Z -> resample -> point -> point -> Prop;

  new_size : forall m w h c, 0 <= w -> 0 <= h -> im_size (Image_new m (w, h) c) = (w, h);
  new_mode : forall m sz c, im_mode (Image_new m sz c) = m;
  new_pixel : forall w h c x y,
    0 <= x < w -> 0 <= y < h ->
    pixel_at (Image_new "RGBA" (w, h) c) (x, y) = Some (channels c);
  pixel_at_bounds : forall im x y px,
    pixel_at im (x, y) = Some px ->
    0 <= x < fst (im_size im) /\ 0 <= y < snd (im_size im);
  render_size : forall c im, im_size (render c im) = im_size im;
  render_mode : forall c im, im_mode (render c im) = im_mode im;
  render_frame : forall c im p,
    ~ covers c p -> pixel_at (render c im) p = pixel_at im p;
  resize_size : forall im w h f, 0 <= w -> 0 <= h -> im_size (resize im (w, h) f) = (w, h);
  resize_mode : forall im sz f, im_mode (resize im sz f) = im_mode im;
  resize_clear : forall im w h f x y,
    0 <= x < w -> 0 <= y < h ->
    (forall q px, footprint (im_size im) (w, h) f (x, y) q ->
                  pixel_at im q = Some px -> px = transparent) ->
    pixel_at (resize im (w, h) f) (x, y) = Some transparent;
}.

(** The module-level generator of [random]: [rseed n] is the state after
    [random.seed(n)], [randbelow n g] draws from [0 .. n-1]. *)
Class Random := {
  rng : Type;
  rseed : Z -> rng;
  randbelow : Z -> rng -> Z * rng;
  randbelow_range : forall n g, 0 < n -> 0 <= fst (randbelow n g) < n;
}.

(** [math.sin] and [math.cos]. *)
Class Libm := {
  math_sin : PyFloat.float -> res PyFloat.float;
  math_cos : PyFloat.float -> res PyFloat.float;
}.

(** ** Python helpers *)

(** [range(start, stop, step)] as a list; a zero step raises. *)
Definition py_range3 (start stop step : Z) : res (list Z) :=
  if step =? 0 then Raise ValueError
  else
    let n := if 0 <? step
             then (stop - start + step - 1) / step
             else (start - stop - step - 1) / (- step) in
    Ok (map (fun i : nat => start + Z.of_nat i * step) (seq 0 (Z.to_nat n))).

(** [range(start, stop)]. *)
Definition py_range2 (start stop : Z) : list Z :=
  map (fun i : nat => start + Z.of_nat i) (seq 0 (Z.to_nat (stop - start))).

(** [l[i]]: a negative index counts from the end. *)
Definition py_index {A} (l : list A) (i : Z) : res A :=
  let n := Z.of_nat (length l) in
  let j := if i <? 0 then i + n else i in
  if (0 <=? j) && (j <? n)
  then match l !! Z.to_nat j with
       | Some x => Ok x
       | None => Raise IndexError
       end
  else Raise IndexError.

(** [range(n)]. *)
Definition py_range (n : Z) : list Z :=
  map Z.of_nat (seq 0 (Z.to_nat n)).

(** [os.path.join(a, b)] on POSIX. *)
Definition is_abs (p : string) : bool :=
  match p with
  | String "/"%char _ => true
  | _ => false
  end.

Fixpoint ends_with_sep (p : string) : bool :=
  match p with
  | EmptyString => false
  | String c EmptyString => Ascii.eqb c "/"%char
  | String _ rest => ends_with_sep rest
  end.

Definition path_join (a b : string) : string :=
  if is_abs b then b
  else match a with
       | EmptyString => b
       | _ => if ends_with_sep a then a +:+ b else a +:+ "/" +:+ b
       end.

(** The path has a separator somewhere. *)
Fixpoint has_sep (p : string) : bool :=
  match p with
  | EmptyString => false
  | String c rest => Ascii.eqb c "/"%char || has_sep rest
  end.

(** The last character of a string. *)
Fixpoint str_last (s : string) : option ascii :=
  match s with
  | EmptyString => None
  | String c EmptyString => Some c
  | String _ rest => str_last rest
  end.

(** What [json.dump] is given. *)
#[local] Unset Elimination Schemes.
Inductive json : Set :=
  | JString (s : string)
  | JInt (n : Z)
  | JList (l : list json)
  | JDict (kv : list (string * json)).
#[local] Set Elimination Schemes.






(** ** The script *)

Section Sprites.

Context `{Imaging} `{Random} `{Libm}.

(** The directory of the script, [os.path.dirname(__file__)]. *)
Variable script_dir : string.

Definition ASSETS_DIR : string :=
  path_join (path_join script_dir "CowsInTheDitch") "Assets.xcassets".

Definition SUPERSAMPLE : Z := 4.

(** *** The file system *)

(** A file holds what was written to it: an image saved as PNG, or a
    JSON document. *)
Inductive file : Type :=
  | FPng (im : image)
  | FJson (j : json).

Record world : Type := World {
  w_rng : rng;
  w_dirs : gset string;
  w_files : gmap string file;
}.

(** Code that touches the module-level generator and the disk. *)
Definition Gen (A : Type) : Type := world -> res (A * world).

Definition gen_ret {A} (a : A) : Gen A := fun w => Ok (a, w).

Definition gen_bind {A B} (m : Gen A) (k : A -> Gen B) : Gen B :=
  fun w => match m w with
           | Ok (a, w') => k a w'
           | Raise e => Raise e
           end.

(** Code that draws: it reads and advances the module-level generator
    and issues draw calls on the one canvas it was given. *)
Definition Draw (A : Type) : Type := rng -> res (A * rng * list draw_cmd).

Definition draw_ret {A} (a : A) : Draw A := fun g => Ok (a, g, []).

Definition draw_bind {A B} (m : Draw A) (k : A -> Draw B) : Draw B :=
  fun g => match m g with
           | Ok (a, g1, ops1) =>
               match k a g1 with
               | Ok (b, g2, ops2) => Ok (b, g2, ops1 ++ ops2)
               | Raise e => Raise e
               end
           | Raise e => Raise e
           end.

Global Instance draw_mret : MRet Draw := @draw_ret.
Global Instance draw_mbind : MBind Draw := fun A B k m => draw_bind m k.
Global Instance gen_mret : MRet Gen := @gen_ret.
Global Instance gen_mbind : MBind Gen := fun A B k m => gen_bind m k.

(** A draw call. *)
Definition emit (c : draw_cmd) : Draw unit := fun g => Ok (tt, g, [c]).

(** A library call that may raise. *)
Definition lift {A} (r : res A) : Draw A :=
  fun g => match r with
           | Ok a => Ok (a, g, [])
           | Raise e => Raise e
           end.

(** [random.seed(n)]. *)
Definition random_seed (n : Z) : Draw unit := fun _ => Ok (tt, rseed n, []).

(** [random.randint(a, b)]: an empty range raises. *)
Definition random_randint (a b : Z) : Draw Z :=
  fun g => if 0 <? b + 1 - a
           then let '(r, g') := randbelow (b + 1 - a) g in Ok (a + r, g', [])
           else Raise ValueError.

(** [random.choice(seq)]. *)
Definition random_choice {A} (l : list A) : Draw A :=
  fun g => match l with
           | [] => Raise IndexError
           | d :: _ =>
               let '(i, g') := randbelow (Z.of_nat (length l)) g in
               Ok (nth (Z.to_nat i) l d, g', [])
           end.

(** [for x in l: body(x)]. *)
Fixpoint for_each {A} (l : list A) (body : A -> Draw unit) : Draw unit :=
  match l with
  | [] => mret tt
  | x :: rest => body x;; for_each rest body
  end.

Fixpoint gen_for_each {A} (l : list A) (body : A -> Gen unit) : Gen unit :=
  match l with
  | [] => mret tt
  | x :: rest => body x;; gen_for_each rest body
  end.

Definition gen_lift {A} (r : res A) : Gen A :=
  fun w => match r with
           | Ok a => Ok (a, w)
           | Raise e => Raise e
           end.

(** [os.makedirs(d, exist_ok=True)]. *)
Definition makedirs (d : string) : Gen unit :=
  fun w => Ok (tt, World (w_rng w) ({[ d ]} ∪ w_dirs w) (w_files w)).

(** Writing a file replaces what the path held. *)
Definition write_file (p : string) (f : file) : Gen unit :=
  fun w => Ok (tt, World (w_rng w) (w_dirs w) (<[ p := f ]> (w_files w))).

(** The canvas after the draw calls, in the order they were issued. *)
Definition paint (ops : list draw_cmd) (img : image) : image :=
  fold_left (fun im c => render c im) ops img.

(** Running drawing code on a canvas. *)
Definition run_draw (d : Draw unit) (img : image) : Gen image :=
  fun w => match d (w_rng w) with
           | Ok (_, g, ops) => Ok (paint ops img, World g (w_dirs w) (w_files w))
           | Raise e => Raise e
           end.

(** *** Export *)

Definition contents_json (name : string) : json :=
  JDict [
    ("images", JList [
       JDict [("filename", JString (name +:+ "@2x.png"));
              ("idiom", JString "universal"); ("scale", JString "2x")];
       JDict [("filename", JString (name +:+ "@3x.png"));
              ("idiom", JString "universal"); ("scale", JString "3x")]
     ]);
    ("info", JDict [("author", JString "xcode"); ("version", JInt 1)])
  ].

Definition ensure_imageset (name : string) : Gen string :=
  let d := path_join ASSETS_DIR (name +:+ ".imageset") in
  makedirs d;;
  let contents := contents_json name in
  write_file (path_join d "Contents.json") (FJson contents);;
  mret d.

(** [int(n * 2 / 3)]. *)
Definition two_thirds (n : Z) : res Z :=
  q ← PyFloat.int_truediv (n * 2) 3; PyFloat.to_int q.

Definition save_asset (img_at3x : image) (name : string) : Gen unit :=
  d ← ensure_imageset name;
  write_file (path_join d (name +:+ "@3x.png")) (FPng img_at3x);;
  w2 ← gen_lift (two_thirds (fst (im_size img_at3x)));
  h2 ← gen_lift (two_thirds (snd (im_size img_at3x)));
  let img_at2x := resize img_at3x (w2, h2) LANCZOS in
  write_file (path_join d (name +:+ "@2x.png")) (FPng img_at2x).

(** *** Supersampling *)

(** A draw function gets the canvas size and the scale. *)
Definition draw_func : Type := Z -> Z -> Z -> Draw unit.

Definition supersample_draw (w3x h3x : Z) (draw_fn : draw_func) : Gen image :=
  let sw := w3x * SUPERSAMPLE in
  let sh := h3x * SUPERSAMPLE in
  let img := Image_new "RGBA" (sw, sh) (RGBA 0 0 0 0) in
  img ← run_draw (draw_fn sw sh SUPERSAMPLE) img;
  mret (resize img (w3x, h3x) LANCZOS).

(** *** Outlined shapes *)

Definition outlined_ellipse (bbox : box) (fill outline : color)
    (outline_w s : Z) : Draw unit :=
  let '(Box ox oy ox2 oy2) := bbox in
  emit (Ellipse (Box (ox - outline_w * s) (oy - outline_w * s)
                     (ox2 + outline_w * s) (oy2 + outline_w * s))
                (Some outline) None None);;
  emit (Ellipse bbox (Some fill) None None).


Definition outlined_circle (cx cy r : Z) (fill outline : color)
    (outline_w s : Z) : Draw unit :=
  outlined_ellipse (Box (cx - r) (cy - r) (cx + r) (cy + r))
                   fill outline outline_w s.

(** *** Cow sprites *)

Notation "x *. y" := (PyFloat.mul x y) (at level 40, left associativity).
Notation "x +. y" := (PyFloat.add x y) (at level 50, left associativity).
Abbreviation fl := PyFloat.of_int.

Definition draw_cow (w h s : Z) (variant : Z) : Draw unit :=
  let cx := w / 2 in
  let cy := h / 2 in
  (* Body *)
  let bw := 48 * s in
  let bh := 34 * s in
  outlined_ellipse (Box (cx - bw) (cy - bh + 4 * s) (cx + bw) (cy + bh + 4 * s))
                   (RGB 255 255 255) (RGB 40 40 40) 2 s;;
  (* Spots *)
  random_seed (variant * 42);;
  for_each (py_range 4) (fun _ =>
    r ← random_randint (-30 * s) (30 * s);
    let sx := cx + r in
    r ← random_randint (-15 * s) (15 * s);
    let sy := cy + r in
    sr ← random_randint (6 * s) (12 * s);
    emit (Ellipse (Box (sx - sr) (sy - sr / 2) (sx + sr) (sy + sr / 2))
                  (Some (RGBA 30 30 30 200)) None None));;
  (* Legs *)
  let leg_color := RGB 60 60 60 in
  for_each [-28; -10; 10; 28] (fun lx =>
    let lx_abs := cx + lx * s in
    let ly_top := cy + 20 * s in
    let ly_bot := cy + 40 * s in
    emit (RoundedRectangle (Box (lx_abs - 4 * s) ly_top (lx_abs + 4 * s) ly_bot)
                           (2 * s) (Some leg_color) None None);;
    (* Hooves *)
    emit (RoundedRectangle (Box (lx_abs - 5 * s) (ly_bot - 4 * s)
                                (lx_abs + 5 * s) (ly_bot + 2 * s))
                           (2 * s) (Some (RGB 80 60 40)) None None));;
  (* Head *)
  let head_cy := cy - 26 * s in
  outlined_circle cx head_cy (16 * s) (RGB 255 255 255) (RGB 40 40 40) 2 s;;
  (* Snout *)
  outlined_ellipse (Box (cx - 10 * s) (head_cy + 2 * s) (cx + 10 * s) (head_cy + 14 * s))
                   (RGB 255 210 180) (RGB 40 40 40) 1 s;;
  (* Nostrils *)
  emit (Ellipse (Box (cx - 5 * s) (head_cy + 6 * s) (cx - 2 * s) (head_cy + 10 * s))
                (Some (RGB 80 50 50)) None None);;
  emit (Ellipse (Box (cx + 2 * s) (head_cy + 6 * s) (cx + 5 * s) (head_cy + 10 * s))
                (Some (RGB 80 50 50)) None None);;
  (* Eyes *)
  for_each [-7; 7] (fun ex =>
    let ex_abs := cx + ex * s in
    let ey := head_cy - 4 * s in
    (* White *)
    emit (Ellipse (Box (ex_abs - 5 * s) (ey - 5 * s) (ex_abs + 5 * s) (ey + 5 * s))
                  (Some (RGB 255 255 255)) None None);;
    emit (Ellipse (Box (ex_abs - 5 * s) (ey - 5 * s) (ex_abs + 5 * s) (ey + 5 * s))
                  None (Some (RGB 40 40 40)) (Some s));;
    (* Pupil *)
    emit (Ellipse (Box (ex_abs - 2 * s) (ey - 3 * s) (ex_abs + 2 * s) (ey + 3 * s))
                  (Some (RGB 20 20 20)) None None);;
    (* Highlight *)
    emit (Ellipse (Box (ex_abs - 1 * s) (ey - 3 * s) (ex_abs + 1 * s) (ey - 1 * s))
                  (Some (RGB 255 255 255)) None None));;
  (* Horns *)
  for_each [-10; 10] (fun hx =>
    let hx_abs := cx + hx * s in
    let hy := head_cy - 14 * s in
    emit (Polygon [ (hx_abs - 3 * s, head_cy - 10 * s);
                    (hx_abs + (if 0 <? hx then 3 else -3) * s, hy - 8 * s);
                    (hx_abs + 3 * s, head_cy - 10 * s) ]
                  (Some (RGB 220 190 130)) (Some (RGB 40 40 40)) None));;
  (* Ears *)
  for_each [-1; 1] (fun ex_sign =>
    let ear_cx := cx + ex_sign * 15 * s in
    let ear_cy := head_cy - 6 * s in
    emit (Ellipse (Box (ear_cx - 5 * s) (ear_cy - 3 * s) (ear_cx + 5 * s) (ear_cy + 3 * s))
                  (Some (RGB 255 220 200)) (Some (RGB 40 40 40)) (Some s)));;
  (* Tail *)
  let tx := cx + 46 * s in
  let ty := cy - 5 * s in
  points ← lift (res_map (fun i =>
    t ← PyFloat.div (fl i) PyFloat.lit_19_0;
    a ← PyFloat.to_int (t *. fl 12 *. fl s);
    let px := tx + a in
    sn ← math_sin (t *. PyFloat.pi *. fl 2);
    b ← PyFloat.to_int (sn *. fl 8 *. fl s);
    c ← PyFloat.to_int (t *. fl 15 *. fl s);
    let py := ty + b - c in
    mret (px, py)) (py_range 20));
  if 1 <? Z.of_nat (length points) then
    emit (Line points (RGB 60 60 60) (Some (2 * s)));;
    (* Tuft *)
    tp ← lift (match last points with
               | Some tp => Ok tp
               | None => Raise IndexError
               end);
    emit (Ellipse (Box (tp.1 - 4 * s) (tp.2 - 4 * s) (tp.1 + 4 * s) (tp.2 + 4 * s))
                  (Some (RGB 30 30 30)) None None)
  else mret tt.

Definition generate_cow_walk : Gen unit :=
  gen_for_each [1; 2] (fun variant =>
    img ← supersample_draw 156 132 (fun w h s => draw_cow w h s variant);
    save_asset img ("cow_walk_" +:+ pretty variant)).

Definition cow_drowning_draw_fn (w h s : Z) : Draw unit :=
  let cx := w / 2 in
  let cy := h / 2 - 8 * s in
  (* Water surface *)
  let water_y := h / 2 + 10 * s in
  emit (Rectangle (Box 0 water_y w h) (Some (RGBA 50 90 160 180)) None None);;
  (* Wave line *)
  wxs ← lift (py_range3 0 w (8 * s));
  for_each wxs (fun wx =>
    a ← lift (q ← PyFloat.int_truediv wx (12 * s);
              sn ← math_sin q;
              PyFloat.to_int (sn *. fl 3 *. fl s));
    let wy := water_y + a in
    emit (Ellipse (Box wx (wy - 2 * s) (wx + 6 * s) (wy + 2 * s))
                  (Some (RGBA 80 140 220 200)) None None));;
  (* Upper body visible *)
  let bw := 42 * s in
  let bh := 24 * s in
  outlined_ellipse (Box (cx - bw) (cy - bh) (cx + bw) (cy + bh))
                   (RGB 255 255 255) (RGB 40 40 40) 2 s;;
  (* Spots *)
  random_seed 99;;
  for_each (py_range 3) (fun _ =>
    r ← random_randint (-25 * s) (25 * s);
    let sx := cx + r in
    r ← random_randint (-10 * s) (5 * s);
    let sy := cy + r in
    sr ← random_randint (5 * s) (10 * s);
    emit (Ellipse (Box (sx - sr) (sy - sr / 2) (sx + sr) (sy + sr / 2))
                  (Some (RGBA 30 30 30 180)) None None));;
  (* Head (worried) *)
  let head_cy := cy - 20 * s in
  outlined_circle cx head_cy (14 * s) (RGB 255 255 255) (RGB 40 40 40) 2 s;;
  (* Worried eyes (wide) *)
  for_each [-6; 6] (fun ex =>
    let ex_abs := cx + ex * s in
    let ey := head_cy - 2 * s in
    emit (Ellipse (Box (ex_abs - 5 * s) (ey - 6 * s) (ex_abs + 5 * s) (ey + 6 * s))
                  (Some (RGB 255 255 255)) None None);;
    emit (Ellipse (Box (ex_abs - 5 * s) (ey - 6 * s) (ex_abs + 5 * s) (ey + 6 * s))
                  None (Some (RGB 40 40 40)) (Some s));;
    emit (Ellipse (Box (ex_abs - 2 * s) (ey - 2 * s) (ex_abs + 2 * s) (ey + 4 * s))
                  (Some (RGB 20 20 20)) None None);;
    emit (Ellipse (Box (ex_abs - 1 * s) (ey - 3 * s) (ex_abs + 1 * s) (ey - 1 * s))
                  (Some (RGB 255 255 255)) None None));;
  (* Worried mouth *)
  emit (Arc (Box (cx - 8 * s) (head_cy + 4 * s) (cx + 8 * s) (head_cy + 14 * s))
            0 180 (RGB 40 40 40) (2 * s));;
  (* Horns *)
  for_each [-9; 9] (fun hx =>
    let hx_abs := cx + hx * s in
    let hy := head_cy - 12 * s in
    emit (Polygon [ (hx_abs - 3 * s, head_cy - 8 * s);
                    (hx_abs + (if 0 <? hx then 3 else -3) * s, hy - 6 * s);
                    (hx_abs + 3 * s, head_cy - 8 * s) ]
                  (Some (RGB 220 190 130)) (Some (RGB 40 40 40)) None)).

Definition generate_cow_drowning : Gen unit :=
  img ← supersample_draw 156 108 cow_drowning_draw_fn;
  save_asset img "cow_drowning".

(** *** Farmer *)

Definition farmer_draw_fn (w h s : Z) : Draw unit :=
  let cx := w / 2 in
  let cy := h / 2 in
  (* Legs *)
  for_each [-12; 12] (fun lx =>
    let lx_abs := cx + lx * s in
    emit (RoundedRectangle (Box (lx_abs - 6 * s) (cy + 36 * s) (lx_abs + 6 * s) (cy + 65 * s))
                           (3 * s) (Some (RGB 50 80 140)) None None);;
    (* Boots *)
    emit (RoundedRectangle (Box (lx_abs - 7 * s) (cy + 58 * s) (lx_abs + 8 * s) (cy + 68 * s))
                           (2 * s) (Some (RGB 100 60 30)) (Some (RGB 60 40 20)) None));;
  (* Body / Overalls *)
  outlined_ellipse (Box (cx - 24 * s) (cy - 10 * s) (cx + 24 * s) (cy + 42 * s))
                   (RGB 50 100 180) (RGB 30 60 120) 2 s;;
  (* Overall straps *)
  emit (Line [ (cx - 16 * s, cy - 6 * s); (cx - 8 * s, cy + 10 * s) ]
             (RGB 40 80 150) (Some (3 * s)));;
  emit (Line [ (cx + 16 * s, cy - 6 * s); (cx + 8 * s, cy + 10 * s) ]
             (RGB 40 80 150) (Some (3 * s)));;
  (* Overall pocket *)
  emit (RoundedRectangle (Box (cx - 8 * s) (cy + 16 * s) (cx + 8 * s) (cy + 28 * s))
                         (2 * s) (Some (RGB 40 80 150)) (Some (RGB 30 60 120)) (Some s));;
  (* Arms *)
  for_each [-1; 1] (fun ax_sign =>
    let ax := cx + ax_sign * 28 * s in
    emit (RoundedRectangle (Box (ax - 6 * s) cy (ax + 6 * s) (cy + 30 * s))
                           (3 * s) (Some (RGB 210 160 110)) (Some (RGB 160 110 60)) None);;
    (* Hands *)
    emit (Ellipse (Box (ax - 7 * s) (cy + 26 * s) (ax + 7 * s) (cy + 36 * s))
                  (Some (RGB 220 170 120)) None None));;
  (* Head *)
  let head_cy := cy - 28 * s in
  outlined_circle cx head_cy (22 * s) (RGB 220 170 120) (RGB 180 130 80) 2 s;;
  (* Eyes *)
  for_each [-9; 9] (fun ex =>
    let ex_abs := cx + ex * s in
    let ey := head_cy - 2 * s in
    emit (Ellipse (Box (ex_abs - 5 * s) (ey - 6 * s) (ex_abs + 5 * s) (ey + 6 * s))
                  (Some (RGB 255 255 255)) None None);;
    emit (Ellipse (Box (ex_abs - 5 * s) (ey - 6 * s) (ex_abs + 5 * s) (ey + 6 * s))
                  None (Some (RGB 40 40 40)) (Some s));;
    emit (Ellipse (Box (ex_abs - 2 * s) (ey - 2 * s) (ex_abs + 2 * s) (ey + 3 * s))
                  (Some (RGB 50 100 50)) None None);;
    emit (Ellipse (Box (ex_abs - 1 * s) (ey - 3 * s) (ex_abs + 1 * s) (ey - 1 * s))
                  (Some (RGB 255 255 255)) None None));;
  (* Smile *)
  emit (Arc (Box (cx - 10 * s) (head_cy + 4 * s) (cx + 10 * s) (head_cy + 16 * s))
            10 170 (RGB 40 40 40) (2 * s));;
  (* Nose *)
  emit (Ellipse (Box (cx - 3 * s) (head_cy + 1 * s) (cx + 3 * s) (head_cy + 6 * s))
                (Some (RGB 200 150 100)) None None);;
  (* Cowboy hat *)
  let hat_cy := head_cy - 24 * s in
  (* Brim *)
  emit (Ellipse (Box (cx - 32 * s) (hat_cy - 2 * s) (cx + 32 * s) (hat_cy + 10 * s))
                (Some (RGB 140 90 40)) (Some (RGB 90 60 20)) (Some s));;
  (* Crown *)
  emit (RoundedRectangle (Box (cx - 18 * s) (hat_cy - 20 * s) (cx + 18 * s) (hat_cy + 4 * s))
                         (4 * s) (Some (RGB 160 100 40)) (Some (RGB 100 65 25)) (Some s));;
  (* Hat band *)
  emit (Rectangle (Box (cx - 18 * s) (hat_cy - 4 * s) (cx + 18 * s) (hat_cy + 1 * s))
                  (Some (RGB 180 40 40)) None None).

Definition generate_farmer : Gen unit :=
  img ← supersample_draw 180 216 farmer_draw_fn;
  save_asset img "farmer".

(** *** Backgrounds *)

(** [int(base + t * span)] of a gradient scanline. *)
Definition gradient_channel (base : Z) (t : PyFloat.float) (span : Z) : res Z :=
  PyFloat.to_int (fl base +. t *. fl span).

(** Grass blades. *)
Definition grass_blades (w h s : Z) : Draw unit :=
  for_each (py_range 200) (fun _ =>
    gx ← random_randint 0 w;
    gy ← random_randint 0 h;
    gh ← random_randint (6 * s) (14 * s);
    lean ← random_randint (-3 * s) (3 * s);
    green_var ← random_randint (-20) 20;
    let color := RGBA (60 + green_var) (160 + green_var) (30 + green_var) 120 in
    emit (Line [ (gx, gy); (gx + lean, gy - gh) ] color (Some (Z.max 1 s)))).

Definition background_grass_draw_fn (w h s : Z) : Draw unit :=
  random_seed 7;;
  (* Green gradient *)
  for_each (py_range h) (fun y =>
    '(r, g, b) ← lift (t ← PyFloat.int_truediv y h;
                       r ← gradient_channel 60 t 30;
                       g ← gradient_channel 140 t 40;
                       b ← gradient_channel 30 t 20;
                       mret (r, g, b));
    emit (Line [ (0, y); (w, y) ] (RGB r g b) None));;
  grass_blades w h s.

Definition generate_background_grass : Gen unit :=
  img ← supersample_draw 512 512 background_grass_draw_fn;
  save_asset img "background_grass".

Definition safe_pasture_draw_fn (w h s : Z) : Draw unit :=
  random_seed 13;;
  (* Darker green gradient *)
  for_each (py_range h) (fun y =>
    '(r, g, b) ← lift (t ← PyFloat.int_truediv y h;
                       r ← gradient_channel 40 t 25;
                       g ← gradient_channel 120 t 30;
                       b ← gradient_channel 20 t 15;
                       mret (r, g, b));
    emit (Line [ (0, y); (w, y) ] (RGB r g b) None));;
  (* Grass blades *)
  for_each (py_range 150) (fun _ =>
    gx ← random_randint 0 w;
    gy ← random_randint 0 h;
    gh ← random_randint (4 * s) (10 * s);
    lean ← random_randint (-2 * s) (2 * s);
    emit (Line [ (gx, gy); (gx + lean, gy - gh) ] (RGBA 50 140 25 100)
               (Some (Z.max 1 s))));;
  (* Flowers *)
  for_each (py_range 30) (fun _ =>
    fx ← random_randint 0 w;
    fy ← random_randint 0 h;
    let petal_colors := [RGB 255 200 50; RGB 255 100 100; RGB 200 100 255;
                         RGB 255 255 255] in
    pc ← random_choice petal_colors;
    fr ← random_randint (3 * s) (5 * s);
    angles ← lift (py_range3 0 360 72);
    for_each angles (fun angle =>
      '(px, py) ← lift (c ← math_cos (PyFloat.radians (fl angle));
                        a ← PyFloat.to_int (c *. fl fr);
                        sn ← math_sin (PyFloat.radians (fl angle));
                        b ← PyFloat.to_int (sn *. fl fr);
                        mret (fx + a, fy + b));
      emit (Ellipse (Box (px - 2 * s) (py - 2 * s) (px + 2 * s) (py + 2 * s))
                    (Some pc) None None));;
    emit (Ellipse (Box (fx - 2 * s) (fy - 2 * s) (fx + 2 * s) (fy + 2 * s))
                  (Some (RGB 255 220 50)) None None)).

Definition generate_safe_pasture : Gen unit :=
  img ← supersample_draw 512 512 safe_pasture_draw_fn;
  save_asset img "safe_pasture".

(** *** Ditch water *)

(** The seed and the wave phase of a frame. *)
Definition ditch_water_seed (_frame : Z) : Z := _frame * 100.

Definition ditch_water_phase (_frame : Z) : PyFloat.float :=
  fl _frame *. PyFloat.lit_2_1.

(** Blue gradient. *)
Definition ditch_water_gradient (w h : Z) : Draw unit :=
  for_each (py_range h) (fun y =>
    '(r, g, b) ← lift (t ← PyFloat.int_truediv y h;
                       r ← gradient_channel 30 t 20;
                       g ← gradient_channel 60 t 40;
                       b ← gradient_channel 140 t 40;
                       mret (r, g, b));
    emit (Line [ (0, y); (w, y) ] (RGB r g b) None)).

(** Wave patterns. *)
Definition ditch_water_waves (w h s : Z) (phase : PyFloat.float) : Draw unit :=
  wy_bases ← lift (py_range3 0 h (12 * s));
  for_each wy_bases (fun wy_base =>
    points ← lift (wxs ← py_range3 0 w (4 * s);
                   res_map (fun wx =>
                     q ← PyFloat.int_truediv wx (30 * s);
                     sn ← math_sin (q +. phase);
                     a ← PyFloat.to_int (sn *. fl 4 *. fl s);
                     let wy := wy_base + a in
                     mret (wx, wy)) wxs);
    if 1 <? Z.of_nat (length points) then
      emit (Line points (RGBA 80 140 220 100) (Some (2 * s)))
    else mret tt).

(** Shimmer highlights. *)
Definition ditch_water_shimmer (w h s : Z) : Draw unit :=
  for_each (py_range 20) (fun _ =>
    sx ← random_randint 0 w;
    sy ← random_randint 0 h;
    sw ← random_randint (8 * s) (20 * s);
    emit (Ellipse (Box sx sy (sx + sw) (sy + 2 * s))
                  (Some (RGBA 150 200 255 60)) None None)).

Definition ditch_water_draw_fn (_frame : Z) (w h s : Z) : Draw unit :=
  random_seed (ditch_water_seed _frame);;
  ditch_water_gradient w h;;
  let phase := ditch_water_phase _frame in
  ditch_water_waves w h s phase;;
  ditch_water_shimmer w h s.

(** One round of the loop of [generate_ditch_water]. *)
Definition ditch_water_frame (frame : Z) : Gen unit :=
  img ← supersample_draw 512 160 (ditch_water_draw_fn frame);
  save_asset img ("ditch_water_" +:+ pretty frame).

Definition generate_ditch_water : Gen unit :=
  gen_for_each (py_range2 1 4) ditch_water_frame.

(** Texture. *)
Definition ditch_edge_texture (w h s : Z) : Draw unit :=
  for_each (py_range 80) (fun _ =>
    x ← random_randint 0 w;
    y ← random_randint 0 h;
    r ← random_randint (1 * s) (3 * s);
    shade ← random_randint (-20) 20;
    emit (Ellipse (Box (x - r) (y - r) (x + r) (y + r))
                  (Some (RGB (100 + shade) (60 + shade) (30 + shade))) None None)).

Definition ditch_edge_draw_fn (w h s : Z) : Draw unit :=
  random_seed 55;;
  (* Brown dirt *)
  emit (Rectangle (Box 0 0 w h) (Some (RGB 120 80 40)) None None);;
  ditch_edge_texture w h s;;
  (* Grass on top *)
  xs ← lift (py_range3 0 w (3 * s));
  for_each xs (fun x =>
    gh ← random_randint (2 * s) (6 * s);
    lean ← random_randint (-1 * s) (1 * s);
    emit (Line [ (x, 0); (x + lean, - gh) ] (RGBA 70 150 30 180)
               (Some (Z.max 1 s)))).

Definition generate_ditch_edge : Gen unit :=
  img ← supersample_draw 512 24 ditch_edge_draw_fn;
  save_asset img "ditch_edge".

(** *** Fence *)

Definition fence_post_draw_fn (w h s : Z) : Draw unit :=
  (* Wooden post with grain *)
  emit (RoundedRectangle (Box (2 * s) 0 (w - 2 * s) h) (3 * s)
                         (Some (RGB 140 90 45)) (Some (RGB 90 55 25)) (Some (2 * s)));;
  (* Grain lines *)
  random_seed 22;;
  for_each (py_range 8) (fun _ =>
    gx ← random_randint (4 * s) (w - 4 * s);
    y0 ← random_randint 0 (h / 4);
    dx ← random_randint (-2 * s) (2 * s);
    y1 ← random_randint (h * 3 / 4) h;
    emit (Line [ (gx, y0); (gx + dx, y1) ] (RGBA 120 75 35 80) (Some (Z.max 1 s))));;
  (* Nail at top *)
  emit (Ellipse (Box (w / 2 - 2 * s) (6 * s) (w / 2 + 2 * s) (10 * s))
                (Some (RGB 80 80 80)) None None).

Definition generate_fence_post : Gen unit :=
  img ← supersample_draw 24 120 fence_post_draw_fn;
  save_asset img "fence_post".

Definition fence_rail_draw_fn (w h s : Z) : Draw unit :=
  emit (RoundedRectangle (Box 0 (2 * s) w (h - 2 * s)) (2 * s)
                         (Some (RGB 160 105 55)) (Some (RGB 100 65 30)) (Some s));;
  (* Grain *)
  random_seed 33;;
  for_each (py_range 15) (fun _ =>
    gy ← random_randint (3 * s) (h - 3 * s);
    gx1 ← random_randint 0 (w / 3);
    gx2 ← random_randint (w * 2 / 3) w;
    emit (Line [ (gx1, gy); (gx2, gy) ] (RGBA 140 85 40 60) (Some (Z.max 1 s)))).

Definition generate_fence_rail : Gen unit :=
  img ← supersample_draw 512 18 fence_rail_draw_fn;
  save_asset img "fence_rail".

(** *** Gate *)

Definition gate_door_draw_fn (w h s : Z) : Draw unit :=
  (* Wooden planks *)
  let plank_w := w / 4 in
  for_each (py_range 4) (fun i =>
    let px := i * plank_w in
    shade ← lift (py_index [0; 10; -5; 8] i);
    let color := RGB (150 + shade) (95 + shade) (45 + shade) in
    emit (Rectangle (Box (px + s) (2 * s) (px + plank_w - s) (h - 2 * s))
                    (Some color) None None);;
    emit (Rectangle (Box (px + s) (2 * s) (px + plank_w - s) (h - 2 * s))
                    None (Some (RGB 100 60 25)) (Some s)));;
  (* Cross-brace *)
  emit (Line [ (4 * s, 4 * s); (w - 4 * s, h - 4 * s) ] (RGB 120 70 30) (Some (3 * s)));;
  emit (Line [ (4 * s, h - 4 * s); (w - 4 * s, 4 * s) ] (RGB 120 70 30) (Some (3 * s)));;
  (* Iron hinges *)
  for_each [PyFloat.lit_0_2; PyFloat.lit_0_8] (fun hy_ratio =>
    hy ← lift (PyFloat.to_int (fl h *. hy_ratio));
    emit (RoundedRectangle (Box 0 (hy - 3 * s) (12 * s) (hy + 3 * s)) s
                           (Some (RGB 60 60 60)) None None);;
    emit (Ellipse (Box (8 * s) (hy - 2 * s) (12 * s) (hy + 2 * s))
                  (Some (RGB 50 50 50)) None None)).

Definition generate_gate_door : Gen unit :=
  img ← supersample_draw 240 108 gate_door_draw_fn;
  save_asset img "gate_door".

Definition gate_post_draw_fn (w h s : Z) : Draw unit :=
  (* Thicker wooden post *)
  emit (RoundedRectangle (Box (3 * s) (8 * s) (w - 3 * s) h) (3 * s)
                         (Some (RGB 120 75 35)) (Some (RGB 80 50 20)) (Some (2 * s)));;
  (* Grain *)
  random_seed 44;;
  for_each (py_range 6) (fun _ =>
    gx ← random_randint (5 * s) (w - 5 * s);
    dx ← random_randint (- s) s;
    emit (Line [ (gx, 10 * s); (gx + dx, h - 5 * s) ] (RGBA 100 60 25 70)
               (Some (Z.max 1 s))));;
  (* Iron cap *)
  emit (RoundedRectangle (Box (2 * s) 0 (w - 2 * s) (12 * s)) (2 * s)
                         (Some (RGB 70 70 70)) (Some (RGB 40 40 40)) (Some s));;
  (* Cap highlight *)
  emit (Line [ (5 * s, 3 * s); (w - 5 * s, 3 * s) ] (RGBA 100 100 100 150) (Some s)).

Definition generate_gate_post : Gen unit :=
  img ← supersample_draw 36 144 gate_post_draw_fn;
  save_asset img "gate_post".

(** *** Clouds *)

Definition clouds_draw_fn (_v : Z) (w h s : Z) : Draw unit :=
  let cx := w / 2 in
  let cy := h / 2 + 10 * s in
  random_seed (_v * 77);;
  (* Cloud puffs *)
  let puffs := [ (0, 0, 35); (-30, 5, 28); (25, 3, 30); (-15, -10, 25);
                 (18, -8, 22); (35, 8, 20); (-38, 10, 18) ] in
  (* Slight variation per cloud *)
  for_each puffs (fun '(px, py, pr) =>
    r ← random_randint (-5) 5;
    let px := px + r in
    r ← random_randint (-3) 3;
    let py := py + r in
    r ← random_randint (-3) 3;
    let pr := pr + (r + (_v - 2) * 2) in
    let pr := Z.max 12 pr in
    let x := cx + px * s in
    let y := cy + py * s in
    let r := pr * s in
    (* Soft shadow *)
    emit (Ellipse (Box (x - r) (y - r + 4 * s) (x + r) (y + r + 4 * s))
                  (Some (RGBA 200 200 210 40)) None None);;
    (* White puff *)
    emit (Ellipse (Box (x - r) (y - r) (x + r) (y + r))
                  (Some (RGBA 255 255 255 230)) None None));;
  (* Highlight puffs *)
  for_each [ (-5, -12, 20); (10, -10, 18) ] (fun '(px, py, pr) =>
    let x := cx + px * s in
    let y := cy + py * s in
    let r := (pr + (_v - 2)) * s in
    emit (Ellipse (Box (x - r) (y - r) (x + r) (y + r))
                  (Some (RGBA 255 255 255 250)) None None)).

Definition generate_clouds : Gen unit :=
  gen_for_each (py_range2 1 4) (fun variant =>
    img ← supersample_draw 240 120 (clouds_draw_fn variant);
    save_asset img ("cloud_" +:+ pretty variant)).

(** *** UI elements *)

(** [try: body except (OSError, IOError): handler]. *)
Definition except_OSError {A} (body handler : res A) : res A :=
  match body with
  | Raise OSError => handler
  | r => r
  end.

(** The font of [draw_text_outlined]: Helvetica, else SF NS Display, else
    the built-in font. *)
Definition resolve_font (font_size : Z) : res font :=
  except_OSError (truetype "/System/Library/Fonts/Helvetica.ttc" font_size)
    (except_OSError (truetype "/System/Library/Fonts/SFNSDisplay.ttf" font_size)
       (Ok load_default)).

Definition draw_text_outlined (pos : point) (text : string) (font_size : Z)
    (fill outline_color : color) (outline_w s : Z) : Draw font :=
  let '(x, y) := pos in
  (* Use default font scaled *)
  fnt ← lift (resolve_font font_size);
  (* Outline *)
  let ow := outline_w in
  for_each (py_range2 (- ow) (ow + 1)) (fun dx =>
    for_each (py_range2 (- ow) (ow + 1)) (fun dy =>
      if dx * dx + dy * dy <=? ow * ow + 1
      then emit (Text (x + dx, y + dy) text fnt outline_color "mm")
      else mret tt));;
  (* Fill *)
  emit (Text (x, y) text fnt fill "mm");;
  mret fnt.

(** The offsets at which [draw_text_outlined] stamps the outline, in the
    order of its two loops. *)
Definition halo_offsets (ow : Z) : list (Z * Z) :=
  dx ← py_range2 (- ow) (ow + 1);
  dy ← py_range2 (- ow) (ow + 1);
  if dx * dx + dy * dy <=? ow * ow + 1 then [(dx, dy)] else [].

Definition title_logo_draw_fn (w h s : Z) : Draw unit :=
  let cx := w / 2 in
  let cy := h / 2 in
  (* Background banner shape *)
  emit (RoundedRectangle (Box (20 * s) (20 * s) (w - 20 * s) (h - 20 * s)) (20 * s)
                         (Some (RGBA 60 130 40 200)) (Some (RGB 40 90 25))
                         (Some (3 * s)));;
  (* Title text *)
  draw_text_outlined (cx, cy - 12 * s) "COWS IN" (42 * s)
                     (RGB 255 255 255) (RGB 40 40 40) (3 * s) s;;
  draw_text_outlined (cx, cy + 30 * s) "THE DITCH" (48 * s)
                     (RGB 255 230 80) (RGB 40 40 40) (3 * s) s;;
  mret tt.

Definition generate_title_logo : Gen unit :=
  img ← supersample_draw 900 240 title_logo_draw_fn;
  save_asset img "title_logo".

Definition button_draw_fn (_text : string) (_color : Z * Z * Z) (w h s : Z)
    : Draw unit :=
  let cx := w / 2 in
  let cy := h / 2 in
  let '(r, g, b) := _color in
  (* Shadow *)
  emit (RoundedRectangle (Box (8 * s) (12 * s) (w - 8 * s) (h - 4 * s)) (20 * s)
                         (Some (RGBA 0 0 0 80)) None None);;
  (* Button body *)
  emit (RoundedRectangle (Box (8 * s) (8 * s) (w - 8 * s) (h - 12 * s)) (20 * s)
                         (Some (RGB r g b))
                         (Some (RGB (Z.max 0 (r - 40)) (Z.max 0 (g - 40))
                                    (Z.max 0 (b - 40))))
                         (Some (3 * s)));;
  (* Highlight *)
  emit (RoundedRectangle (Box (16 * s) (12 * s) (w - 16 * s) (cy - 4 * s)) (14 * s)
                         (Some (RGBA (Z.min 255 (r + 40)) (Z.min 255 (g + 40))
                                     (Z.min 255 (b + 40)) 100))
                         None None);;
  (* Text *)
  draw_text_outlined (cx, cy - 4 * s) _text (40 * s)
                     (RGB 255 255 255) (RGBA 0 0 0 180) (3 * s) s;;
  mret tt.

Definition generate_button (name text : string) (color : Z * Z * Z) : Gen unit :=
  img ← supersample_draw 600 180 (button_draw_fn text color);
  save_asset img name.

Definition heart_draw_fn (_color : Z * Z * Z) (_alpha : Z) (w h s : Z)
    : Draw unit :=
  let cx := w / 2 in
  let cy := h / 2 in
  let '(r, g, b) := _color in
  (* Heart shape via two circles + triangle *)
  let hr := 14 * s in
  (* Left bump *)
  emit (Ellipse (Box (cx - hr * 2) (cy - hr - 4 * s) cx (cy + hr / 2 - 4 * s))
                (Some (RGBA r g b _alpha)) None None);;
  (* Right bump *)
  emit (Ellipse (Box cx (cy - hr - 4 * s) (cx + hr * 2) (cy + hr / 2 - 4 * s))
                (Some (RGBA r g b _alpha)) None None);;
  (* Bottom triangle *)
  emit (Polygon [ (cx - hr * 2 + 2 * s, cy - 2 * s);
                  (cx + hr * 2 - 2 * s, cy - 2 * s);
                  (cx, cy + hr + 10 * s) ]
                (Some (RGBA r g b _alpha)) None None);;
  (* Outline *)
  let outline_col := RGBA (Z.max 0 (r - 60)) (Z.max 0 (g - 60)) (Z.max 0 (b - 60))
                          _alpha in
  emit (Ellipse (Box (cx - hr * 2) (cy - hr - 4 * s) cx (cy + hr / 2 - 4 * s))
                None (Some outline_col) (Some (2 * s)));;
  emit (Ellipse (Box cx (cy - hr - 4 * s) (cx + hr * 2) (cy + hr / 2 - 4 * s))
                None (Some outline_col) (Some (2 * s)));;
  (* Highlight *)
  let hl_r := 6 * s in
  emit (Ellipse (Box (cx - 8 * s) (cy - 10 * s) (cx - 8 * s + hl_r * 2)
                     (cy - 10 * s + hl_r))
                (Some (RGBA 255 255 255 (Z.min 255 (_alpha / 2)))) None None).

Definition generate_heart (name : string) (color : Z * Z * Z) (alpha : Z)
    : Gen unit :=
  img ← supersample_draw 84 78 (heart_draw_fn color alpha);
  save_asset img name.

Definition score_badge_draw_fn (w h s : Z) : Draw unit :=
  (* Rounded badge *)
  emit (RoundedRectangle (Box (4 * s) (4 * s) (w - 4 * s) (h - 4 * s)) (16 * s)
                         (Some (RGBA 40 40 60 200)) (Some (RGBA 80 80 120 200))
                         (Some (2 * s)));;
  (* Inner glow *)
  emit (RoundedRectangle (Box (8 * s) (8 * s) (w - 8 * s) (h - 8 * s)) (14 * s)
                         (Some (RGBA 50 50 70 100)) None None).

Definition generate_score_badge : Gen unit :=
  img ← supersample_draw 480 120 score_badge_draw_fn;
  save_asset img "score_badge".

Definition game_over_banner_draw_fn (w h s : Z) : Draw unit :=
  let cx := w / 2 in
  let cy := h / 2 in
  (* Dark banner *)
  emit (RoundedRectangle (Box (10 * s) (20 * s) (w - 10 * s) (h - 20 * s)) (16 * s)
                         (Some (RGBA 40 15 15 230)) (Some (RGB 180 40 40))
                         (Some (3 * s)));;
  (* Text *)
  draw_text_outlined (cx, cy) "GAME OVER" (56 * s)
                     (RGB 255 60 60) (RGB 40 10 10) (4 * s) s;;
  mret tt.

Definition generate_game_over_banner : Gen unit :=
  img ← supersample_draw 900 240 game_over_banner_draw_fn;
  save_asset img "game_over_banner".

Definition gate_indicator_draw_fn (_color : Z * Z * Z) (w h s : Z) : Draw unit :=
  let cx := w / 2 in
  let cy := h / 2 in
  let '(r, g, b) := _color in
  (* Outer ring *)
  emit (Ellipse (Box (2 * s) (2 * s) (w - 2 * s) (h - 2 * s))
                (Some (RGB 40 40 40)) (Some (RGB 80 80 80)) (Some (2 * s)));;
  (* Inner glow *)
  emit (Ellipse (Box (6 * s) (6 * s) (w - 6 * s) (h - 6 * s))
                (Some (RGB r g b)) None None);;
  (* Highlight *)
  emit (Ellipse (Box (10 * s) (8 * s) (w / 2) (h / 2 - 2 * s))
                (Some (RGBA (Z.min 255 (r + 80)) (Z.min 255 (g + 80))
                            (Z.min 255 (b + 80)) 140))
                None None).

Definition generate_gate_indicators : Gen unit :=
  gen_for_each [ ("open", (40, 200, 40)); ("closed", (200, 40, 40)) ]
    (fun '(state, color) =>
      img ← supersample_draw 48 48 (gate_indicator_draw_fn color);
      save_asset img ("gate_indicator_" +:+ state)).

(** *** Particles *)

Definition generate_particle (name : string) (size_px : Z) (draw_fn : draw_func)
    : Gen unit :=
  let wrapper : draw_func := fun w h s => draw_fn w h s in
  img ← supersample_draw size_px size_px wrapper;
  save_asset img name.

(** Splash droplet. *)
Definition splash (w h s : Z) : Draw unit :=
  let cx := w / 2 in
  let cy := h / 2 in
  emit (Ellipse (Box (cx - 5 * s) (cy - 3 * s) (cx + 5 * s) (cy + 5 * s))
                (Some (RGBA 100 160 240 200)) None None);;
  emit (Polygon [ (cx, cy - 6 * s); (cx - 3 * s, cy - 1 * s); (cx + 3 * s, cy - 1 * s) ]
                (Some (RGBA 100 160 240 200)) None None);;
  emit (Ellipse (Box (cx - 2 * s) (cy - 1 * s) (cx + 1 * s) (cy + 1 * s))
                (Some (RGBA 180 220 255 180)) None None).

(** Dust puff. *)
Definition dust (w h s : Z) : Draw unit :=
  let cx := w / 2 in
  let cy := h / 2 in
  emit (Ellipse (Box (cx - 4 * s) (cy - 4 * s) (cx + 4 * s) (cy + 4 * s))
                (Some (RGBA 160 130 80 150)) None None);;
  emit (Ellipse (Box (cx - 2 * s) (cy - 2 * s) (cx + 2 * s) (cy + 2 * s))
                (Some (RGBA 180 150 100 100)) None None).

(** Grass blade. *)
Definition grass_blade (w h s : Z) : Draw unit :=
  let cx := w / 2 in
  emit (Polygon [ (cx - 2 * s, h - s); (cx + 2 * s, h - s); (cx + s, s); (cx - s, s) ]
                (Some (RGBA 60 160 30 180)) None None).

(** Star. *)
Definition star (w h s : Z) : Draw unit :=
  let cx := w / 2 in
  let cy := h / 2 in
  let r_outer := 6 * s in
  let r_inner := 3 * s in
  points ← lift (res_map (fun i =>
    let angle := PyFloat.radians (fl (i * 36 - 90)) in
    let r := if i mod 2 =? 0 then r_outer else r_inner in
    c ← math_cos angle;
    a ← PyFloat.to_int (c *. fl r);
    sn ← math_sin angle;
    b ← PyFloat.to_int (sn *. fl r);
    mret (cx + a, cy + b)) (py_range 10));
  emit (Polygon points (Some (RGBA 255 220 50 230)) None None);;
  emit (Polygon points None (Some (RGB 200 170 20)) (Some (Z.max 1 s))).

(** Sparkle. *)
Definition sparkle (w h s : Z) : Draw unit :=
  let cx := w / 2 in
  let cy := h / 2 in
  let r := 3 * s in
  emit (Ellipse (Box (cx - r) (cy - r) (cx + r) (cy + r))
                (Some (RGBA 255 255 255 200)) None None);;
  emit (Ellipse (Box (cx - r / 2) (cy - r / 2) (cx + r / 2) (cy + r / 2))
                (Some (RGBA 255 255 255 250)) None None).

Definition generate_particles : Gen unit :=
  generate_particle "particle_splash" 16 splash;;
  generate_particle "particle_dust" 12 dust;;
  generate_particle "particle_grass" 8 grass_blade;;
  generate_particle "particle_star" 16 star;;
  generate_particle "particle_sparkle" 8 sparkle.

(** *** Main *)

(** The generators in the order [main] runs them (its progress lines on
    standard output are left out). *)
Definition generators : list (string * Gen unit) := [
  ("Cow walk sprites", generate_cow_walk);
  ("Cow drowning sprite", generate_cow_drowning);
  ("Farmer sprite", generate_farmer);
  ("Background grass", generate_background_grass);
  ("Safe pasture", generate_safe_pasture);
  ("Ditch water (3 frames)", generate_ditch_water);
  ("Ditch edge", generate_ditch_edge);
  ("Fence post", generate_fence_post);
  ("Fence rail", generate_fence_rail);
  ("Gate door", generate_gate_door);
  ("Gate post", generate_gate_post);
  ("Clouds (3 variants)", generate_clouds);
  ("Title logo", generate_title_logo);
  ("Play button", generate_button "button_play" "PLAY" (60, 180, 60));
  ("Replay button", generate_button "button_replay" "PLAY AGAIN" (60, 160, 60));
  ("Heart full", generate_heart "heart_full" (220, 40, 40) 255);
  ("Heart empty", generate_heart "heart_empty" (120, 120, 120) 100);
  ("Score badge", generate_score_badge);
  ("Game over banner", generate_game_over_banner);
  ("Gate indicators", generate_gate_indicators);
  ("Particle effects", generate_particles)
].

Definition main : Gen unit :=
  gen_for_each generators (fun '(name, gen) => gen).

(** *** What a run leaves behind *)

(** The draw calls of a run. *)
Definition calls {A} (m : Draw A) (g : rng) : res (list draw_cmd) :=
  match m g with
  | Ok (_, _, ops) => Ok ops
  | Raise e => Raise e
  end.

(** Drawing code that neither reads nor advances the generator. *)
Definition rng_free {A} (m : Draw A) : Prop :=
  ∃ r : res (A * list draw_cmd),
    ∀ g, m g = match r with
               | Ok (a, ops) => Ok (a, g, ops)
               | Raise e => Raise e
               end.

(** Drawing code whose whole outcome is fixed before it looks at the
    generator it was handed: it reseeds first. *)
Definition seeded {A} (m : Draw A) : Prop :=
  ∃ r : res (A * rng * list draw_cmd), ∀ g, m g = r.

(** Drawing code that issues the same draw calls whatever state the
    generator is in when it starts. *)
Definition deterministic {A} (m : Draw A) : Prop :=
  ∃ r : res (list draw_cmd), ∀ g, calls m g = r.

(** The disk: directories and files. *)
Definition disk : Type := gset string * gmap string file.

Definition disk_of (w : world) : disk := (w_dirs w, w_files w).

(** The disk after a run. *)
Definition disk_outcome {A} (r : res (A * world)) : res disk :=
  match r with
  | Ok (_, w) => Ok (disk_of w)
  | Raise e => Raise e
  end.

Inductive fs_effect : Type :=
  | MkDir (d : string)
  | WriteFile (p : string) (f : file).

Definition apply_effect (dk : disk) (e : fs_effect) : disk :=
  match e with
  | MkDir d => ({[ d ]} ∪ dk.1, dk.2)
  | WriteFile p f => (dk.1, <[ p := f ]> dk.2)
  end.

Definition apply_effects (E : list fs_effect) (dk : disk) : disk :=
  fold_left apply_effect E dk.

(** Generation whose effect on the disk is a fixed list of writes: it
    depends neither on the generator state nor on what the disk held. *)
Definition insulated {A} (m : Gen A) : Prop :=
  ∃ r : res (A * list fs_effect),
    ∀ w, match r with
         | Ok (a, E) => ∃ w', m w = Ok (a, w') ∧ disk_of w' = apply_effects E (disk_of w)
         | Raise e => m w = Raise e
         end.

(** Every returning run of [m] yields a value in [Q] and draw calls in
    [P]. *)
Definition draws {A} (m : Draw A) (Q : A -> Prop) (P : draw_cmd -> Prop) : Prop :=
  ∀ g a g' ops, m g = Ok (a, g', ops) → Q a ∧ Forall P ops.

(** The directory [d] of [ensure_imageset] and the three files that
    [save_asset] writes. *)
Definition bundle_dir (name : string) : string :=
  path_join ASSETS_DIR (name +:+ ".imageset").

Definition bundle_paths (name : string) : list string :=
  [ path_join (bundle_dir name) "Contents.json";
    path_join (bundle_dir name) (name +:+ "@3x.png");
    path_join (bundle_dir name) (name +:+ "@2x.png") ].

(** Code that, when it returns, has issued no draw call. *)
Definition silent {A} (m : Draw A) : Prop :=
  draws m (fun _ => True) (fun _ => False).

(** The world after [save_asset] has written a bundle whose @2x image
    has size [(w2, h2)]. *)
Definition saved (img : image) (name : string) (w2 h2 : Z) (w : world) : world :=
  let d := path_join ASSETS_DIR (name +:+ ".imageset") in
  World (w_rng w) ({[ d ]} ∪ w_dirs w)
        (<[ path_join d (name +:+ "@2x.png") := FPng (resize img (w2, h2) LANCZOS) ]>
           (<[ path_join d (name +:+ "@3x.png") := FPng img ]>
              (<[ path_join d "Contents.json" := FJson (contents_json name) ]>
                 (w_files w)))).

(** *** Colours and geometry of a draw call *)

Definition channel_ok (v : Z) : Prop := 0 <= v <= 255.

Definition color_ok (c : color) : Prop :=
  match c with
  | RGB r g b => channel_ok r ∧ channel_ok g ∧ channel_ok b
  | RGBA r g b a => channel_ok r ∧ channel_ok g ∧ channel_ok b ∧ channel_ok a
  end.

Definition opt_color_ok (c : option color) : Prop :=
  match c with
  | Some c => color_ok c
  | None => True
  end.

(** Every colour passed in the call has its channels in [0, 255]. *)
Definition cmd_colors_ok (c : draw_cmd) : Prop :=
  match c with
  | Ellipse _ fill outline _ => opt_color_ok fill ∧ opt_color_ok outline
  | Rectangle _ fill outline _ => opt_color_ok fill ∧ opt_color_ok outline
  | RoundedRectangle _ _ fill outline _ => opt_color_ok fill ∧ opt_color_ok outline
  | Polygon _ fill outline _ => opt_color_ok fill ∧ opt_color_ok outline
  | Line _ fill _ => color_ok fill
  | Arc _ _ _ fill _ => color_ok fill
  | Text _ _ _ fill _ => color_ok fill
  end.

(** A box whose bounds are in order. *)
Definition box_normalized (b : box) : Prop := bx0 b <= bx1 b ∧ by0 b <= by1 b.

(** The box of a call, for the shapes that take one. *)
Definition cmd_box (c : draw_cmd) : option box :=
  match c with
  | Ellipse xy _ _ _ => Some xy
  | Rectangle xy _ _ _ => Some xy
  | RoundedRectangle xy _ _ _ _ => Some xy
  | Arc xy _ _ _ _ => Some xy
  | _ => None
  end.

Definition cmd_box_normalized (c : draw_cmd) : Prop :=
  match cmd_box c with
  | Some b => box_normalized b
  | None => True
  end.

(** A polyline call has at least two points. *)
Definition line_has_segment (c : draw_cmd) : Prop :=
  match c with
  | Line xy _ _ => (2 <= length xy)%nat
  | _ => True
  end.

(** The canvas pixel [p] is touched by none of the calls. *)
Definition uncovered (ops : list draw_cmd) (p : point) : Prop :=
  Forall (fun c => ¬ covers c p) ops.

(** A polygon call has at least three vertices. *)
Definition polygon_has_area (c : draw_cmd) : Prop :=
  match c with
  | Polygon xy _ _ _ => (3 <= length xy)%nat
  | _ => True
  end.

(** A call Pillow takes without complaint: its box in order, its colours
    in range, its polyline or polygon with enough points. *)
Definition cmd_well_formed (c : draw_cmd) : Prop :=
  cmd_box_normalized c ∧ cmd_colors_ok c ∧ line_has_segment c ∧ polygon_has_area c.

(** Drawing code that returns from every generator state, with a value
    in [Q] and draw calls in [P]. *)
Definition total {A} (m : Draw A) (Q : A -> Prop) (P : draw_cmd -> Prop) : Prop :=
  ∀ g, ∃ a g' ops, m g = Ok (a, g', ops) ∧ Q a ∧ Forall P ops.

(** *** What the libraries are assumed to do *)

(** A font file that cannot be loaded fails with [OSError]. *)
Definition fonts_fail_with_OSError : Prop :=
  ∀ path size e, truetype path size = Raise e → e = OSError.

(** On a finite argument, [math.sin] and [math.cos] return a float of
    magnitude below 2. *)
Definition libm_in_range : Prop :=
  ∀ x, PyFloat.is_finite x = true →
       (∃ y, math_sin x = Ok y ∧ PyFloat.fbounded (-52) y = true)
       ∧ (∃ y, math_cos x = Ok y ∧ PyFloat.fbounded (-52) y = true).

(** *** The sprites of a run *)

Definition byte (v : Z) : bool := (0 <=? v) && (v <=? 255).

(** A gradient scanline colour that was computed and is in range. *)
Definition rgb_in_range (r : res (Z * Z * Z)) : bool :=
  match r with
  | Ok (r, g, b) => byte r && byte g && byte b
  | Raise _ => false
  end.

(** A scanline colour that was computed and is [v]. *)
Definition rgb_is (r : res (Z * Z * Z)) (v : Z * Z * Z) : bool :=
  match r with
  | Ok (r, g, b) => (r =? v.1.1) && (g =? v.1.2) && (b =? v.2)
  | Raise _ => false
  end.

(** A vertical gradient computed in integers: the scanline of row [y]
    has the channels [base + y * span / h]. *)
Definition gradient_rows (w h : Z) (base span : Z * Z * Z) : list draw_cmd :=
  (fun y => Line [ (0, y); (w, y) ]
                 (RGB (base.1.1 + y * span.1.1 / h)
                      (base.1.2 + y * span.1.2 / h)
                      (base.2 + y * span.2 / h))
                 None)
  <$> py_range h.

(** A sprite: bundle name, @3x size and draw function. *)
Definition sprite : Type := string * (Z * Z) * draw_func.

(** The two lines every generator ends with:
    [img = supersample_draw(W, H, draw_fn); save_asset(img, name)]. *)
Definition export (sp : sprite) : Gen unit :=
  let '(name, (W, H), draw_fn) := sp in
  img ← supersample_draw W H draw_fn;
  save_asset img name.

(** The sprites that the generators of [main] export, in order, with the
    loops unrolled and the names of the f-strings written out. *)
Definition sprites : list sprite := [
  ("cow_walk_1", (156, 132), fun w h s => draw_cow w h s 1);
  ("cow_walk_2", (156, 132), fun w h s => draw_cow w h s 2);
  ("cow_drowning", (156, 108), cow_drowning_draw_fn);
  ("farmer", (180, 216), farmer_draw_fn);
  ("background_grass", (512, 512), background_grass_draw_fn);
  ("safe_pasture", (512, 512), safe_pasture_draw_fn);
  ("ditch_water_1", (512, 160), ditch_water_draw_fn 1);
  ("ditch_water_2", (512, 160), ditch_water_draw_fn 2);
  ("ditch_water_3", (512, 160), ditch_water_draw_fn 3);
  ("ditch_edge", (512, 24), ditch_edge_draw_fn);
  ("fence_post", (24, 120), fence_post_draw_fn);
  ("fence_rail", (512, 18), fence_rail_draw_fn);
  ("gate_door", (240, 108), gate_door_draw_fn);
  ("gate_post", (36, 144), gate_post_draw_fn);
  ("cloud_1", (240, 120), clouds_draw_fn 1);
  ("cloud_2", (240, 120), clouds_draw_fn 2);
  ("cloud_3", (240, 120), clouds_draw_fn 3);
  ("title_logo", (900, 240), title_logo_draw_fn);
  ("button_play", (600, 180), button_draw_fn "PLAY" (60, 180, 60));
  ("button_replay", (600, 180), button_draw_fn "PLAY AGAIN" (60, 160, 60));
  ("heart_full", (84, 78), heart_draw_fn (220, 40, 40) 255);
  ("heart_empty", (84, 78), heart_draw_fn (120, 120, 120) 100);
  ("score_badge", (480, 120), score_badge_draw_fn);
  ("game_over_banner", (900, 240), game_over_banner_draw_fn);
  ("gate_indicator_open", (48, 48), gate_indicator_draw_fn (40, 200, 40));
  ("gate_indicator_closed", (48, 48), gate_indicator_draw_fn (200, 40, 40));
  ("particle_splash", (16, 16), splash);
  ("particle_dust", (12, 12), dust);
  ("particle_grass", (8, 8), grass_blade);
  ("particle_star", (16, 16), star);
  ("particle_sparkle", (8, 8), sparkle)
].

(** A sprite whose size fits the @2x computation and whose draw function,
    on the supersampled canvas, returns with well-formed calls only. *)
Definition sprite_ready (sp : sprite) : Prop :=
  0 <= sp.1.2.1 < 2 ^ 51 ∧ 0 <= sp.1.2.2 < 2 ^ 51
  ∧ total (sp.2 (sp.1.2.1 * SUPERSAMPLE) (sp.1.2.2 * SUPERSAMPLE) SUPERSAMPLE)
          (fun _ => True) cmd_well_formed.

(** The files [fs] hold the bundle of the sprite: the manifest, an RGBA
    @3x image of the sprite's size and its LANCZOS reduction to two
    thirds. *)
Definition exported (sp : sprite) (fs : gmap string file) : Prop :=
  let name := sp.1.1 in
  let d := bundle_dir name in
  ∃ img3,
    fs !! path_join d "Contents.json" = Some (FJson (contents_json name))
    ∧ fs !! path_join d (name +:+ "@3x.png") = Some (FPng img3)
    ∧ fs !! path_join d (name +:+ "@2x.png")
      = Some (FPng (resize img3 (sp.1.2.1 * 2 / 3, sp.1.2.2 * 2 / 3) LANCZOS))
    ∧ im_mode img3 = "RGBA"
    ∧ im_size img3 = sp.1.2.

End Sprites.

(** ** CPython's generator: MT19937 *)

(** The Mersenne Twister behind the [random] module, with [random.seed]
    on an int and [Random._randbelow] as CPython writes them.  Words are
    32-bit unsigned with the wrap-around written out. *)
Module MT.

Definition N : nat := 624.
Definition M : nat := 397.
Definition MATRIX_A : Z := 0x9908b0df.
Definition UPPER_MASK : Z := 0x80000000.
Definition LOWER_MASK : Z := 0x7fffffff.

Definition u32 (x : Z) : Z := x mod 2 ^ 32.

Record state : Set := State { mt : list Z; index : nat }.

(** Reading the array: its cells hold 32-bit words. *)
Definition word (l : list Z) (i : nat) : Z := u32 (default 0 (l !! i)).

(** [init_genrand(s)]. *)
Fixpoint init_genrand_from (prev : Z) (mti : Z) (n : nat) : list Z :=
  match n with
  | O => []
  | S n' =>
      let x := u32 (1812433253 * Z.lxor prev (Z.shiftr prev 30) + mti) in
      x :: init_genrand_from x (mti + 1) n'
  end.

Definition init_genrand (s : Z) : list Z :=
  u32 s :: init_genrand_from (u32 s) 1 (N - 1).

(** The first loop of [init_by_array]: [k] rounds from [(i, j)]. *)
Fixpoint init_key_loop (key : list Z) (k : nat) (i j : nat) (l : list Z)
    : nat * list Z :=
  match k with
  | O => (i, l)
  | S k' =>
      let p := word l (i - 1) in
      let x := u32 (Z.lxor (word l i) (u32 (Z.lxor p (Z.shiftr p 30) * 1664525))
                    + word key j + Z.of_nat j) in
      let l := <[ i := x ]> l in
      let i := S i in
      let j := S j in
      let '(i, l) := if (N <=? i)%nat then (1%nat, <[ 0%nat := word l (N - 1) ]> l)
                     else (i, l) in
      let j := if (length key <=? j)%nat then 0%nat else j in
      init_key_loop key k' i j l
  end.

(** Its second loop. *)
Fixpoint init_mix_loop (k : nat) (i : nat) (l : list Z) : list Z :=
  match k with
  | O => l
  | S k' =>
      let p := word l (i - 1) in
      let x := u32 (Z.lxor (word l i) (u32 (Z.lxor p (Z.shiftr p 30) * 1566083941))
                    - Z.of_nat i) in
      let l := <[ i := x ]> l in
      let i := S i in
      let '(i, l) := if (N <=? i)%nat then (1%nat, <[ 0%nat := word l (N - 1) ]> l)
                     else (i, l) in
      init_mix_loop k' i l
  end.

Definition init_by_array (key : list Z) : state :=
  let l := init_genrand 19650218 in
  let '(i, l) := init_key_loop key (Nat.max N (length key)) 1 0 l in
  let l := init_mix_loop (N - 1) i l in
  State (<[ 0%nat := 0x80000000 ]> l) N.

(** The 32-bit words of [abs(n)], least significant first; at least one. *)
Definition key_of (n : Z) : list Z :=
  let a := Z.abs n in
  let keyused := if a =? 0 then 1 else Z.log2 a / 32 + 1 in
  map (fun i : nat => u32 (Z.shiftr a (32 * Z.of_nat i))) (seq 0 (Z.to_nat keyused)).

(** [random.seed(n)] for an int [n]. *)
Definition seed (n : Z) : state := init_by_array (key_of n).

Definition mag01 (y : Z) : Z := if Z.testbit y 0 then MATRIX_A else 0.

Definition twist_word (a b c : Z) : Z :=
  let y := Z.lor (Z.land a UPPER_MASK) (Z.land b LOWER_MASK) in
  Z.lxor (Z.lxor c (Z.shiftr y 1)) (mag01 y).

(** Regenerating the [N] words: word [kk] from words [kk], [kk+1] and
    [kk+M] (indices wrap), for [kk] from [kk] on. *)
Fixpoint twist_from (n kk : nat) (l : list Z) : list Z :=
  match n with
  | O => l
  | S n' =>
      let x := twist_word (word l kk) (word l (S kk mod N)) (word l ((kk + M) mod N)) in
      twist_from n' (S kk) (<[ kk := x ]> l)
  end.

Definition genrand_uint32 (st : state) : Z * state :=
  let '(State l i) := st in
  let '(l, i) := if (N <=? i)%nat then (twist_from N 0 l, 0%nat) else (l, i) in
  let y := word l i in
  let y := Z.lxor y (Z.shiftr y 11) in
  let y := Z.lxor y (Z.land (u32 (Z.shiftl y 7)) 0x9d2c5680) in
  let y := Z.lxor y (Z.land (u32 (Z.shiftl y 15)) 0xefc60000) in
  let y := Z.lxor y (Z.shiftr y 18) in
  (y, State l (S i)).

(** [getrandbits(k)]: 32-bit words, least significant first, the last one
    cut to the bits still wanted. *)
Fixpoint getrandbits_words (words : nat) (k : Z) (st : state) : Z * state :=
  match words with
  | O => (0, st)
  | S words' =>
      let '(r, st) := genrand_uint32 st in
      let r := if k <? 32 then Z.shiftr r (32 - k) else r in
      let '(hi, st) := getrandbits_words words' (k - 32) st in
      (r + Z.shiftl hi 32, st)
  end.

Definition getrandbits (k : Z) (st : state) : Z * state :=
  getrandbits_words (Z.to_nat ((k - 1) / 32 + 1)) k st.

(** [_randbelow_with_getrandbits(n)]: draw [n.bit_length()] bits until the
    value is below [n]; [None] when [fuel] draws were all rejected. *)
Fixpoint randbelow_fuel (fuel : nat) (n k : Z) (st : state) : option (Z * state) :=
  match fuel with
  | O => None
  | S fuel' =>
      let '(r, st) := getrandbits k st in
      if r <? n then Some (r, st) else randbelow_fuel fuel' n k st
  end.

Definition fuel : nat := 4096.

Definition randbelow (n : Z) (st : state) : Z * state :=
  if n <=? 0 then (0, st)
  else default (0, st) (randbelow_fuel fuel n (Z.log2 n + 1) st).

End MT.

(** ** Reference libraries *)

(** A small stand-in for each library interface, used to run the script's
    functions on concrete inputs. *)

(** Fonts: a machine without the two macOS font files, and one with
    Helvetica. *)
Inductive sys_font : Set :=
  | TrueTypeFont (path : string) (size : Z)
  | BuiltinFont.

Definition no_fonts : Fonts :=
  {| font := sys_font;
     truetype := fun _ _ => Raise OSError;
     load_default := BuiltinFont |}.

Definition mac_fonts : Fonts :=
  {| font := sys_font;
     truetype := fun path size =>
       if String.eqb path "/System/Library/Fonts/Helvetica.ttc"
       then Ok (TrueTypeFont path size) else Raise OSError;
     load_default := BuiltinFont |}.

(** A machine with both font files, whose loader rejects a size below 1
    with [ValueError], as Pillow does. *)
Definition sized_fonts : Fonts :=
  {| font := sys_font;
     truetype := fun path size =>
       if size <? 1 then Raise ValueError else Ok (TrueTypeFont path size);
     load_default := BuiltinFont |}.

(** A libm whose sine is flat: enough to run the code paths, not to draw
    waves. *)
Definition flat_libm : Libm :=
  {| math_sin := fun _ => Ok (S754_zero false);
     math_cos := fun _ => Ok (PyFloat.of_int 1) |}.

(** A box rasteriser: a draw call inks the bounding box of its shape, and
    resizing samples the nearest source pixel. *)
Module Raster.
Section WithFonts.

Context `{Fonts}.

Record image : Type := Image { mode : string; size : Z * Z; px : point -> pixel }.

Definition in_bounds (sz : Z * Z) (p : point) : bool :=
  (0 <=? p.1) && (p.1 <? sz.1) && (0 <=? p.2) && (p.2 <? sz.2).

Definition new (m : string) (sz : Z * Z) (c : color) : image :=
  Image m sz (fun _ => channels c).

Definition pixel_at (im : image) (p : point) : option pixel :=
  if in_bounds (size im) p then Some (px im p) else None.

Definition in_box (b : box) (grow : Z) (p : point) : bool :=
  (Z.min (bx0 b) (bx1 b) - grow <=? p.1) && (p.1 <=? Z.max (bx0 b) (bx1 b) + grow)
  && (Z.min (by0 b) (by1 b) - grow <=? p.2) && (p.2 <=? Z.max (by0 b) (by1 b) + grow).

(** Some segment or edge of the point list has [p] in its bounding box. *)
Fixpoint near_path (pts : list point) (grow : Z) (p : point) : bool :=
  match pts with
  | [] => false
  | a :: rest =>
      existsb (fun b => in_box (Box a.1 a.2 b.1 b.2) grow p) pts
      || near_path rest grow p
  end.

Definition stroke (width : option Z) : Z := Z.max 0 (default 1 width).

Definition covers_b (c : draw_cmd) (p : point) : bool :=
  match c with
  | Ellipse xy _ _ width => in_box xy (stroke width) p
  | Rectangle xy _ _ width => in_box xy (stroke width) p
  | RoundedRectangle xy _ _ _ width => in_box xy (stroke width) p
  | Polygon xy _ _ width => near_path xy (stroke width) p
  | Line xy _ width => near_path xy (stroke width) p
  | Arc xy _ _ _ width => in_box xy (Z.max 0 width) p
  | Text _ _ _ _ _ => true
  end.

Definition ink (c : draw_cmd) : pixel :=
  let pick (fill outline : option color) :=
    match fill, outline with
    | Some f, _ => channels f
    | None, Some o => channels o
    | None, None => transparent
    end in
  match c with
  | Ellipse _ fill outline _ => pick fill outline
  | Rectangle _ fill outline _ => pick fill outline
  | RoundedRectangle _ _ fill outline _ => pick fill outline
  | Polygon _ fill outline _ => pick fill outline
  | Line _ fill _ => channels fill
  | Arc _ _ _ fill _ => channels fill
  | Text _ _ _ fill _ => channels fill
  end.

Definition render (c : draw_cmd) (im : image) : image :=
  Image (mode im) (size im) (fun p => if covers_b c p then ink c else px im p).

Definition nearest (src dst : Z * Z) (p : point) : point :=
  (p.1 * src.1 / dst.1, p.2 * src.2 / dst.2).

Definition resize (im : image) (sz : Z * Z) (f : resample) : image :=
  Image (mode im) sz (fun p =>
    let q := nearest (size im) sz p in
    if in_bounds (size im) q then px im q else transparent).

End WithFonts.
End Raster.

(** * Properties *)

(** ** The reference libraries meet their interfaces *)

Lemma u32_nonneg x : 0 <= MT.u32 x.
Proof. unfold MT.u32. apply Z.mod_pos_bound. lia. Qed.

Lemma genrand_uint32_nonneg st : 0 <= fst (MT.genrand_uint32 st).
Proof.
  destruct st as [l i]. unfold MT.genrand_uint32.
  destruct (MT.N <=? i)%nat; cbn [fst];
    repeat first
      [ apply Z.lxor_nonneg; split; intros _
      | apply Z.shiftr_nonneg
      | apply Z.land_nonneg; left
      | apply u32_nonneg ].
Qed.

Lemma getrandbits_words_nonneg n k st : 0 <= fst (MT.getrandbits_words n k st).
Proof.
  revert k st. induction n as [|n IH]; intros k st; cbn; [lia|].
  pose proof (genrand_uint32_nonneg st) as Hr.
  destruct (MT.genrand_uint32 st) as [r st1]; cbn [fst] in Hr.
  specialize (IH (k - 32) st1).
  destruct (MT.getrandbits_words n (k - 32) st1) as [hi st2]; cbn [fst] in *.
  assert (0 <= Z.shiftl hi 32) by (apply Z.shiftl_nonneg; lia).
  destruct (k <? 32); [|lia].
  assert (0 <= Z.shiftr r (32 - k)) by (apply Z.shiftr_nonneg; lia). lia.
Qed.

Lemma randbelow_fuel_range fuel n k st r st' :
  MT.randbelow_fuel fuel n k st = Some (r, st') → 0 <= r < n.
Proof.
  revert st. induction fuel as [|fuel IH]; intros st; cbn; [discriminate|].
  unfold MT.getrandbits.
  pose proof (getrandbits_words_nonneg (Z.to_nat ((k - 1) / 32 + 1)) k st) as Hr.
  destruct (MT.getrandbits_words _ k st) as [r0 st0]; cbn [fst] in Hr.
  destruct (r0 <? n) eqn:Hlt.
  - intros [= <- <-]. apply Z.ltb_lt in Hlt. lia.
  - apply IH.
Qed.

Lemma MT_randbelow_range n st : 0 < n → 0 <= fst (MT.randbelow n st) < n.
Proof.
  intros Hn. unfold MT.randbelow.
  destruct (n <=? 0) eqn:Hle; [apply Z.leb_le in Hle; lia|].
  destruct (MT.randbelow_fuel MT.fuel n (Z.log2 n + 1) st) as [[r st']|] eqn:E;
    cbn; [eapply randbelow_fuel_range; eauto | lia].
Qed.

(** CPython's generator as the [random] module. *)
Definition mt_random : Random :=
  {| rng := MT.state;
     rseed := MT.seed;
     randbelow := MT.randbelow;
     randbelow_range := MT_randbelow_range |}.

Lemma raster_in_bounds sz x y :
  Raster.in_bounds sz (x, y) = true ↔ (0 <= x < sz.1 ∧ 0 <= y < sz.2).
Proof.
  unfold Raster.in_bounds; cbn [fst snd].
  rewrite !andb_true_iff, !Z.leb_le, !Z.ltb_lt. lia.
Qed.

Lemma raster_resize_clear `{Fonts} (im : Raster.image) w h f x y :
  0 <= x < w → 0 <= y < h →
  (∀ q px, q = Raster.nearest (Raster.size im) (w, h) (x, y) →
           Raster.pixel_at im q = Some px → px = transparent) →
  Raster.pixel_at (Raster.resize im (w, h) f) (x, y) = Some transparent.
Proof.
  intros Hx Hy Hq. unfold Raster.pixel_at at 1; cbn [Raster.resize Raster.size Raster.px].
  destruct (Raster.in_bounds (w, h) (x, y)) eqn:Hb.
  - f_equal.
    destruct (Raster.in_bounds (Raster.size im) _) eqn:Hs; [|reflexivity].
    eapply Hq; [reflexivity|]. unfold Raster.pixel_at. rewrite Hs. reflexivity.
  - exfalso. apply not_true_iff_false in Hb. apply Hb.
    apply raster_in_bounds. cbn. lia.
Qed.

(** The box rasteriser as Pillow. *)
Definition raster `{Fonts} : Imaging.
Proof.
  refine {| image := Raster.image;
            Image_new := Raster.new;
            render := Raster.render;
            resize := Raster.resize;
            im_size := Raster.size;
            im_mode := Raster.mode;
            pixel_at := Raster.pixel_at;
            covers := fun c p => Raster.covers_b c p = true;
            footprint := fun src dst f p q => q = Raster.nearest src dst p |}.
  - reflexivity.
  - reflexivity.
  - intros w h c x y Hx Hy. unfold Raster.pixel_at; cbn.
    destruct (Raster.in_bounds (w, h) (x, y)) eqn:Hb; [reflexivity|].
    exfalso. apply not_true_iff_false in Hb. apply Hb.
    apply raster_in_bounds. cbn. lia.
  - intros im x y px. unfold Raster.pixel_at.
    destruct (Raster.in_bounds _ _) eqn:Hb; [|discriminate].
    intros _. apply raster_in_bounds in Hb. exact Hb.
  - reflexivity.
  - reflexivity.
  - intros c im p Hc. unfold Raster.pixel_at; cbn.
    destruct (Raster.covers_b c p); [congruence|reflexivity].
  - reflexivity.
  - reflexivity.
  - intros im w h f x y Hx Hy Hq. apply raster_resize_clear; assumption.
Defined.

(** ** Float division by three *)

Lemma digits2_pos_size p : digits2_pos p = Pos.size p.
Proof. induction p; cbn; congruence. Qed.

Lemma digits2_bounds p :
  2 ^ (Zpos (digits2_pos p) - 1) <= Zpos p < 2 ^ Zpos (digits2_pos p).
Proof.
  rewrite digits2_pos_size.
  pose proof (Pos.size_gt p) as Hgt. pose proof (Pos.size_le p) as Hle.
  apply Pos2Z.pos_lt_pos in Hgt. apply Pos2Z.pos_le_pos in Hle.
  rewrite Pos2Z.inj_pow in Hgt, Hle.
  replace (Zpos (Pos.size p)) with (Zpos (Pos.size p) - 1 + 1) in Hle by lia.
  rewrite Z.pow_add_r in Hle by lia.
  change (Zpos p~0) with (2 * Zpos p) in Hle. lia.
Qed.

Lemma digits2_unique p d :
  2 ^ (d - 1) <= Zpos p < 2 ^ d -> Zpos (digits2_pos p) = d.
Proof.
  intros [Hlo Hhi]. pose proof (digits2_bounds p) as [Hlo' Hhi'].
  assert (0 < d).
  { destruct (Z.ltb_spec 0 d); [assumption|].
    exfalso. rewrite Z.pow_neg_r in Hlo by lia.
    assert (2 ^ d <= 2 ^ 0) by (apply Z.pow_le_mono_r; lia).
    change (2 ^ 0) with 1 in *. lia. }
  set (s := Zpos (digits2_pos p)) in *.
  assert (s - 1 < d) by (apply (Z.pow_lt_mono_r_iff 2); lia).
  assert (d - 1 < s) by (apply (Z.pow_lt_mono_r_iff 2); lia).
  lia.
Qed.

Lemma fexp_normal e : -1021 <= e -> fexp 53 1024 e = e - 53.
Proof. unfold fexp, emin. lia. Qed.

Lemma loc_of_shr_record_of_loc m l :
  loc_of_shr_record (shr_record_of_loc m l) = l.
Proof. destruct l as [|[]]; reflexivity. Qed.

Lemma shr_m_of_loc m l : shr_m (shr_record_of_loc m l) = m.
Proof. destruct l as [|[]]; reflexivity. Qed.

Lemma shr_1_m mrs : 0 <= shr_m mrs -> shr_m (shr_1 mrs) = shr_m mrs / 2.
Proof.
  destruct mrs as [m r s]; cbn [shr_m]. intros Hm.
  destruct m as [|[p|p|]|p]; try lia; cbn [shr_1 shr_m];
    rewrite <- ?Z.div2_div; reflexivity.
Qed.

Lemma round_nearest_even_range m l :
  m <= round_nearest_even m l <= m + 1.
Proof.
  unfold round_nearest_even. destruct l as [|[]]; try lia.
  destruct (Z.even m); lia.
Qed.

(** No shift for a 53-bit mantissa, one for a 54-bit one. *)
Lemma shr_fexp_53 m e l :
  2 ^ 52 <= m < 2 ^ 53 -> -1074 <= e ->
  shr_fexp 53 1024 m e l = (shr_record_of_loc m l, e).
Proof.
  intros Hm He. unfold shr_fexp.
  destruct m as [|p|p]; try lia.
  cbn [Zdigits2]. rewrite (digits2_unique p 53) by (cbn; lia).
  rewrite fexp_normal by lia.
  replace (53 + e - 53 - e) with 0 by lia. reflexivity.
Qed.

Lemma shr_fexp_54 m e l :
  2 ^ 53 <= m < 2 ^ 54 -> -1074 <= e ->
  shr_fexp 53 1024 m e l = (shr_1 (shr_record_of_loc m l), e + 1).
Proof.
  intros Hm He. unfold shr_fexp.
  destruct m as [|p|p]; try lia.
  cbn [Zdigits2]. rewrite (digits2_unique p 54) by (cbn; lia).
  rewrite fexp_normal by lia.
  replace (54 + e - 53 - e) with 1 by lia. reflexivity.
Qed.

(** The last step of [binary_round_aux] on a rounded mantissa. *)
Lemma normalize_rounded m e :
  2 ^ 52 <= m <= 2 ^ 53 -> -1074 <= e <= 900 ->
  ∃ mf ef,
    (let '(mrs, e') := shr_fexp 53 1024 m e loc_Exact in
     match shr_m mrs with
     | Z0 => S754_zero false
     | Zpos p => if e' <=? 1024 - 53 then S754_finite false p e'
                 else S754_infinity false
     | Zneg _ => S754_nan
     end) = S754_finite false mf ef
    ∧ e <= ef <= e + 1 ∧ Zpos mf * 2 ^ (ef - e) = m.
Proof.
  intros Hm He.
  destruct (Z.eq_dec m (2 ^ 53)) as [->|Hne].
  - rewrite shr_fexp_54 by (cbn; lia). cbn [shr_record_of_loc].
    cbn -[Z.leb Z.sub Z.add].
    destruct (e + 1 <=? 1024 - 53) eqn:E; [|apply Z.leb_gt in E; lia].
    eexists _, _. split; [reflexivity|].
    split; [lia|]. replace (e + 1 - e) with 1 by lia. reflexivity.
  - rewrite shr_fexp_53 by lia. rewrite shr_m_of_loc.
    destruct m as [|p|p]; try lia.
    destruct (e <=? 1024 - 53) eqn:E; [|apply Z.leb_gt in E; lia].
    eexists _, _. split; [reflexivity|].
    split; [lia|]. rewrite Z.sub_diag. cbn [Z.pow]. lia.
Qed.

(** Rounding a 53- or 54-bit mantissa: the result stays within two units
    of the input, and above its even part. *)
Lemma binary_round_aux_window q e l :
  2 ^ 52 <= q < 2 ^ 54 -> -1074 <= e <= 800 ->
  ∃ mf ef,
    binary_round_aux 53 1024 false q e l = S754_finite false mf ef
    ∧ e <= ef <= e + 2
    ∧ 2 * (q / 2) <= Zpos mf * 2 ^ (ef - e) <= q + 2.
Proof.
  intros Hq He. unfold binary_round_aux.
  destruct (Z.lt_ge_cases q (2 ^ 53)) as [H53|H54].
  - rewrite shr_fexp_53 by lia.
    rewrite shr_m_of_loc, loc_of_shr_record_of_loc.
    pose proof (round_nearest_even_range q l) as Hr.
    destruct (normalize_rounded (round_nearest_even q l) e) as (mf & ef & -> & Hef & Hv);
      [lia|lia|].
    exists mf, ef. split; [reflexivity|]. split; [lia|].
    rewrite Hv. pose proof (Z.mul_div_le q 2). lia.
  - rewrite shr_fexp_54 by lia.
    set (mrs := shr_1 (shr_record_of_loc q l)).
    assert (Hm : shr_m mrs = q / 2).
    { unfold mrs. rewrite shr_1_m; rewrite shr_m_of_loc; [reflexivity|lia]. }
    rewrite Hm.
    pose proof (round_nearest_even_range (q / 2) (loc_of_shr_record mrs)) as Hr.
    assert (2 ^ 52 <= q / 2 < 2 ^ 53).
    { split; [apply Z.div_le_lower_bound | apply Z.div_lt_upper_bound]; lia. }
    destruct (normalize_rounded (round_nearest_even (q / 2) (loc_of_shr_record mrs)) (e + 1))
      as (mf & ef & -> & Hef & Hv); [lia|lia|].
    exists mf, ef. split; [reflexivity|]. split; [lia|].
    replace (ef - e) with (ef - (e + 1) + 1) by lia.
    rewrite Z.pow_add_r by lia. change (2 ^ 1) with 2.
    rewrite Z.mul_assoc, Hv.
    pose proof (Z.mul_div_le q 2). pose proof (Z.mul_succ_div_gt q 2). lia.
Qed.

(** The quotient and remainder SFdiv rounds when dividing a mantissa of
    [d <= 52] bits by 3. *)
Lemma SFdiv_core_by_3 p d :
  Zpos (digits2_pos p) = d -> d <= 52 ->
  SFdiv_core_binary 53 1024 (Zpos p) 0 3 0 =
  (Zpos p * 2 ^ (55 - d) / 3, d - 55, new_location 3 (Zpos p * 2 ^ (55 - d) mod 3)).
Proof.
  intros Hd Hle. unfold SFdiv_core_binary.
  cbn [Zdigits2]. rewrite Hd. change (Zpos (digits2_pos 3)) with 2.
  assert (0 < d) by (rewrite <- Hd; lia).
  rewrite fexp_normal by lia.
  replace (Z.min (d + 0 - (2 + 0) - 53) (0 - 0)) with (d - 55) by lia.
  replace (0 - 0 - (d - 55)) with (55 - d) by lia.
  destruct (55 - d) as [|s|s] eqn:Hs; try lia.
  rewrite Z.shiftl_mul_pow2 by lia.
  unfold Z.div, Z.modulo.
  destruct (Z.div_eucl (Zpos p * 2 ^ Zpos s) 3) as [q r]. reflexivity.
Qed.

(** [int(n / 3)] is the floor of the quotient while [n] has at most 52
    bits. *)
Lemma truediv_3_floor n :
  0 <= n < 2 ^ 52 ->
  (q ← PyFloat.int_truediv n 3; PyFloat.to_int q) = Ok (n / 3).
Proof.
  intros [H0 Hn].
  destruct n as [|p|p]; [reflexivity| |lia].
  unfold PyFloat.int_truediv. cbn [Z.eqb PyFloat.exact].
  unfold SFdiv, PyFloat.prec, PyFloat.emax.
  set (d := Zpos (digits2_pos p)).
  pose proof (digits2_bounds p) as [Hlo Hhi]. fold d in Hlo, Hhi.
  assert (Hd0 : 0 < d) by (unfold d; lia).
  assert (Hd : d <= 52).
  { destruct (Z.le_gt_cases d 52) as [|Hgt]; [assumption|exfalso].
    assert (2 ^ 52 <= 2 ^ (d - 1)) by (apply Z.pow_le_mono_r; lia). lia. }
  rewrite (SFdiv_core_by_3 p d) by (auto; lia).
  cbn [xorb].
  (* the scale: Q = 8 * Q8 *)
  set (Q8 := 2 ^ (52 - d)).
  assert (HQ8 : 1 <= Q8) by (unfold Q8; apply (Z.pow_le_mono_r 2 0); lia).
  assert (HQ : 2 ^ (55 - d) = 8 * Q8).
  { unfold Q8. replace (55 - d) with (3 + (52 - d)) by lia.
    rewrite Z.pow_add_r by lia. reflexivity. }
  assert (Hpow : 2 ^ d * Q8 = 2 ^ 52).
  { unfold Q8. rewrite <- Z.pow_add_r by lia. f_equal. lia. }
  assert (Hpow' : 2 ^ (d - 1) * Q8 = 2 ^ 51).
  { unfold Q8. rewrite <- Z.pow_add_r by lia. f_equal. lia. }
  rewrite HQ.
  set (A := Zpos p * Q8).
  assert (HA : 2 ^ 51 <= A < 2 ^ 52) by (unfold A; nia).
  replace (Zpos p * (8 * Q8)) with (8 * A) by (unfold A; lia).
  set (q := 8 * A / 3).
  assert (Hq : 3 * q <= 8 * A < 3 * q + 3).
  { unfold q. pose proof (Z.mul_div_le (8 * A) 3).
    pose proof (Z.mul_succ_div_gt (8 * A) 3). lia. }
  destruct (binary_round_aux_window q (d - 55) (new_location 3 ((8 * A) mod 3)))
    as (mf & ef & -> & Hef & [HUlo HUhi]); [lia|lia|].
  cbn [mbind res_mbind res_bind PyFloat.to_int].
  destruct ef as [|pe|pe] eqn:Heq; try lia.
  rewrite <- Heq in *. f_equal.
  rewrite Z.shiftr_div_pow2 by lia.
  (* U = mf * 2^(ef - e) and Q = 2^(-ef) * 2^(ef - e) *)
  set (U := Zpos mf * 2 ^ (ef - (d - 55))) in *.
  set (k := Zpos p / 3).
  assert (Hk : 3 * k <= Zpos p < 3 * k + 3).
  { unfold k. pose proof (Z.mul_div_le (Zpos p) 3).
    pose proof (Z.mul_succ_div_gt (Zpos p) 3). lia. }
  set (B := k * Q8).
  assert (HB : 3 * B <= A <= 3 * B + 2 * Q8) by (unfold A, B; nia).
  assert (Hq2 : 2 * (q / 2) <= q < 2 * (q / 2) + 2).
  { pose proof (Z.mul_div_le q 2). pose proof (Z.mul_succ_div_gt q 2). lia. }
  assert (HU : 8 * B <= U < 8 * B + 8 * Q8).
  { assert (4 * B <= q / 2) by (apply Z.div_le_lower_bound; lia). lia. }
  assert (Hsplit : 8 * Q8 = 2 ^ (- ef) * 2 ^ (ef - (d - 55))).
  { rewrite <- HQ, <- Z.pow_add_r by lia. f_equal. lia. }
  assert (Hdiv : Zpos mf / 2 ^ (- ef) = U / (8 * Q8)).
  { unfold U. rewrite Hsplit. rewrite Z.div_mul_cancel_r; [reflexivity| |];
      apply Z.pow_nonzero; lia. }
  rewrite Hdiv. symmetry. apply (Z.div_unique_pos U (8 * Q8) k (U - 8 * B)).
  - lia.
  - unfold B. lia.
Qed.

Lemma two_thirds_floor n :
  0 <= n < 2 ^ 51 -> two_thirds n = Ok (n * 2 / 3).
Proof.
  intros Hn. unfold two_thirds. apply truediv_3_floor. lia.
Qed.

(** Beyond 52 bits the float quotient may round up past the floor. *)
Example two_thirds_large :
  two_thirds 6755399441055745 = Ok 4503599627370497
  /\ 6755399441055745 * 2 / 3 = 4503599627370496.
Proof. split; vm_compute; reflexivity. Qed.

(** ** Float products stay finite *)

Lemma iter_pos_shr_m p mrs :
  0 <= shr_m mrs → shr_m (SpecFloat.iter_pos shr_1 p mrs) = shr_m mrs / 2 ^ Zpos p.
Proof.
  revert mrs. induction p as [p IH|p IH|]; intros mrs Hm; cbn [SpecFloat.iter_pos].
  - assert (H1 : 0 <= shr_m (shr_1 mrs)).
    { rewrite shr_1_m by done. apply Z.div_pos; lia. }
    assert (H2 : 0 <= shr_m (SpecFloat.iter_pos shr_1 p (shr_1 mrs))).
    { rewrite IH by done. apply Z.div_pos; [done|]. apply Z.pow_pos_nonneg; lia. }
    rewrite IH, IH, shr_1_m by done.
    rewrite !Z.div_div by (try apply Z.pow_pos_nonneg; lia).
    f_equal. rewrite Pos2Z.inj_xI.
    replace (2 * Zpos p + 1) with (1 + Zpos p + Zpos p) by lia.
    rewrite !Z.pow_add_r by lia. change (2 ^ 1) with 2. lia.
  - assert (H2 : 0 <= shr_m (SpecFloat.iter_pos shr_1 p mrs)).
    { rewrite IH by done. apply Z.div_pos; [done|]. apply Z.pow_pos_nonneg; lia. }
    rewrite IH, IH by done.
    rewrite !Z.div_div by (try apply Z.pow_pos_nonneg; lia).
    f_equal. rewrite <- Z.pow_add_r by lia. f_equal. lia.
  - rewrite shr_1_m by done. reflexivity.
Qed.

(** The first shift of [binary_round_aux]: at most 53 bits are left. *)
Lemma shr_fexp_bounds m e l :
  0 < m < 2 ^ 106 →
  ∃ mrs e', shr_fexp 53 1024 m e l = (mrs, e')
            ∧ 0 <= shr_m mrs < 2 ^ 53 ∧ -1074 <= e' ∧ e' <= Z.max (-1074) (e + 53).
Proof.
  intros Hm. unfold shr_fexp, shr.
  destruct m as [|p|p]; try lia. cbn [Zdigits2].
  pose proof (digits2_bounds p) as [Hlo Hhi].
  set (d := Zpos (digits2_pos p)) in *.
  assert (Hd : 0 < d <= 106).
  { split; [unfold d; lia|].
    destruct (Z.le_gt_cases d 106) as [|Hgt]; [done|exfalso].
    assert (2 ^ 106 <= 2 ^ (d - 1)) by (apply Z.pow_le_mono_r; lia). lia. }
  unfold fexp, emin.
  destruct (Z.max (d + e - 53) (3 - 1024 - 53) - e) as [|n|n] eqn:En.
  - eexists _, _. split; [reflexivity|]. rewrite shr_m_of_loc.
    assert (d <= 53) by lia.
    assert (2 ^ d <= 2 ^ 53) by (apply Z.pow_le_mono_r; lia).
    lia.
  - eexists _, _. split; [reflexivity|].
    rewrite iter_pos_shr_m by (rewrite shr_m_of_loc; lia).
    rewrite shr_m_of_loc.
    assert (Hn : d - 53 <= Zpos n) by lia.
    split; [|lia]. split; [apply Z.div_pos; [lia|apply Z.pow_pos_nonneg; lia]|].
    apply Z.div_lt_upper_bound; [apply Z.pow_pos_nonneg; lia|].
    rewrite <- Z.pow_add_r by lia.
    assert (2 ^ d <= 2 ^ (Zpos n + 53)) by (apply Z.pow_le_mono_r; lia). lia.
  - eexists _, _. split; [reflexivity|]. rewrite shr_m_of_loc.
    assert (d <= 53) by lia.
    assert (2 ^ d <= 2 ^ 53) by (apply Z.pow_le_mono_r; lia).
    lia.
Qed.

(** Rounding a product of two 53-bit mantissas stays finite while the
    exponent is small. *)
Lemma binary_round_aux_finite sx m e :
  0 < m < 2 ^ 106 → e + 54 <= 971 →
  PyFloat.fbounded (Z.max (-1073) (e + 54)) (binary_round_aux 53 1024 sx m e loc_Exact) = true.
Proof.
  intros Hm He. unfold binary_round_aux.
  destruct (shr_fexp_bounds m e loc_Exact Hm) as (mrs & e' & -> & Hmrs & He1 & He2).
  pose proof (round_nearest_even_range (shr_m mrs) (loc_of_shr_record mrs)) as Hr.
  set (mr := round_nearest_even _ _) in *.
  destruct (Z.eq_dec mr 0) as [->|Hnz].
  - unfold shr_fexp, shr. cbn [Zdigits2]. unfold fexp, emin.
    destruct (Z.max (0 + e' - 53) (3 - 1024 - 53) - e') eqn:En; try lia; reflexivity.
  - destruct (Z.eq_dec mr (2 ^ 53)) as [Hmr|Hne].
    + rewrite Hmr. rewrite shr_fexp_54 by (cbn; lia).
      change (2 ^ 53) with 9007199254740992.
      cbn [shr_record_of_loc shr_1 shr_m orb].
      destruct (e' + 1 <=? 1024 - 53) eqn:E; [|apply Z.leb_gt in E; lia].
      cbn [PyFloat.fbounded].
      rewrite !andb_true_iff, Z.ltb_lt, !Z.leb_le. lia.
    + assert (Hpos : 0 < mr < 2 ^ 53) by lia.
      unfold shr_fexp, shr. destruct mr as [|p|p]; try lia. cbn [Zdigits2].
      pose proof (digits2_bounds p) as [Hlo Hhi].
      set (d := Zpos (digits2_pos p)) in *.
      assert (Hd : d <= 53).
      { destruct (Z.le_gt_cases d 53) as [|Hgt]; [done|exfalso].
        assert (2 ^ 53 <= 2 ^ (d - 1)) by (apply Z.pow_le_mono_r; lia). lia. }
      unfold fexp, emin.
      destruct (Z.max (d + e' - 53) (3 - 1024 - 53) - e') eqn:En; try lia.
      * cbn [shr_record_of_loc shr_m].
        destruct (e' <=? 1024 - 53) eqn:E; [|apply Z.leb_gt in E; lia].
        cbn [PyFloat.fbounded].
        rewrite !andb_true_iff, Z.ltb_lt, !Z.leb_le. lia.
      * cbn [shr_record_of_loc shr_m].
        destruct (e' <=? 1024 - 53) eqn:E; [|apply Z.leb_gt in E; lia].
        cbn [PyFloat.fbounded].
        rewrite !andb_true_iff, Z.ltb_lt, !Z.leb_le. lia.
Qed.

Lemma mul_fbounded E1 E2 x y :
  PyFloat.fbounded E1 x = true → PyFloat.fbounded E2 y = true → E1 + E2 + 54 <= 971 →
  PyFloat.fbounded (Z.max (-1073) (E1 + E2 + 54)) (PyFloat.mul x y) = true.
Proof.
  intros Hx Hy HE. unfold PyFloat.mul, PyFloat.prec, PyFloat.emax.
  destruct x as [sx|sx| |sx mx ex], y as [sy|sy| |sy my ey]; try discriminate;
    try reflexivity.
  cbn [SFmul]. cbn [PyFloat.fbounded] in Hx, Hy.
  rewrite !andb_true_iff, Z.ltb_lt, !Z.leb_le in Hx, Hy.
  pose proof (binary_round_aux_finite (xorb sx sy) (Zpos (mx * my)) (ex + ey)) as Hb.
  assert (Hm : 0 < Zpos (mx * my) < 2 ^ 106).
  { rewrite Pos2Z.inj_mul. change (2 ^ 106) with (2 ^ 53 * 2 ^ 53). nia. }
  specialize (Hb Hm ltac:(lia)).
  destruct (binary_round_aux 53 1024 (xorb sx sy) (Zpos (mx * my)) (ex + ey) loc_Exact)
    as [s|s| |s m e]; try discriminate; [reflexivity|].
  cbn [PyFloat.fbounded] in Hb |- *.
  rewrite !andb_true_iff, Z.ltb_lt, !Z.leb_le in Hb |- *. lia.
Qed.

(** ** Drawing code and the generator state *)

Section Theory.

Context {fonts : Fonts} {imaging : Imaging} {random : Random} {libm : Libm}.
Variable script_dir : string.

Lemma rng_free_ret {A} (a : A) : rng_free (mret a).
Proof. exists (Ok (a, [])). reflexivity. Qed.

Lemma rng_free_emit c : rng_free (emit c).
Proof. exists (Ok (tt, [c])). reflexivity. Qed.

Lemma rng_free_lift {A} (r : res A) : rng_free (lift r).
Proof.
  destruct r as [a|e]; [exists (Ok (a, [])) | exists (Raise e)]; reflexivity.
Qed.

Lemma rng_free_bind {A B} (m : Draw A) (k : A → Draw B) :
  rng_free m → (∀ a, rng_free (k a)) → rng_free (m ≫= k).
Proof.
  intros [[[a ops]|e] Hm] Hk.
  - destruct (Hk a) as [[[b ops']|e'] Hka].
    + exists (Ok (b, ops ++ ops')). intros g.
      unfold mbind, draw_mbind, draw_bind. rewrite Hm, Hka. reflexivity.
    + exists (Raise e'). intros g.
      unfold mbind, draw_mbind, draw_bind. rewrite Hm, Hka. reflexivity.
  - exists (Raise e). intros g.
    unfold mbind, draw_mbind, draw_bind. rewrite Hm. reflexivity.
Qed.

Lemma rng_free_for_each {A} (l : list A) (body : A → Draw unit) :
  (∀ x, rng_free (body x)) → rng_free (for_each l body).
Proof.
  intros Hb. induction l as [|x l IH]; cbn [for_each].
  - apply rng_free_ret.
  - apply rng_free_bind; [apply Hb | intros _; exact IH].
Qed.

Lemma seeded_bind_l {A B} (m : Draw A) (k : A → Draw B) :
  seeded m → seeded (m ≫= k).
Proof.
  intros [r Hm]. exists (draw_bind (fun _ => r) k (rseed 0)).
  intros g. unfold mbind, draw_mbind, draw_bind. rewrite Hm. reflexivity.
Qed.

Lemma seeded_seed n : seeded (random_seed n).
Proof. exists (Ok (tt, rseed n, [])). reflexivity. Qed.

Lemma seeded_bind_r {A B} (m : Draw A) (k : A → Draw B) :
  rng_free m → (∀ a, seeded (k a)) → seeded (m ≫= k).
Proof.
  intros [[[a ops]|e] Hm] Hk.
  - destruct (Hk a) as [r Hka].
    exists (match r with
            | Ok (b, g2, ops2) => Ok (b, g2, ops ++ ops2)
            | Raise e => Raise e
            end).
    intros g. unfold mbind, draw_mbind, draw_bind. rewrite Hm, Hka. reflexivity.
  - exists (Raise e). intros g.
    unfold mbind, draw_mbind, draw_bind. rewrite Hm. reflexivity.
Qed.

Lemma rng_free_deterministic {A} (m : Draw A) : rng_free m → deterministic m.
Proof.
  intros [r Hm].
  exists (match r with Ok (_, ops) => Ok ops | Raise e => Raise e end).
  intros g. unfold calls. rewrite Hm. destruct r as [[a ops]|e]; reflexivity.
Qed.

Lemma seeded_deterministic {A} (m : Draw A) : seeded m → deterministic m.
Proof.
  intros [r Hm].
  exists (match r with Ok (_, _, ops) => Ok ops | Raise e => Raise e end).
  intros g. unfold calls. rewrite Hm. reflexivity.
Qed.

Lemma rng_free_outlined_ellipse bbox fill outline outline_w s :
  rng_free (outlined_ellipse bbox fill outline outline_w s).
Proof.
  destruct bbox. apply rng_free_bind; [|intros _]; apply rng_free_emit.
Qed.

Lemma rng_free_outlined_circle cx cy r fill outline outline_w s :
  rng_free (outlined_circle cx cy r fill outline outline_w s).
Proof. apply rng_free_outlined_ellipse. Qed.

Lemma rng_free_draw_text_outlined pos text font_size fill outline_color outline_w s :
  rng_free (draw_text_outlined pos text font_size fill outline_color outline_w s).
Proof.
  destruct pos as [x y]. unfold draw_text_outlined.
  apply rng_free_bind; [apply rng_free_lift | intros fnt].
  apply rng_free_bind.
  - apply rng_free_for_each; intros dx. apply rng_free_for_each; intros dy.
    destruct (_ <=? _); [apply rng_free_emit | apply rng_free_ret].
  - intros _. apply rng_free_bind; [apply rng_free_emit | intros _; apply rng_free_ret].
Qed.

(** One step of a proof that drawing code does not touch the generator. *)
Ltac free_step :=
  first
    [ apply rng_free_emit
    | apply rng_free_ret
    | apply rng_free_lift
    | apply rng_free_outlined_ellipse
    | apply rng_free_outlined_circle
    | apply rng_free_draw_text_outlined
    | apply rng_free_for_each; intros ?
    | apply rng_free_bind; [| intros ?]
    | match goal with
      | |- rng_free (let '(_, _) := ?p in _) => destruct p
      | |- rng_free (if ?b then _ else _) => destruct b
      end ].

Ltac free := cbv zeta; repeat free_step.

(** A draw function that seeds before its first random draw. *)
Ltac reseeds :=
  cbv zeta;
  repeat first
    [ apply seeded_seed
    | apply seeded_bind_l; apply seeded_seed
    | apply seeded_bind_r; [solve [free] | intros ?] ].

Lemma draw_cow_seeded w h s variant : seeded (draw_cow w h s variant).
Proof. unfold draw_cow. reseeds. Qed.

Lemma cow_drowning_seeded w h s : seeded (cow_drowning_draw_fn w h s).
Proof. unfold cow_drowning_draw_fn. reseeds. Qed.

Lemma farmer_free w h s : rng_free (farmer_draw_fn w h s).
Proof. unfold farmer_draw_fn. free. Qed.

Lemma background_grass_seeded w h s : seeded (background_grass_draw_fn w h s).
Proof. unfold background_grass_draw_fn. reseeds. Qed.

Lemma safe_pasture_seeded w h s : seeded (safe_pasture_draw_fn w h s).
Proof. unfold safe_pasture_draw_fn. reseeds. Qed.

Lemma ditch_water_seeded f w h s : seeded (ditch_water_draw_fn f w h s).
Proof. unfold ditch_water_draw_fn. reseeds. Qed.

Lemma ditch_edge_seeded w h s : seeded (ditch_edge_draw_fn w h s).
Proof. unfold ditch_edge_draw_fn. reseeds. Qed.

Lemma fence_post_seeded w h s : seeded (fence_post_draw_fn w h s).
Proof. unfold fence_post_draw_fn. reseeds. Qed.

Lemma fence_rail_seeded w h s : seeded (fence_rail_draw_fn w h s).
Proof. unfold fence_rail_draw_fn. reseeds. Qed.

Lemma gate_door_free w h s : rng_free (gate_door_draw_fn w h s).
Proof. unfold gate_door_draw_fn. free. Qed.

Lemma gate_post_seeded w h s : seeded (gate_post_draw_fn w h s).
Proof. unfold gate_post_draw_fn. reseeds. Qed.

Lemma clouds_seeded v w h s : seeded (clouds_draw_fn v w h s).
Proof. unfold clouds_draw_fn. reseeds. Qed.

Lemma title_logo_free w h s : rng_free (title_logo_draw_fn w h s).
Proof. unfold title_logo_draw_fn. free. Qed.

Lemma button_free text color w h s : rng_free (button_draw_fn text color w h s).
Proof. unfold button_draw_fn. destruct color as [[r g] b]. free. Qed.

Lemma heart_free color alpha w h s : rng_free (heart_draw_fn color alpha w h s).
Proof. unfold heart_draw_fn. destruct color as [[r g] b]. free. Qed.

Lemma score_badge_free w h s : rng_free (score_badge_draw_fn w h s).
Proof. unfold score_badge_draw_fn. free. Qed.

Lemma game_over_banner_free w h s : rng_free (game_over_banner_draw_fn w h s).
Proof. unfold game_over_banner_draw_fn. free. Qed.

Lemma gate_indicator_free color w h s : rng_free (gate_indicator_draw_fn color w h s).
Proof. unfold gate_indicator_draw_fn. destruct color as [[r g] b]. free. Qed.

Lemma splash_free w h s : rng_free (splash w h s).
Proof. unfold splash. free. Qed.

Lemma dust_free w h s : rng_free (dust w h s).
Proof. unfold dust. free. Qed.

Lemma grass_blade_free w h s : rng_free (grass_blade w h s).
Proof. unfold grass_blade. free. Qed.

Lemma star_free w h s : rng_free (star w h s).
Proof. unfold star. free. Qed.

Lemma sparkle_free w h s : rng_free (sparkle w h s).
Proof. unfold sparkle. free. Qed.


(** ** Generators and the disk *)

Lemma apply_effects_app E1 E2 (dk : disk) :
  apply_effects (E1 ++ E2) dk = apply_effects E2 (apply_effects E1 dk).
Proof. unfold apply_effects. apply fold_left_app. Qed.

Lemma insulated_ret {A} (a : A) : insulated (mret a).
Proof. exists (Ok (a, [])). intros w. exists w. split; reflexivity. Qed.

Lemma insulated_bind {A B} (m : Gen A) (k : A → Gen B) :
  insulated m → (∀ a, insulated (k a)) → insulated (m ≫= k).
Proof.
  intros [[[a E]|e] Hm] Hk.
  - destruct (Hk a) as [[[b E']|e'] Hka].
    + exists (Ok (b, E ++ E')). intros w.
      destruct (Hm w) as (w1 & Hw1 & Hd1). destruct (Hka w1) as (w2 & Hw2 & Hd2).
      exists w2. unfold mbind, gen_mbind, gen_bind. rewrite Hw1, Hw2.
      split; [reflexivity|]. rewrite apply_effects_app, <- Hd1. exact Hd2.
    + exists (Raise e'). intros w.
      destruct (Hm w) as (w1 & Hw1 & Hd1). specialize (Hka w1).
      unfold mbind, gen_mbind, gen_bind. rewrite Hw1, Hka. reflexivity.
  - exists (Raise e). intros w. specialize (Hm w).
    unfold mbind, gen_mbind, gen_bind. rewrite Hm. reflexivity.
Qed.

Lemma insulated_lift {A} (r : res A) : insulated (gen_lift r).
Proof.
  destruct r as [a|e].
  - exists (Ok (a, [])). intros w. exists w. split; reflexivity.
  - exists (Raise e). reflexivity.
Qed.

Lemma insulated_makedirs d : insulated (makedirs d).
Proof.
  exists (Ok (tt, [MkDir d])). intros w. eexists. split; reflexivity.
Qed.

Lemma insulated_write_file p f : insulated (write_file p f).
Proof.
  exists (Ok (tt, [WriteFile p f])). intros w. eexists. split; reflexivity.
Qed.

Lemma insulated_for_each {A} (l : list A) (body : A → Gen unit) :
  (∀ x, insulated (body x)) → insulated (gen_for_each l body).
Proof.
  intros Hb. induction l as [|x l IH]; cbn [gen_for_each].
  - apply insulated_ret.
  - apply insulated_bind; [apply Hb | intros _; exact IH].
Qed.

Lemma insulated_run_draw (d : Draw unit) img :
  deterministic d → insulated (run_draw d img).
Proof.
  intros [[ops|e] Hd].
  - exists (Ok (paint ops img, [])). intros w. specialize (Hd (w_rng w)).
    unfold calls in Hd. unfold run_draw.
    destruct (d (w_rng w)) as [[[u g] ops']|e']; [|discriminate].
    injection Hd as ->. eexists. split; reflexivity.
  - exists (Raise e). intros w. specialize (Hd (w_rng w)).
    unfold calls in Hd. unfold run_draw.
    destruct (d (w_rng w)) as [[[u g] ops']|e']; [discriminate|].
    congruence.
Qed.

Lemma insulated_supersample_draw w3x h3x (draw_fn : draw_func) :
  (∀ w h s, deterministic (draw_fn w h s)) →
  insulated (supersample_draw w3x h3x draw_fn).
Proof.
  intros Hd. unfold supersample_draw. cbv zeta.
  apply insulated_bind; [apply insulated_run_draw, Hd | intros img; apply insulated_ret].
Qed.

Lemma insulated_ensure_imageset name : insulated (ensure_imageset script_dir name).
Proof.
  unfold ensure_imageset. cbv zeta.
  apply insulated_bind; [apply insulated_makedirs | intros _].
  apply insulated_bind; [apply insulated_write_file | intros _].
  apply insulated_ret.
Qed.

Lemma insulated_save_asset img name : insulated (save_asset script_dir img name).
Proof.
  unfold save_asset.
  apply insulated_bind; [apply insulated_ensure_imageset | intros d].
  apply insulated_bind; [apply insulated_write_file | intros _].
  apply insulated_bind; [apply insulated_lift | intros w2].
  apply insulated_bind; [apply insulated_lift | intros h2].
  apply insulated_write_file.
Qed.

(** A generator: supersample a deterministic draw function, save it. *)
Lemma insulated_sprite w3x h3x (draw_fn : draw_func) name :
  (∀ w h s, deterministic (draw_fn w h s)) →
  insulated (img ← supersample_draw w3x h3x draw_fn; save_asset script_dir img name).
Proof.
  intros Hd. apply insulated_bind.
  - apply insulated_supersample_draw, Hd.
  - intros img. apply insulated_save_asset.
Qed.

(** A generator of the form "supersample [draw_fn], save under [name]". *)
Ltac sprite lem :=
  apply insulated_sprite; intros ? ? ?;
  first [ apply seeded_deterministic; apply lem
        | apply rng_free_deterministic; apply lem ].

Lemma generators_insulated :
  Forall (fun ng : string * Gen unit => insulated ng.2) (generators script_dir).
Proof.
  unfold generators.
  repeat match goal with
         | |- Forall _ (_ :: _) => constructor
         | |- Forall _ [] => constructor
         end; cbn [snd].
  - unfold generate_cow_walk. apply insulated_for_each; intros v.
    sprite draw_cow_seeded.
  - unfold generate_cow_drowning. sprite cow_drowning_seeded.
  - unfold generate_farmer. sprite farmer_free.
  - unfold generate_background_grass. sprite background_grass_seeded.
  - unfold generate_safe_pasture. sprite safe_pasture_seeded.
  - unfold generate_ditch_water. apply insulated_for_each; intros f.
    unfold ditch_water_frame. sprite ditch_water_seeded.
  - unfold generate_ditch_edge. sprite ditch_edge_seeded.
  - unfold generate_fence_post. sprite fence_post_seeded.
  - unfold generate_fence_rail. sprite fence_rail_seeded.
  - unfold generate_gate_door. sprite gate_door_free.
  - unfold generate_gate_post. sprite gate_post_seeded.
  - unfold generate_clouds. apply insulated_for_each; intros v.
    sprite clouds_seeded.
  - unfold generate_title_logo. sprite title_logo_free.
  - unfold generate_button. sprite button_free.
  - unfold generate_button. sprite button_free.
  - unfold generate_heart. sprite heart_free.
  - unfold generate_heart. sprite heart_free.
  - unfold generate_score_badge. sprite score_badge_free.
  - unfold generate_game_over_banner. sprite game_over_banner_free.
  - unfold generate_gate_indicators. apply insulated_for_each; intros [state color].
    sprite gate_indicator_free.
  - unfold generate_particles, generate_particle; cbv zeta.
    apply insulated_bind; [sprite splash_free | intros _].
    apply insulated_bind; [sprite dust_free | intros _].
    apply insulated_bind; [sprite grass_blade_free | intros _].
    apply insulated_bind; [sprite star_free | intros _].
    sprite sparkle_free.
Qed.


(** ** Claim C1: determinism *)

Lemma insulated_rng_irrelevant {A} (m : Gen A) :
  insulated m →
  ∀ g1 g2 dirs files,
    disk_outcome (m (World g1 dirs files)) = disk_outcome (m (World g2 dirs files)).
Proof.
  intros [[[a E]|e] Hm] g1 g2 dirs files.
  - destruct (Hm (World g1 dirs files)) as (w1 & -> & Hd1).
    destruct (Hm (World g2 dirs files)) as (w2 & -> & Hd2).
    cbn. rewrite Hd1, Hd2. reflexivity.
  - rewrite !Hm. reflexivity.
Qed.

(** A list of writes is a set of directories and a map of files laid over
    the disk. *)
Lemma apply_effects_overlay E :
  ∃ (D : gset string) (W : gmap string file),
    ∀ dk : disk, apply_effects E dk = (D ∪ dk.1, W ∪ dk.2).
Proof.
  induction E as [|e E IH] using rev_ind.
  - exists ∅, ∅. intros [d f]. cbn.
    by rewrite (left_id_L ∅ (∪)), (left_id_L ∅ (∪)).
  - destruct IH as (D & W & IH).
    destruct e as [d|p f].
    + exists ({[ d ]} ∪ D), W. intros dk.
      rewrite apply_effects_app, IH. cbn. f_equal. by rewrite (assoc_L (∪)).
    + exists D, (<[ p := f ]> W). intros dk.
      rewrite apply_effects_app, IH. cbn. f_equal.
      by rewrite insert_union_l.
Qed.

Lemma apply_effects_idem E (dk : disk) :
  apply_effects E (apply_effects E dk) = apply_effects E dk.
Proof.
  destruct (apply_effects_overlay E) as (D & W & HE).
  rewrite !HE. cbn. f_equal.
  - by rewrite (assoc_L (∪)), (idemp_L (∪)).
  - by rewrite (assoc_L (∪)), (idemp_L (∪)).
Qed.

Lemma insulated_regenerate {A} (m : Gen A) :
  insulated m →
  ∀ w a w', m w = Ok (a, w') → disk_outcome (m w') = Ok (disk_of w').
Proof.
  intros [[[a E]|e] Hm] w a0 w' Hw.
  - destruct (Hm w) as (w1 & Hw1 & Hd1).
    rewrite Hw in Hw1. injection Hw1 as -> ->.
    destruct (Hm w1) as (w2 & -> & Hd2). cbn.
    rewrite Hd2, Hd1. by rewrite apply_effects_idem.
  - rewrite Hm in Hw. discriminate.
Qed.

Lemma seeded_any_state {A} (m : Draw A) : seeded m → ∀ g g', m g = m g'.
Proof. intros [r Hm] g g'. by rewrite !Hm. Qed.

(** Claim C1.  Every generator of [main] writes the same directories and
    files whatever state the module-level random generator is in when it
    starts, and running it again on its own output leaves the disk as it
    is: the pixel buffers of a sprite are a function of the sprite alone.
    [draw_cow] and the ditch-water frames reseed before their first random
    draw, so a run from any state equals the run from the seeded state
    ([variant * 42], [frame * 100]). *)
Theorem generation_deterministic :
  Forall (fun ng : string * Gen unit =>
            (∀ g1 g2 dirs files,
               disk_outcome (ng.2 (World g1 dirs files))
               = disk_outcome (ng.2 (World g2 dirs files)))
            ∧ (∀ w u w', ng.2 w = Ok (u, w') →
                         disk_outcome (ng.2 w') = Ok (disk_of w')))
         (generators script_dir)
  ∧ (∀ w h s variant g,
       draw_cow w h s variant g = draw_cow w h s variant (rseed (variant * 42)))
  ∧ (∀ frame w h s g,
       ditch_water_draw_fn frame w h s g
       = ditch_water_draw_fn frame w h s (rseed (frame * 100))).
Proof.
  split; [|split].
  - eapply Forall_impl; [apply generators_insulated|].
    intros [name gen] Hins; cbn [snd] in *. split.
    + by apply insulated_rng_irrelevant.
    + by apply insulated_regenerate.
  - intros. apply seeded_any_state, draw_cow_seeded.
  - intros. apply seeded_any_state, ditch_water_seeded.
Qed.

(** ** Paths of a bundle *)

Lemma append_nil_l (b : string) : EmptyString +:+ b = b.
Proof. reflexivity. Qed.

Lemma append_cons (c : ascii) (a b : string) :
  String c a +:+ b = String c (a +:+ b).
Proof. reflexivity. Qed.

Lemma str_last_app a b : b ≠ EmptyString → str_last (a +:+ b) = str_last b.
Proof.
  intros Hb. induction a as [|c a IH]; [reflexivity|].
  rewrite append_cons.
  destruct (a +:+ b) as [|c' r] eqn:E.
  - destruct a; [rewrite append_nil_l in E; congruence | discriminate].
  - exact IH.
Qed.

Lemma append_inj_r (a b c : string) : a +:+ b = a +:+ c → b = c.
Proof.
  induction a as [|x a IH]; [auto|].
  rewrite !append_cons. intros [= ?]; auto.
Qed.

(** [os.path.join] puts a prefix before its second argument; the prefix
    depends on the second argument only through its being absolute. *)
Lemma path_join_prefix d x :
  path_join d x = (if is_abs x then EmptyString
                   else match d with
                        | EmptyString => EmptyString
                        | _ => if ends_with_sep d then d else d +:+ "/"
                        end) +:+ x.
Proof.
  unfold path_join. destruct (is_abs x); [reflexivity|].
  destruct d as [|c d]; [reflexivity|].
  destruct (ends_with_sep (String c d)); [reflexivity|].
  generalize (String c d). intros a.
  induction a as [|c0 a IH]; [reflexivity|]. rewrite !append_cons. f_equal. exact IH.
Qed.

Lemma is_abs_app_suffix name (k1 k2 : string) :
  is_abs ("@" +:+ k1) = is_abs ("@" +:+ k2) →
  is_abs (name +:+ "@" +:+ k1) = is_abs (name +:+ "@" +:+ k2).
Proof. destruct name; [auto | reflexivity]. Qed.

Lemma bundle_paths_distinct d name :
  path_join d "Contents.json" ≠ path_join d (name +:+ "@3x.png")
  ∧ path_join d "Contents.json" ≠ path_join d (name +:+ "@2x.png")
  ∧ path_join d (name +:+ "@3x.png") ≠ path_join d (name +:+ "@2x.png").
Proof.
  assert (Hlast : ∀ sfx : string, sfx ≠ EmptyString →
            str_last (path_join d (name +:+ sfx)) = str_last sfx).
  { intros sfx Hs. rewrite path_join_prefix, str_last_app.
    - by apply str_last_app.
    - intros E. destruct name; [rewrite append_nil_l in E; done | discriminate]. }
  assert (Hc : str_last (path_join d "Contents.json") = Some "n"%char).
  { rewrite path_join_prefix, str_last_app; [reflexivity | discriminate]. }
  split; [|split].
  - intros E. rewrite E, Hlast in Hc; [discriminate Hc | discriminate].
  - intros E. rewrite E, Hlast in Hc; [discriminate Hc | discriminate].
  - rewrite !path_join_prefix.
    replace (is_abs (name +:+ "@3x.png")) with (is_abs (name +:+ "@2x.png"))
      by (destruct name; reflexivity).
    intros E. apply append_inj_r, append_inj_r in E. discriminate.
Qed.

(** ** Running [save_asset] *)

Lemma save_asset_inv img name w u w' :
  save_asset script_dir img name w = Ok (u, w') →
  ∃ w2 h2, two_thirds (im_size img).1 = Ok w2
           ∧ two_thirds (im_size img).2 = Ok h2
           ∧ w' = saved script_dir img name w2 h2 w.
Proof.
  unfold save_asset, ensure_imageset, mbind, gen_mbind, gen_bind, mret, gen_mret,
    gen_ret, makedirs, write_file, gen_lift. cbn [w_rng w_dirs w_files].
  destruct (two_thirds (im_size img).1) as [w2|e]; [|discriminate].
  destruct (two_thirds (im_size img).2) as [h2|e]; [|discriminate].
  intros [= <- <-]. exists w2, h2. repeat split.
Qed.


Lemma saved_lookup_3x img name w2 h2 w :
  w_files (saved script_dir img name w2 h2 w)
    !! path_join (path_join (ASSETS_DIR script_dir) (name +:+ ".imageset"))
                 (name +:+ "@3x.png") = Some (FPng img).
Proof.
  unfold saved; cbn [w_files].
  destruct (bundle_paths_distinct
              (path_join (ASSETS_DIR script_dir) (name +:+ ".imageset")) name)
    as (_ & _ & Hne).
  rewrite lookup_insert_ne by congruence. apply lookup_insert_eq.
Qed.

Lemma saved_lookup_2x img name w2 h2 w :
  w_files (saved script_dir img name w2 h2 w)
    !! path_join (path_join (ASSETS_DIR script_dir) (name +:+ ".imageset"))
                 (name +:+ "@2x.png") = Some (FPng (resize img (w2, h2) LANCZOS)).
Proof. unfold saved; cbn [w_files]. apply lookup_insert_eq. Qed.

(** ** Running [supersample_draw] *)

Lemma supersample_draw_inv w3x h3x (draw_fn : draw_func) w img w' :
  supersample_draw w3x h3x draw_fn w = Ok (img, w') →
  ∃ g' ops,
    draw_fn (w3x * 4) (h3x * 4) 4 (w_rng w) = Ok (tt, g', ops)
    ∧ img = resize (paint ops (Image_new "RGBA" (w3x * 4, h3x * 4) (RGBA 0 0 0 0)))
                   (w3x, h3x) LANCZOS
    ∧ w' = World g' (w_dirs w) (w_files w).
Proof.
  unfold supersample_draw, run_draw, SUPERSAMPLE, mbind, gen_mbind, gen_bind, mret,
    gen_mret, gen_ret.
  destruct (draw_fn (w3x * 4) (h3x * 4) 4 (w_rng w)) as [[[[] g'] ops]|e];
    [|discriminate].
  intros [= <- <-]. exists g', ops. repeat split.
Qed.


Lemma paint_size ops im : im_size (paint ops im) = im_size im.
Proof.
  unfold paint. revert im. induction ops as [|c ops IH]; intros im; cbn; [reflexivity|].
  by rewrite IH, render_size.
Qed.

Lemma paint_mode ops im : im_mode (paint ops im) = im_mode im.
Proof.
  unfold paint. revert im. induction ops as [|c ops IH]; intros im; cbn; [reflexivity|].
  by rewrite IH, render_mode.
Qed.

Lemma paint_frame ops im p :
  uncovered ops p → pixel_at (paint ops im) p = pixel_at im p.
Proof.
  unfold paint, uncovered. revert im.
  induction ops as [|c ops IH]; intros im Hu; cbn; [reflexivity|].
  apply Forall_cons in Hu as [Hc Hu].
  by rewrite IH, render_frame.
Qed.

(** ** Claims C2, C3, C8, C10: the export pipeline *)

(** Claim C2.  A sprite is drawn on a fresh RGBA canvas of exactly
    [(W*4, H*4)]; the @3x file holds that canvas after the draw calls,
    resized with LANCZOS to exactly [(W, H)]; the @2x file holds the @3x
    image resized with LANCZOS again, not a resize of the canvas. *)
Theorem two_stage_resampling W H (draw_fn : draw_func) name w w' :
  (img ← supersample_draw W H draw_fn; save_asset script_dir img name) w
    = Ok (tt, w') →
  ∃ ops w2 h2,
    calls (draw_fn (W * 4) (H * 4) 4) (w_rng w) = Ok ops
    ∧ let canvas := Image_new "RGBA" (W * 4, H * 4) (RGBA 0 0 0 0) in
      let img3 := resize (paint ops canvas) (W, H) LANCZOS in
      let d := path_join (ASSETS_DIR script_dir) (name +:+ ".imageset") in
      w_files w' !! path_join d (name +:+ "@3x.png") = Some (FPng img3)
      ∧ w_files w' !! path_join d (name +:+ "@2x.png")
        = Some (FPng (resize img3 (w2, h2) LANCZOS))
      ∧ (0 <= W → 0 <= H →
         im_size canvas = (W * 4, H * 4)
         ∧ im_size (paint ops canvas) = (W * 4, H * 4)
         ∧ im_size img3 = (W, H)).
Proof.
  unfold mbind at 1, gen_mbind, gen_bind.
  destruct (supersample_draw W H draw_fn w) as [[img w1]|e] eqn:Hs; [|discriminate].
  intros Hsave.
  apply supersample_draw_inv in Hs as (g' & ops & Hd & -> & ->).
  apply save_asset_inv in Hsave as (w2 & h2 & _ & _ & ->).
  exists ops, w2, h2. split; [unfold calls; by rewrite Hd|].
  cbv zeta. split; [apply saved_lookup_3x|]. split; [apply saved_lookup_2x|].
  intros HW HH.
  rewrite paint_size, new_size by lia. rewrite resize_size by lia. done.
Qed.



(** Claim C10.  [supersample_draw] hands the draw function a fresh
    ["RGBA"] canvas whose every pixel is [(0, 0, 0, 0)].  A canvas pixel
    that no draw call covers is still transparent when the canvas is
    resized, and an exported pixel whose filter window holds only such
    pixels is transparent.  The returned image has mode ["RGBA"] and
    exactly the requested size, whatever the draw function painted. *)
Theorem transparent_canvas W H (draw_fn : draw_func) w img w' :
  0 <= W → 0 <= H →
  supersample_draw W H draw_fn w = Ok (img, w') →
  ∃ ops,
    calls (draw_fn (W * 4) (H * 4) 4) (w_rng w) = Ok ops
    ∧ let blank := Image_new "RGBA" (W * 4, H * 4) (RGBA 0 0 0 0) in
      let canvas := paint ops blank in
      im_mode blank = "RGBA"
      ∧ im_size blank = (W * 4, H * 4)
      ∧ (∀ x y, 0 <= x < W * 4 → 0 <= y < H * 4 →
                pixel_at blank (x, y) = Some transparent)
      ∧ (∀ x y, 0 <= x < W * 4 → 0 <= y < H * 4 → uncovered ops (x, y) →
                pixel_at canvas (x, y) = Some transparent)
      ∧ img = resize canvas (W, H) LANCZOS
      ∧ im_mode img = "RGBA"
      ∧ im_size img = (W, H)
      ∧ (∀ x y, 0 <= x < W → 0 <= y < H →
                (∀ q, footprint (W * 4, H * 4) (W, H) LANCZOS (x, y) q →
                      uncovered ops q) →
                pixel_at img (x, y) = Some transparent).
Proof.
  intros HW HH Hs.
  apply supersample_draw_inv in Hs as (g' & ops & Hd & -> & ->).
  exists ops. split; [unfold calls; by rewrite Hd|]. cbv zeta.
  assert (Hblank : ∀ x y, 0 <= x < W * 4 → 0 <= y < H * 4 →
            pixel_at (Image_new "RGBA" (W * 4, H * 4) (RGBA 0 0 0 0)) (x, y)
            = Some transparent).
  { intros x y Hx Hy. by rewrite new_pixel. }
  split; [apply new_mode|]. split; [apply new_size; lia|].
  split; [exact Hblank|].
  split; [intros x y Hx Hy Hu; rewrite paint_frame by done; by apply Hblank|].
  split; [reflexivity|].
  split; [by rewrite resize_mode, paint_mode, new_mode|].
  split; [apply resize_size; lia|].
  intros x y Hx Hy Hwin. apply resize_clear; [done|done|].
  intros [qx qy] px Hq Hpx.
  rewrite paint_size, new_size in Hq by lia.
  rewrite paint_frame in Hpx by (by apply Hwin).
  pose proof (pixel_at_bounds _ _ _ _ Hpx) as Hb.
  rewrite new_size in Hb by lia. cbn [fst snd] in Hb.
  rewrite Hblank in Hpx by lia. congruence.
Qed.

(** ** What drawing code issues *)

Lemma draws_ret {A} (a : A) (Q : A → Prop) P : Q a → draws (mret a) Q P.
Proof. intros Ha g a' g' ops [= <- <- <-]. by split. Qed.

Lemma draws_emit c P : P c → draws (emit c) (fun _ => True) P.
Proof. intros Hc g a g' ops [= <- <- <-]. split; [done|]. by constructor. Qed.

Lemma draws_lift {A} (r : res A) P : draws (lift r) (fun a => r = Ok a) P.
Proof.
  intros g a g' ops. unfold lift. destruct r as [a0|e]; [|discriminate].
  intros [= <- <- <-]. by split.
Qed.

Lemma draws_seed n P : draws (random_seed n) (fun _ => True) P.
Proof. intros g a g' ops [= <- <- <-]. by split. Qed.

Lemma draws_randint a b P : draws (random_randint a b) (fun r => a <= r <= b) P.
Proof.
  intros g r g' ops. unfold random_randint.
  destruct (0 <? b + 1 - a) eqn:E; [|discriminate].
  apply Z.ltb_lt in E.
  pose proof (randbelow_range (b + 1 - a) g E) as Hr.
  destruct (randbelow (b + 1 - a) g) as [r0 g0]; cbn [fst] in Hr.
  intros [= <- <- <-]. split; [lia | constructor].
Qed.

Lemma draws_weaken {A} (m : Draw A) (Q Q' : A → Prop) P :
  draws m Q P → (∀ a, Q a → Q' a) → draws m Q' P.
Proof. intros Hm HQ g a g' ops E. destruct (Hm _ _ _ _ E). split; auto. Qed.

Lemma draws_bind {A B} (m : Draw A) (k : A → Draw B) Q Q' P :
  draws m Q P → (∀ a, Q a → draws (k a) Q' P) → draws (m ≫= k) Q' P.
Proof.
  intros Hm Hk g b g' ops. unfold mbind, draw_mbind, draw_bind.
  destruct (m g) as [[[a g1] ops1]|e] eqn:E1; [|discriminate].
  destruct (k a g1) as [[[b' g2] ops2]|e] eqn:E2; [|discriminate].
  intros [= <- <- <-].
  destruct (Hm _ _ _ _ E1) as [Ha H1]. destruct (Hk a Ha _ _ _ _ E2) as [Hb H2].
  split; [done|]. by apply Forall_app.
Qed.

Lemma draws_for_each {A} (l : list A) (body : A → Draw unit) P :
  (∀ x, draws (body x) (fun _ => True) P) →
  draws (for_each l body) (fun _ => True) P.
Proof.
  intros Hb. induction l as [|x l IH]; cbn [for_each].
  - by apply draws_ret.
  - eapply draws_bind; [apply Hb | intros _ _; exact IH].
Qed.

(** One step through drawing code: the value of a step is kept only for
    random draws. *)
Ltac draws_step :=
  first
    [ apply draws_for_each; intros ?
    | eapply draws_bind; [apply draws_randint | intros ? ?]
    | eapply draws_bind; [apply draws_seed | intros _ _]
    | eapply draws_bind; [apply draws_lift | intros ? ?]
    | eapply draws_bind; [apply draws_emit | intros _ _]
    | apply draws_emit
    | apply draws_ret; exact I
    | apply draws_seed
    | eapply draws_weaken; [apply draws_lift | intros ? _; exact I]
    | eapply draws_weaken; [apply draws_randint | intros ? _; exact I]
    | eapply (draws_bind _ _ (fun _ => True)); [| intros ? _] ].

(** What [bind] returns, read backwards. *)
Lemma draw_bind_inv {A B} (m : Draw A) (k : A → Draw B) g b g' ops :
  (m ≫= k) g = Ok (b, g', ops) →
  ∃ a g1 ops1 ops2,
    m g = Ok (a, g1, ops1) ∧ k a g1 = Ok (b, g', ops2) ∧ ops = ops1 ++ ops2.
Proof.
  unfold mbind, draw_mbind, draw_bind.
  destruct (m g) as [[[a g1] ops1]|e] eqn:E1; [|discriminate].
  destruct (k a g1) as [[[b' g2] ops2]|e] eqn:E2; [|discriminate].
  intros [= <- <- <-]. by exists a, g1, ops1, ops2.
Qed.


(** ** Claim C4: degenerate geometry *)




(** ** Claim C9: colour channels *)

Lemma draws_draw_text_outlined pos text font_size fill outline_color outline_w s :
  color_ok fill → color_ok outline_color →
  draws (draw_text_outlined pos text font_size fill outline_color outline_w s)
        (fun _ => True) cmd_colors_ok.
Proof.
  intros Hf Ho. destruct pos as [x y]. unfold draw_text_outlined.
  eapply draws_bind; [apply draws_lift | intros fnt _].
  eapply (draws_bind _ _ (fun _ => True)).
  - apply draws_for_each; intros dx. apply draws_for_each; intros dy.
    destruct (_ <=? _); [by apply draws_emit | by apply draws_ret].
  - intros _ _. eapply draws_bind; [by apply draws_emit | intros _ _].
    by apply draws_ret.
Qed.

(** Claim C9.  With a base colour (and alpha) whose channels are in
    [0, 255], every colour that the button, the heart and the gate
    indicator pass to a draw call has its channels in [0, 255]: the
    darkened outline through [max(0, .)], the lightened highlight through
    [min(255, .)].  The jittered colours of the grass blades and of the
    ditch-edge texture are in range whatever the generator draws, because
    the jitter stays within its bounds of -20 and 20. *)
Theorem channel_clamping :
  (∀ text r g b w h s,
     channel_ok r → channel_ok g → channel_ok b →
     draws (button_draw_fn text (r, g, b) w h s) (fun _ => True) cmd_colors_ok)
  ∧ (∀ r g b alpha w h s,
       channel_ok r → channel_ok g → channel_ok b → channel_ok alpha →
       draws (heart_draw_fn (r, g, b) alpha w h s) (fun _ => True) cmd_colors_ok)
  ∧ (∀ r g b w h s,
       channel_ok r → channel_ok g → channel_ok b →
       draws (gate_indicator_draw_fn (r, g, b) w h s) (fun _ => True) cmd_colors_ok)
  ∧ (∀ w h s, draws (grass_blades w h s) (fun _ => True) cmd_colors_ok)
  ∧ (∀ w h s, draws (ditch_edge_texture w h s) (fun _ => True) cmd_colors_ok).
Proof.
  unfold channel_ok.
  split; [|split; [|split; [|split]]].
  - intros text r g b w h s Hr Hg Hb. unfold button_draw_fn. cbv zeta.
    eapply draws_bind; [apply draws_emit; cbn; unfold channel_ok; lia | intros _ _].
    eapply draws_bind; [apply draws_emit; cbn; unfold channel_ok; lia | intros _ _].
    eapply draws_bind; [apply draws_emit; cbn; unfold channel_ok; lia | intros _ _].
    eapply (draws_bind _ _ (fun _ => True)).
    + apply draws_draw_text_outlined; cbn; unfold channel_ok; lia.
    + intros _ _. by apply draws_ret.
  - intros r g b alpha w h s Hr Hg Hb Ha. unfold heart_draw_fn. cbv zeta.
    assert (0 <= alpha / 2) by (apply Z.div_pos; lia).
    repeat (draws_step; try (cbv beta in *; cbn; unfold channel_ok; lia)).
  - intros r g b w h s Hr Hg Hb. unfold gate_indicator_draw_fn. cbv zeta.
    repeat (draws_step; try (cbv beta in *; cbn; unfold channel_ok; lia)).
  - intros w h s. unfold grass_blades.
    repeat (draws_step; try (cbv beta in *; cbn; unfold channel_ok; lia)).
  - intros w h s. unfold ditch_edge_texture.
    repeat (draws_step; try (cbv beta in *; cbn; unfold channel_ok; lia)).
Qed.

(** ** Claims C6 and C7: outlined text *)

Lemma for_each_run {A} (l : list A) (body : A → Draw unit)
    (tr : A → list draw_cmd) g :
  (∀ x, body x g = Ok (tt, g, tr x)) →
  for_each l body g = Ok (tt, g, l ≫= tr).
Proof.
  intros Hb. induction l as [|x l IH]; [reflexivity|].
  cbn [for_each]. unfold mbind at 1, draw_mbind, draw_bind.
  by rewrite Hb, IH.
Qed.

Lemma fmap_bind_list {A B C} (f : B → C) (k : A → list B) (l : list A) :
  f <$> (l ≫= k) = l ≫= (fun x => f <$> k x).
Proof.
  induction l as [|x l IH]; [reflexivity|].
  cbn. by rewrite fmap_app, IH.
Qed.

Lemma bind_list_ext {A B} (f g : A → list B) (l : list A) :
  (∀ x, f x = g x) → l ≫= f = l ≫= g.
Proof.
  intros Hfg. induction l as [|x l IH]; [reflexivity|]. cbn. by rewrite Hfg, IH.
Qed.

(** The draw calls of [draw_text_outlined] once the font is known. *)
Lemma draw_text_outlined_run x y text font_size fill outline_color outline_w s g fnt :
  resolve_font font_size = Ok fnt →
  draw_text_outlined (x, y) text font_size fill outline_color outline_w s g
  = Ok (fnt, g,
        ((fun d : Z * Z => Text (x + d.1, y + d.2) text fnt outline_color "mm")
           <$> halo_offsets outline_w)
        ++ [Text (x, y) text fnt fill "mm"]).
Proof.
  intros Hres. unfold draw_text_outlined.
  unfold mbind at 1, draw_mbind, draw_bind, lift. rewrite Hres.
  unfold mbind at 1, draw_mbind, draw_bind.
  rewrite (for_each_run _ _ (fun dx =>
             py_range2 (- outline_w) (outline_w + 1) ≫= (fun dy =>
               (fun d : Z * Z => Text (x + d.1, y + d.2) text fnt outline_color "mm")
                 <$> (if dx * dx + dy * dy <=? outline_w * outline_w + 1
                      then [(dx, dy)] else [])))).
  - set (L := py_range2 _ _ ≫= _).
    assert (HL : L = (fun d : Z * Z => Text (x + d.1, y + d.2) text fnt outline_color "mm")
                       <$> halo_offsets outline_w).
    { unfold L, halo_offsets. rewrite fmap_bind_list.
      apply bind_list_ext. intros dx. by rewrite fmap_bind_list. }
    rewrite <- HL. reflexivity.
  - intros dx. apply for_each_run. intros dy.
    by destruct (dx * dx + dy * dy <=? outline_w * outline_w + 1).
Qed.

Lemma elem_of_py_range2 a b x : x ∈ py_range2 a b ↔ a <= x < b.
Proof.
  unfold py_range2. rewrite list_elem_of_In, in_map_iff. split.
  - intros (i & <- & Hi). apply in_seq in Hi. lia.
  - intros Hx. exists (Z.to_nat (x - a)). split; [lia|]. apply in_seq. lia.
Qed.

Lemma NoDup_py_range2 a b : NoDup (py_range2 a b).
Proof.
  unfold py_range2.
  change (NoDup ((fun i : nat => a + Z.of_nat i) <$> seq 0 (Z.to_nat (b - a)))).
  apply NoDup_fmap_2_strong; [|apply NoDup_seq].
  intros i j _ _ Hij. lia.
Qed.

Lemma elem_of_halo_offsets ow dx dy :
  (dx, dy) ∈ halo_offsets ow
  ↔ - ow <= dx <= ow ∧ - ow <= dy <= ow ∧ dx * dx + dy * dy <= ow * ow + 1.
Proof.
  unfold halo_offsets. rewrite list_elem_of_bind. split.
  - intros (x & Hin & Hx). apply list_elem_of_bind in Hin as (y & Hin & Hy).
    apply elem_of_py_range2 in Hx, Hy.
    destruct (x * x + y * y <=? ow * ow + 1) eqn:E; [|by apply elem_of_nil in Hin].
    apply list_elem_of_singleton in Hin as [= -> ->]. apply Z.leb_le in E. lia.
  - intros (Hx & Hy & Hd). exists dx. split; [|apply elem_of_py_range2; lia].
    apply list_elem_of_bind. exists dy. split; [|apply elem_of_py_range2; lia].
    apply Z.leb_le in Hd. rewrite Hd. by apply list_elem_of_singleton.
Qed.

Lemma NoDup_halo_offsets ow : NoDup (halo_offsets ow).
Proof.
  unfold halo_offsets. apply NoDup_bind; [| |apply NoDup_py_range2].
  - intros x1 x2 [dx dy] _ _ H1 H2.
    apply list_elem_of_bind in H1 as (y1 & H1 & _).
    apply list_elem_of_bind in H2 as (y2 & H2 & _).
    destruct (_ <=? _) in H1; [|by apply elem_of_nil in H1].
    destruct (_ <=? _) in H2; [|by apply elem_of_nil in H2].
    apply list_elem_of_singleton in H1, H2. congruence.
  - intros x _. apply NoDup_bind; [| |apply NoDup_py_range2].
    + intros y1 y2 [dx dy] _ _ H1 H2.
      destruct (_ <=? _) in H1; [|by apply elem_of_nil in H1].
      destruct (_ <=? _) in H2; [|by apply elem_of_nil in H2].
      apply list_elem_of_singleton in H1, H2. congruence.
    + intros y _. destruct (_ <=? _); [apply NoDup_singleton | apply NoDup_nil_2].
Qed.

(** Claim C6, as the code has it.  Once the font is resolved,
    [draw_text_outlined] stamps the text in the outline colour once at
    each integer offset [(dx, dy)] with [|dx|, |dy| <= ow] and
    [dx^2 + dy^2 <= ow^2 + 1], column by column, and then once in the fill
    colour at the anchor; it issues no other call. *)
Theorem outlined_text_halo x y text font_size fill outline_color ow s g fnt :
  resolve_font font_size = Ok fnt →
  draw_text_outlined (x, y) text font_size fill outline_color ow s g
  = Ok (fnt, g,
        ((fun d : Z * Z => Text (x + d.1, y + d.2) text fnt outline_color "mm")
           <$> halo_offsets ow)
        ++ [Text (x, y) text fnt fill "mm"])
  ∧ (∀ dx dy, (dx, dy) ∈ halo_offsets ow
              ↔ - ow <= dx <= ow ∧ - ow <= dy <= ow
                ∧ dx * dx + dy * dy <= ow * ow + 1)
  ∧ NoDup (halo_offsets ow).
Proof.
  intros Hres. split; [by apply draw_text_outlined_run|].
  split; [apply elem_of_halo_offsets | apply NoDup_halo_offsets].
Qed.

(** Claim C7.  The font is the first of Helvetica and SF NS Display that
    loads, and the built-in font when both fail with [OSError]; when
    font files fail only in that way, [draw_text_outlined] returns, with
    the font it resolved, and stamps every text with it. *)
Theorem font_fallback pos text font_size fill outline_color outline_w s g :
  let helvetica := truetype "/System/Library/Fonts/Helvetica.ttc" font_size in
  let sfns := truetype "/System/Library/Fonts/SFNSDisplay.ttf" font_size in
  (∀ f, helvetica = Ok f → resolve_font font_size = Ok f)
  ∧ (∀ f, helvetica = Raise OSError → sfns = Ok f → resolve_font font_size = Ok f)
  ∧ (helvetica = Raise OSError → sfns = Raise OSError →
     resolve_font font_size = Ok load_default)
  ∧ ((∀ path e, truetype path font_size = Raise e → e = OSError) →
     ∃ fnt ops,
       resolve_font font_size = Ok fnt
       ∧ draw_text_outlined pos text font_size fill outline_color outline_w s g
         = Ok (fnt, g, ops)
       ∧ Forall (fun c => ∃ xy col, c = Text xy text fnt col "mm") ops).
Proof.
  cbv zeta. unfold resolve_font, except_OSError.
  split; [intros f ->; reflexivity|].
  split; [intros f -> ->; reflexivity|].
  split; [intros -> ->; reflexivity|].
  intros Hfail.
  assert (Hres : ∃ fnt, resolve_font font_size = Ok fnt).
  { unfold resolve_font, except_OSError.
    destruct (truetype "/System/Library/Fonts/Helvetica.ttc" font_size) as [f|e] eqn:E1;
      [by eexists|].
    rewrite (Hfail _ _ E1).
    destruct (truetype "/System/Library/Fonts/SFNSDisplay.ttf" font_size) as [f|e'] eqn:E2;
      [by eexists|].
    rewrite (Hfail _ _ E2). by eexists. }
  destruct Hres as [fnt Hres]. destruct pos as [x y].
  exists fnt. eexists. split; [exact Hres|].
  split; [by apply draw_text_outlined_run|].
  apply Forall_app. split.
  - apply Forall_fmap, Forall_forall. intros d _. by eexists _, _.
  - constructor; [by eexists _, _ | done].
Qed.

(** ** Claim C5: the ditch-water frames *)




(** ** Where a bundle lives *)

Lemma append_assoc (a b c : string) : (a +:+ b) +:+ c = a +:+ (b +:+ c).
Proof.
  induction a as [|x a IH]; [reflexivity|]. rewrite !append_cons. by rewrite IH.
Qed.

Lemma append_length (a b : string) :
  String.length (a +:+ b) = (String.length a + String.length b)%nat.
Proof.
  induction a as [|x a IH]; [reflexivity|]. rewrite append_cons. cbn. by rewrite IH.
Qed.

Lemma append_inj_l (a c s : string) : a +:+ s = c +:+ s → a = c.
Proof.
  revert c. induction a as [|x a IH]; intros [|y c] E.
  - reflexivity.
  - apply (f_equal String.length) in E.
    rewrite append_nil_l, append_cons in E. cbn in E.
    rewrite append_length in E. lia.
  - apply (f_equal String.length) in E.
    rewrite append_nil_l, append_cons in E. cbn in E.
    rewrite append_length in E. lia.
  - rewrite !append_cons in E. injection E as -> E. f_equal. by apply IH.
Qed.

Lemma has_sep_app a b : has_sep (a +:+ b) = has_sep a || has_sep b.
Proof.
  induction a as [|x a IH]; [reflexivity|].
  rewrite append_cons. cbn. by rewrite IH, orb_assoc.
Qed.

Lemma ends_with_sep_app a b :
  b ≠ EmptyString → ends_with_sep (a +:+ b) = ends_with_sep b.
Proof.
  intros Hb. induction a as [|x a IH]; [reflexivity|].
  rewrite append_cons.
  destruct (a +:+ b) as [|c' r] eqn:E.
  - destruct a; [rewrite append_nil_l in E; congruence | discriminate].
  - exact IH.
Qed.

(** Two strings that agree up to their first separator. *)
Lemma split_at_sep (a b c d : string) :
  has_sep a = false → has_sep c = false →
  a +:+ String "/" b = c +:+ String "/" d → a = c ∧ b = d.
Proof.
  revert c. induction a as [|x a IH]; intros [|y c] Ha Hc E.
  - rewrite !append_nil_l in E. by injection E as ->.
  - rewrite append_nil_l, append_cons in E. injection E as <- _.
    cbn in Hc. discriminate.
  - rewrite append_nil_l, append_cons in E. injection E as -> _.
    cbn in Ha. discriminate.
  - rewrite !append_cons in E. injection E as -> E.
    cbn in Ha, Hc. apply orb_false_iff in Ha as [_ Ha], Hc as [_ Hc].
    destruct (IH c Ha Hc E) as [-> ->]. done.
Qed.

Lemma path_join_rel d x :
  d ≠ EmptyString → ends_with_sep d = false → is_abs x = false →
  path_join d x = d +:+ "/" +:+ x.
Proof.
  intros Hd Hs Hx. unfold path_join. rewrite Hx, Hs. by destruct d.
Qed.


Lemma is_abs_app name sfx :
  is_abs sfx = false → is_abs (name +:+ sfx) = is_abs name.
Proof. intros Hs. destruct name; [exact Hs | reflexivity]. Qed.

Lemma ASSETS_DIR_shape :
  ASSETS_DIR script_dir ≠ EmptyString ∧ ends_with_sep (ASSETS_DIR script_dir) = false.
Proof.
  unfold ASSETS_DIR. rewrite (path_join_prefix _ "Assets.xcassets").
  split.
  - intros E. apply (f_equal String.length) in E. rewrite append_length in E.
    cbn in E. lia.
  - by rewrite ends_with_sep_app.
Qed.

Lemma bundle_dir_shape name :
  bundle_dir script_dir name ≠ EmptyString
  ∧ ends_with_sep (bundle_dir script_dir name) = false.
Proof.
  unfold bundle_dir. rewrite path_join_prefix, <- append_assoc.
  split.
  - intros E. apply (f_equal String.length) in E. rewrite append_length in E.
    cbn in E. lia.
  - by rewrite ends_with_sep_app.
Qed.

Lemma bundle_layout_rel name :
  is_abs name = false →
  bundle_dir script_dir name = ASSETS_DIR script_dir +:+ "/" +:+ name +:+ ".imageset"
  ∧ bundle_paths script_dir name
    = [ bundle_dir script_dir name +:+ "/" +:+ "Contents.json";
        bundle_dir script_dir name +:+ "/" +:+ name +:+ "@3x.png";
        bundle_dir script_dir name +:+ "/" +:+ name +:+ "@2x.png" ].
Proof.
  intros Habs.
  destruct (bundle_dir_shape name) as [Hne Hsep].
  destruct ASSETS_DIR_shape as [HAne HAsep].
  split.
  - unfold bundle_dir. apply path_join_rel; [done|done|].
    by rewrite is_abs_app.
  - unfold bundle_paths.
    rewrite !(path_join_rel (bundle_dir script_dir name)); try done;
      by rewrite is_abs_app.
Qed.



Lemma has_sep_is_abs name : has_sep name = false → is_abs name = false.
Proof.
  destruct name as [|c r]; [done|]. cbn. intros E%orb_false_iff.
  destruct E as [E _]. unfold is_abs.
  destruct c as [[] [] [] [] [] [] [] []]; try reflexivity. discriminate.
Qed.

Lemma bundle_paths_apart n1 n2 :
  has_sep n1 = false → has_sep n2 = false → n1 ≠ n2 →
  bundle_dir script_dir n1 ≠ bundle_dir script_dir n2
  ∧ ∀ p, p ∈ bundle_paths script_dir n1 → p ∉ bundle_paths script_dir n2.
Proof.
  intros H1 H2 Hne.
  destruct (bundle_layout_rel n1) as [Hd1 Hp1]; [by apply has_sep_is_abs|].
  destruct (bundle_layout_rel n2) as [Hd2 Hp2]; [by apply has_sep_is_abs|].
  assert (Hdir : ∀ f1 f2 : string,
            bundle_dir script_dir n1 +:+ "/" +:+ f1
            ≠ bundle_dir script_dir n2 +:+ "/" +:+ f2).
  { intros f1 f2 E. rewrite Hd1, Hd2 in E.
    rewrite !append_assoc in E. apply append_inj_r in E.
    change ("/" +:+ ?x) with (String "/" x) in E. injection E as E.
    rewrite <- !append_assoc in E. rewrite !(append_assoc _ "/") in E.
    apply (split_at_sep (n1 +:+ ".imageset") f1 (n2 +:+ ".imageset") f2) in E
      as [E _].
    - by apply append_inj_l in E.
    - by rewrite has_sep_app, H1.
    - by rewrite has_sep_app, H2. }
  split.
  - intros E. apply (Hdir "" ""). by rewrite E.
  - intros p Hin1 Hin2. rewrite Hp1 in Hin1. rewrite Hp2 in Hin2.
    rewrite !elem_of_cons, elem_of_nil in Hin1, Hin2.
    destruct Hin1 as [->|[->|[->|[]]]]; destruct Hin2 as [E|[E|[E|[]]]];
      revert E; apply Hdir.
Qed.

(** Bundles of different sprites share nothing: for two different names
    without a "/", the bundle directories differ and no file of one
    bundle is a file of the other. *)
Theorem bundles_disjoint n1 n2 :
  has_sep n1 = false → has_sep n2 = false → n1 ≠ n2 →
  bundle_dir script_dir n1 ≠ bundle_dir script_dir n2
  ∧ ∀ p, p ∈ bundle_paths script_dir n1 → p ∉ bundle_paths script_dir n2.
Proof. apply bundle_paths_apart. Qed.


(** ** Saving over a bundle *)


(** ** Saving two bundles in either order *)



(** The @2x size that [save_asset] derives from an @3x dimension [n]
    below 2^51 is the [m] with [3*m <= 2*n < 3*m + 3]: it never exceeds
    [n], is smaller than [n] as soon as [n >= 1], and is zero exactly
    when [n] is 0 or 1 (so a one-pixel-wide sprite gets an empty @2x
    size). *)
Theorem variant_size_bounds n :
  0 <= n < 2 ^ 51 →
  ∃ m, two_thirds n = Ok m
       ∧ 3 * m <= 2 * n < 3 * m + 3
       ∧ 0 <= m <= n
       ∧ (m = 0 ↔ n <= 1)
       ∧ (1 <= n → m < n).
Proof.
  intros Hn. exists (n * 2 / 3). split; [by apply two_thirds_floor|].
  pose proof (Z.mul_div_le (n * 2) 3). pose proof (Z.mul_succ_div_gt (n * 2) 3).
  assert (0 <= n * 2 / 3) by (apply Z.div_pos; lia). lia.
Qed.

(** ** The halo of outlined text *)

Lemma py_range2_empty a b : b <= a → py_range2 a b = [].
Proof.
  intros Hab. unfold py_range2. replace (Z.to_nat (b - a)) with 0%nat by lia.
  reflexivity.
Qed.

(** The outline of [draw_text_outlined], once the font is resolved: the
    text is stamped in the outline colour at the offsets of a list
    [halo], then once in the fill colour at the anchor.  For a negative
    outline width the halo is empty and only the fill is drawn; for
    width 0 it is the anchor alone; for a width [ow >= 0] it covers every
    offset of the disk of radius [ow], stays strictly inside the disk of
    radius [ow + 1], and is symmetric under mirroring and swapping the
    axes. *)
Theorem halo_shape x y text font_size fill outline_color ow s g fnt :
  resolve_font font_size = Ok fnt →
  ∃ halo : list (Z * Z),
    draw_text_outlined (x, y) text font_size fill outline_color ow s g
    = Ok (fnt, g,
          ((fun d : Z * Z => Text (x + d.1, y + d.2) text fnt outline_color "mm")
             <$> halo)
          ++ [Text (x, y) text fnt fill "mm"])
    ∧ (ow < 0 → halo = [])
    ∧ (ow = 0 → halo = [(0, 0)])
    ∧ (∀ dx dy, 0 <= ow → dx * dx + dy * dy <= ow * ow → (dx, dy) ∈ halo)
    ∧ (∀ dx dy, (dx, dy) ∈ halo → dx * dx + dy * dy < (ow + 1) * (ow + 1))
    ∧ (∀ dx dy, (dx, dy) ∈ halo →
                (- dx, dy) ∈ halo ∧ (dx, - dy) ∈ halo ∧ (dy, dx) ∈ halo).
Proof.
  intros Hres. exists (halo_offsets ow).
  split; [by apply draw_text_outlined_run|].
  split.
  { intros Hneg. unfold halo_offsets. by rewrite py_range2_empty by lia. }
  split; [by intros ->|].
  split; [|split].
  - intros dx dy How Hd. apply elem_of_halo_offsets. nia.
  - intros dx dy Hin. apply elem_of_halo_offsets in Hin. nia.
  - intros dx dy Hin. apply elem_of_halo_offsets in Hin.
    rewrite !elem_of_halo_offsets. nia.
Qed.

(** ** Font errors that are not caught *)

(** [draw_text_outlined] catches only [OSError]: an exception of another
    class from the first font file is raised to the caller and the second
    file is not tried; one from the second file, tried after the first
    failed with [OSError], is raised as well.  When the first file loads,
    the second one is not looked at. *)
Theorem font_errors_propagate pos text font_size fill outline_color outline_w s g e :
  e ≠ OSError →
  let helvetica := truetype "/System/Library/Fonts/Helvetica.ttc" font_size in
  let sfns := truetype "/System/Library/Fonts/SFNSDisplay.ttf" font_size in
  (helvetica = Raise e →
   draw_text_outlined pos text font_size fill outline_color outline_w s g = Raise e)
  ∧ (helvetica = Raise OSError → sfns = Raise e →
     draw_text_outlined pos text font_size fill outline_color outline_w s g = Raise e)
  ∧ (∀ f, helvetica = Ok f →
          ∃ ops, draw_text_outlined pos text font_size fill outline_color outline_w s g
                 = Ok (f, g, ops)).
Proof.
  intros He. cbv zeta. destruct pos as [x y].
  assert (Hraise : ∀ e', resolve_font font_size = Raise e' →
            draw_text_outlined (x, y) text font_size fill outline_color outline_w s g
            = Raise e').
  { intros e' Hres. unfold draw_text_outlined.
    unfold mbind at 1, draw_mbind, draw_bind, lift. by rewrite Hres. }
  split; [|split].
  - intros Hh. apply Hraise. unfold resolve_font, except_OSError. rewrite Hh.
    by destruct e.
  - intros Hh Hs. apply Hraise. unfold resolve_font, except_OSError. rewrite Hh, Hs.
    by destruct e.
  - intros f Hh. eexists. apply draw_text_outlined_run.
    unfold resolve_font, except_OSError. by rewrite Hh.
Qed.

(** ** Every sprite is drawn and exported *)

Section Returns.

Hypothesis Hfonts : fonts_fail_with_OSError.
Hypothesis Hlibm : libm_in_range.

Lemma total_ret {A} (a : A) (Q : A → Prop) P : Q a → total (mret a) Q P.
Proof. intros Ha g. exists a, g, []. by repeat split. Qed.

Lemma total_emit c P : P c → total (emit c) (fun _ => True) P.
Proof. intros Hc g. exists tt, g, [c]. repeat split. by constructor. Qed.

Lemma total_lift {A} (r : res A) a (Q : A → Prop) P :
  r = Ok a → Q a → total (lift r) Q P.
Proof. intros -> Ha g. exists a, g, []. by repeat split. Qed.

Lemma total_seed n P : total (random_seed n) (fun _ => True) P.
Proof. intros g. exists tt, (rseed n), []. by repeat split. Qed.

Lemma total_randint a b P :
  a <= b → total (random_randint a b) (fun r => a <= r <= b) P.
Proof.
  intros Hab g. unfold random_randint.
  destruct (0 <? b + 1 - a) eqn:E; [|apply Z.ltb_ge in E; lia].
  apply Z.ltb_lt in E.
  pose proof (randbelow_range (b + 1 - a) g E) as Hr.
  destruct (randbelow (b + 1 - a) g) as [r0 g0]; cbn [fst] in Hr.
  exists (a + r0), g0, []. split; [reflexivity|]. split; [lia | constructor].
Qed.

Lemma total_choice {A} (l : list A) P :
  l ≠ [] → total (random_choice l) (fun x => x ∈ l) P.
Proof.
  intros Hl g. unfold random_choice. destruct l as [|d l']; [done|].
  set (l := d :: l') in *.
  assert (Hlen : 0 < Z.of_nat (length l)) by (cbn; lia).
  pose proof (randbelow_range _ g Hlen) as Hr.
  destruct (randbelow (Z.of_nat (length l)) g) as [i g0]; cbn [fst] in Hr.
  eexists _, _, _. split; [reflexivity|]. split; [|constructor].
  apply list_elem_of_In, nth_In. lia.
Qed.

Lemma total_weaken {A} (m : Draw A) (Q Q' : A → Prop) P :
  total m Q P → (∀ a, Q a → Q' a) → total m Q' P.
Proof.
  intros Hm HQ g. destruct (Hm g) as (a & g' & ops & E & Ha & Hops).
  exists a, g', ops. auto.
Qed.

Lemma total_bind {A B} (m : Draw A) (k : A → Draw B) Q Q' P :
  total m Q P → (∀ a, Q a → total (k a) Q' P) → total (m ≫= k) Q' P.
Proof.
  intros Hm Hk g. unfold mbind, draw_mbind, draw_bind.
  destruct (Hm g) as (a & g1 & ops1 & -> & Ha & H1).
  destruct (Hk a Ha g1) as (b & g2 & ops2 & -> & Hb & H2).
  exists b, g2, (ops1 ++ ops2). split; [reflexivity|]. split; [done|].
  by apply Forall_app.
Qed.

Lemma total_for_each {A} (l : list A) (body : A → Draw unit) P :
  (∀ x, x ∈ l → total (body x) (fun _ => True) P) →
  total (for_each l body) (fun _ => True) P.
Proof.
  induction l as [|x l IH]; intros Hb; cbn [for_each].
  - by apply total_ret.
  - eapply total_bind; [apply Hb; left | intros _ _; apply IH].
    intros y Hy. apply Hb. by right.
Qed.

Ltac wf0 :=
  cbv beta in *;
  cbv [cmd_well_formed cmd_box_normalized cmd_colors_ok line_has_segment
       polygon_has_area box_normalized opt_color_ok color_ok channel_ok
       cmd_box bx0 bx1 by0 by1 fst snd];
  cbn [length];
  repeat match goal with |- _ ∧ _ => split end;
  try first [exact I | lia | (Z.to_euclidean_division_equations; lia)].

Ltac wf :=
  cbv beta in *;
  cbv [cmd_well_formed cmd_box_normalized cmd_colors_ok line_has_segment
       polygon_has_area box_normalized opt_color_ok color_ok channel_ok
       cmd_box bx0 bx1 by0 by1 fst snd];
  cbn [length];
  repeat match goal with |- _ ∧ _ => split end;
  first [exact I | lia | (Z.to_euclidean_division_equations; lia)].

Ltac total_step :=
  lazymatch goal with
  | |- total (for_each _ _) _ _ => apply total_for_each; intros ? ?
  | |- total (mbind _ (random_randint _ _)) _ _ =>
      eapply total_bind;
      [ apply total_randint; first [lia | (Z.to_euclidean_division_equations; lia)]
      | intros ? ? ]
  | |- total (mbind _ (random_seed _)) _ _ =>
      eapply total_bind; [apply total_seed | intros _ _]
  | |- total (mbind _ (emit _)) _ _ =>
      eapply total_bind; [apply total_emit; wf | intros _ _]
  | |- total (emit _) _ _ => apply total_emit; wf
  | |- total (mret _) _ _ => apply total_ret; exact I
  | |- total (random_seed _) _ _ => apply total_seed
  | |- total (mbind _ (lift _)) _ _ => fail
  | |- total (mbind _ (random_choice _)) _ _ => fail
  | |- total (mbind _ _) _ _ =>
      eapply (total_bind _ _ (fun _ => True)); [| intros ? _]
  end.

Lemma farmer_total : total (farmer_draw_fn (180 * 4) (216 * 4) 4) (fun _ => True) cmd_well_formed.
Proof.
  unfold farmer_draw_fn, outlined_circle, outlined_ellipse. cbv zeta.
  repeat total_step.
Qed.

Lemma to_int_fbounded E x : PyFloat.fbounded E x = true → ∃ a, PyFloat.to_int x = Ok a.
Proof. destruct x; try discriminate; intros _; eexists; reflexivity. Qed.

Lemma fbounded_mono E E' x : PyFloat.fbounded E x = true → E <= E' → PyFloat.fbounded E' x = true.
Proof.
  destruct x as [| | |s m e]; try done. cbn [PyFloat.fbounded].
  rewrite !andb_true_iff, !Z.leb_le. lia.
Qed.

(** A sine or cosine scaled by one or two small factors converts to an
    int. *)
Lemma scaled_to_int y k :
  PyFloat.fbounded (-52) y = true → PyFloat.fbounded 0 k = true →
  ∃ a, PyFloat.to_int (PyFloat.mul y k) = Ok a.
Proof.
  intros Hy Hk. eapply to_int_fbounded, mul_fbounded; [exact Hy|exact Hk|lia].
Qed.

Lemma scaled2_to_int y k1 k2 :
  PyFloat.fbounded (-52) y = true → PyFloat.fbounded 0 k1 = true → PyFloat.fbounded 0 k2 = true →
  ∃ a, PyFloat.to_int (PyFloat.mul (PyFloat.mul y k1) k2) = Ok a.
Proof.
  intros Hy H1 H2. eapply to_int_fbounded, mul_fbounded; [|exact H2|].
  - eapply mul_fbounded; [exact Hy|exact H1|lia].
  - lia.
Qed.

Lemma res_map_total {A B} (f : A → res B) l :
  (∀ x, x ∈ l → ∃ y, f x = Ok y) →
  ∃ ys, res_map f l = Ok ys ∧ length ys = length l.
Proof.
  induction l as [|x l IH]; intros Hf; cbn [res_map].
  - by exists [].
  - destruct (Hf x) as [y Hy]; [left|].
    destruct IH as (ys & Hys & Hlen); [intros z Hz; apply Hf; by right|].
    exists (y :: ys). unfold mbind, res_mbind, res_bind. rewrite Hy, Hys.
    split; [reflexivity|]. cbn. by rewrite Hlen.
Qed.

Lemma forallb_elem_of {A} (f : A → bool) l x :
  forallb f l = true → x ∈ l → f x = true.
Proof.
  intros Hf Hx. apply list_elem_of_In in Hx.
  by apply (proj1 (forallb_forall f l) Hf).
Qed.

Lemma to_int_finite x : PyFloat.is_finite x = true → ∃ a, PyFloat.to_int x = Ok a.
Proof. destruct x; try discriminate; intros _; eexists; reflexivity. Qed.

Lemma rgb_in_range_inv r :
  rgb_in_range r = true →
  ∃ cr cg cb, r = Ok (cr, cg, cb) ∧ channel_ok cr ∧ channel_ok cg ∧ channel_ok cb.
Proof.
  destruct r as [[[cr cg] cb]|e]; [|discriminate]. unfold rgb_in_range, byte, channel_ok.
  rewrite !andb_true_iff, !Z.leb_le. intros H. exists cr, cg, cb. split; [done|lia].
Qed.

(** One step of a float computation that is known to return. *)
Ltac res_step :=
  unfold mbind, res_mbind, res_bind; cbv beta;
  match goal with
  | H : PyFloat.is_finite ?x = true |- context [PyFloat.to_int ?x] =>
      destruct (to_int_finite _ H) as [? ->]
  | H : PyFloat.is_finite ?x = true |- context [math_sin ?x] =>
      let Hy := fresh "Hy" in
      destruct (Hlibm _ H) as [(? & -> & Hy) _]
  | H : PyFloat.is_finite ?x = true |- context [math_cos ?x] =>
      let Hy := fresh "Hy" in
      destruct (Hlibm _ H) as [_ (? & -> & Hy)]
  | H : PyFloat.fbounded (-52) ?y = true
    |- context [PyFloat.to_int (PyFloat.mul (PyFloat.mul ?y ?k1) ?k2)] =>
      destruct (scaled2_to_int y k1 k2 H ltac:(vm_compute; reflexivity)
                  ltac:(vm_compute; reflexivity)) as [? ->]
  | H : PyFloat.fbounded (-52) ?y = true |- context [PyFloat.to_int (PyFloat.mul ?y ?k)] =>
      destruct (scaled_to_int y k H ltac:(vm_compute; reflexivity)) as [? ->]
  end.

Lemma cow_tail_points tx ty :
  ∃ points,
    res_map (fun i =>
      t ← PyFloat.div (PyFloat.of_int i) PyFloat.lit_19_0;
      a ← PyFloat.to_int (PyFloat.mul (PyFloat.mul t (PyFloat.of_int 12)) (PyFloat.of_int 4));
      sn ← math_sin (PyFloat.mul (PyFloat.mul t PyFloat.pi) (PyFloat.of_int 2));
      b ← PyFloat.to_int (PyFloat.mul (PyFloat.mul sn (PyFloat.of_int 8)) (PyFloat.of_int 4));
      c ← PyFloat.to_int (PyFloat.mul (PyFloat.mul t (PyFloat.of_int 15)) (PyFloat.of_int 4));
      mret (tx + a, ty + b - c)) (py_range 20) = Ok points
    ∧ length points = 20%nat.
Proof.
  apply res_map_total. intros i Hi.
  assert (Hc : forallb (fun i =>
            match PyFloat.div (PyFloat.of_int i) PyFloat.lit_19_0 with
            | Ok t =>
                PyFloat.is_finite (PyFloat.mul (PyFloat.mul t (PyFloat.of_int 12)) (PyFloat.of_int 4))
                && PyFloat.is_finite (PyFloat.mul (PyFloat.mul t PyFloat.pi) (PyFloat.of_int 2))
                && PyFloat.is_finite (PyFloat.mul (PyFloat.mul t (PyFloat.of_int 15)) (PyFloat.of_int 4))
            | Raise _ => false
            end) (py_range 20) = true) by (vm_compute; reflexivity).
  apply (forallb_elem_of _ _ i) in Hc; [|exact Hi]. cbv beta in Hc.
  destruct (PyFloat.div (PyFloat.of_int i) PyFloat.lit_19_0) as [t|e]; [|done].
  rewrite !andb_true_iff in Hc. destruct Hc as [[Ha Hs] Hc].
  repeat res_step. eexists; reflexivity.
Qed.

Lemma draw_cow_total variant :
  total (draw_cow (156 * 4) (132 * 4) 4 variant) (fun _ => True) cmd_well_formed.
Proof.
  unfold draw_cow, outlined_circle, outlined_ellipse. cbv zeta.
  repeat total_step.
  destruct (cow_tail_points (156 * 4 / 2 + 46 * 4) (132 * 4 / 2 - 5 * 4))
    as (points & Hp & Hlen).
  eapply total_bind;
    [apply (total_lift _ _ (fun p => length p = 20%nat) _ Hp Hlen) | intros pts Hpts].
  cbv beta in Hpts. rewrite Hpts. change (1 <? Z.of_nat 20) with true. cbv iota.
  destruct (last pts) as [tp|] eqn:El.
  - eapply total_bind; [apply total_emit; wf0; unfold point in *; rewrite Hpts; lia | intros _ _].
    eapply total_bind; [by apply (total_lift _ tp (fun _ => True)) | intros ? _].
    repeat total_step.
  - destruct pts; [discriminate|]. by rewrite last_cons in El; destruct (last pts).
Qed.

(** A library call on concrete arguments: its value is computed. *)
Ltac lift_compute :=
  lazymatch goal with
  | |- total (mbind _ (lift ?r)) _ _ =>
      let v := eval vm_compute in r in
      lazymatch v with
      | Ok ?a =>
          eapply total_bind;
          [ apply (total_lift r a (fun x => x = a));
            [vm_compute; reflexivity | reflexivity]
          | intros ? -> ]
      end
  end.

Ltac total_auto := repeat first [total_step | lift_compute].

Lemma cow_drowning_total :
  total (cow_drowning_draw_fn (156 * 4) (108 * 4) 4) (fun _ => True) cmd_well_formed.
Proof.
  unfold cow_drowning_draw_fn, outlined_circle, outlined_ellipse. cbv zeta.
  total_step. lift_compute.
  eapply (total_bind _ _ (fun _ => True)).
  - apply total_for_each. intros wx Hwx.
    assert (Hc : forallb (fun wx =>
              match PyFloat.int_truediv wx (12 * 4) with
              | Ok q => PyFloat.is_finite q
              | Raise _ => false
              end) [0; 32; 64; 96; 128; 160; 192; 224; 256; 288; 320; 352; 384; 416;
                    448; 480; 512; 544; 576; 608] = true) by (vm_compute; reflexivity).
    apply (forallb_elem_of _ _ wx) in Hc; [|exact Hwx]. cbv beta in Hc.
    destruct (PyFloat.int_truediv wx (12 * 4)) as [q|e] eqn:Eq; [|done].
    destruct (Hlibm _ Hc) as [(sn & Hsn & Hy) _].
    destruct (scaled2_to_int sn (PyFloat.of_int 3) (PyFloat.of_int 4) Hy
                ltac:(vm_compute; reflexivity) ltac:(vm_compute; reflexivity)) as [a Ha].
    eapply total_bind.
    + apply (total_lift _ a (fun _ => True)); [|done].
      unfold mbind, res_mbind, res_bind. by rewrite Hsn, Ha.
    + intros ? _. total_auto.
  - intros _ _. total_auto.
Qed.

Lemma draw_text_outlined_total pos text font_size fill outline_color outline_w s :
  color_ok fill → color_ok outline_color →
  total (draw_text_outlined pos text font_size fill outline_color outline_w s)
        (fun _ => True) cmd_well_formed.
Proof.
  intros Hf Ho. destruct pos as [x y]. unfold draw_text_outlined.
  assert (Hres : ∃ fnt, resolve_font font_size = Ok fnt).
  { unfold resolve_font, except_OSError.
    destruct (truetype "/System/Library/Fonts/Helvetica.ttc" font_size) as [f|e] eqn:E1;
      [by eexists|].
    apply Hfonts in E1 as ->.
    destruct (truetype "/System/Library/Fonts/SFNSDisplay.ttf" font_size) as [f|e] eqn:E2;
      [by eexists|].
    apply Hfonts in E2 as ->. by eexists. }
  destruct Hres as [fnt Hres].
  assert (Hstamp : ∀ p col, color_ok col → cmd_well_formed (Text p text fnt col "mm")).
  { intros p col Hcol. by repeat split. }
  eapply total_bind; [by apply (total_lift _ fnt (fun x => x = fnt)) | intros ? ->].
  eapply (total_bind _ _ (fun _ => True)).
  - apply total_for_each; intros dx _. apply total_for_each; intros dy _.
    destruct (_ <=? _); [apply total_emit, (Hstamp _ _ Ho) | by apply total_ret].
  - intros _ _. eapply total_bind; [apply total_emit, (Hstamp _ _ Hf) | intros _ _].
    by apply total_ret.
Qed.

Lemma gradient_row_total (f : Z → res (Z * Z * Z)) (k : Z → Z * Z * Z → Draw unit) l :
  forallb (fun y => rgb_in_range (f y)) l = true →
  (∀ y r g b, channel_ok r → channel_ok g → channel_ok b →
              total (k y (r, g, b)) (fun _ => True) cmd_well_formed) →
  total (for_each l (fun y => lift (f y) ≫= k y)) (fun _ => True) cmd_well_formed.
Proof.
  intros Hc Hk. apply total_for_each. intros y Hy.
  apply (forallb_elem_of _ _ y) in Hc; [|exact Hy].
  apply rgb_in_range_inv in Hc as (r & g & b & Hf & Hr & Hg & Hb).
  eapply total_bind; [by apply (total_lift _ (r, g, b) (fun x => x = (r, g, b))) |].
  intros ? ->. by apply Hk.
Qed.

Lemma grass_blades_total w h :
  0 <= w → 0 <= h →
  total (grass_blades w h 4) (fun _ => True) cmd_well_formed.
Proof. intros Hw Hh. unfold grass_blades. total_auto. Qed.

Lemma background_grass_total :
  total (background_grass_draw_fn (512 * 4) (512 * 4) 4) (fun _ => True) cmd_well_formed.
Proof.
  unfold background_grass_draw_fn. total_step.
  eapply (total_bind _ _ (fun _ => True)); [|intros _ _; by apply grass_blades_total].
  apply (gradient_row_total
           (fun y => t ← PyFloat.int_truediv y (512 * 4);
                     r ← gradient_channel 60 t 30;
                     g ← gradient_channel 140 t 40;
                     b ← gradient_channel 30 t 20;
                     mret (r, g, b))
           (fun y '(r, g, b) => emit (Line [ (0, y); (512 * 4, y) ] (RGB r g b) None))).
  - vm_compute. reflexivity.
  - intros y r g b Hr Hg Hb. apply total_emit. unfold channel_ok in *. wf.
Qed.

Lemma of_int_small k : 0 <= k <= 32 → PyFloat.fbounded 0 (PyFloat.of_int k) = true.
Proof.
  intros Hk.
  assert (Hc : forallb (fun k => PyFloat.fbounded 0 (PyFloat.of_int k)) (py_range 33) = true)
    by (vm_compute; reflexivity).
  apply (forallb_elem_of _ _ k) in Hc; [exact Hc|].
  unfold py_range. apply list_elem_of_In, in_map_iff.
  exists (Z.to_nat k). split; [lia|]. apply in_seq. lia.
Qed.

Lemma safe_pasture_total :
  total (safe_pasture_draw_fn (512 * 4) (512 * 4) 4) (fun _ => True) cmd_well_formed.
Proof.
  unfold safe_pasture_draw_fn. total_step.
  eapply (total_bind _ _ (fun _ => True)).
  { apply (gradient_row_total
             (fun y => t ← PyFloat.int_truediv y (512 * 4);
                       r ← gradient_channel 40 t 25;
                       g ← gradient_channel 120 t 30;
                       b ← gradient_channel 20 t 15;
                       mret (r, g, b))
             (fun y '(r, g, b) => emit (Line [ (0, y); (512 * 4, y) ] (RGB r g b) None))).
    - vm_compute; reflexivity.
    - intros y r g b Hr Hg Hb. apply total_emit. unfold channel_ok in *. wf. }
  intros _ _.
  eapply (total_bind _ _ (fun _ => True)); [total_auto | intros _ _].
  apply total_for_each. intros _ _.
  total_step. total_step.
  eapply total_bind; [by apply total_choice | intros pc Hpc].
  assert (Hcol : color_ok pc).
  { rewrite !elem_of_cons, elem_of_nil in Hpc.
    destruct Hpc as [->|[->|[->|[->|[]]]]]; cbv [color_ok channel_ok]; lia. }
  total_step. lift_compute.
  eapply (total_bind _ _ (fun _ => True)); [|intros _ _; total_auto].
  apply total_for_each. intros angle Hangle.
  assert (Hc : forallb (fun angle => PyFloat.is_finite (PyFloat.radians (PyFloat.of_int angle)))
                 [0; 72; 144; 216; 288] = true) by (vm_compute; reflexivity).
  apply (forallb_elem_of _ _ angle) in Hc; [|exact Hangle]. cbv beta in Hc.
  destruct (Hlibm _ Hc) as [(sn & Hsn & Hys) (c & Hcos & Hyc)].
  match goal with
  | H : 3 * 4 <= ?fr <= 5 * 4 |- _ =>
      assert (Hfr : PyFloat.fbounded 0 (PyFloat.of_int fr) = true) by (apply of_int_small; lia)
  | H : (fun _ => _) ?fr |- _ =>
      assert (Hfr : PyFloat.fbounded 0 (PyFloat.of_int fr) = true)
        by (apply of_int_small; cbv beta in H; lia)
  end.
  match type of Hfr with
  | PyFloat.fbounded 0 (PyFloat.of_int ?fr) = true =>
      destruct (scaled_to_int c (PyFloat.of_int fr) Hyc Hfr) as [ca Ha];
      destruct (scaled_to_int sn (PyFloat.of_int fr) Hys Hfr) as [sb Hb]
  end.
  eapply total_bind.
  - eapply (total_lift _ _ (fun x => x = _)); [|reflexivity].
    unfold mbind, res_mbind, res_bind. rewrite Hcos, Ha, Hsn, Hb. reflexivity.
  - intros ? ->. cbv iota beta. apply total_emit. wf0; exact Hcol.
Qed.

Lemma ditch_water_gradient_total :
  total (ditch_water_gradient (512 * 4) (160 * 4)) (fun _ => True) cmd_well_formed.
Proof.
  unfold ditch_water_gradient.
  apply (gradient_row_total
           (fun y => t ← PyFloat.int_truediv y (160 * 4);
                     r ← gradient_channel 30 t 20;
                     g ← gradient_channel 60 t 40;
                     b ← gradient_channel 140 t 40;
                     mret (r, g, b))
           (fun y '(r, g, b) => emit (Line [ (0, y); (512 * 4, y) ] (RGB r g b) None))).
  - vm_compute; reflexivity.
  - intros y r g b Hr Hg Hb. apply total_emit. unfold channel_ok in *. wf.
Qed.

Lemma ditch_water_waves_total frame :
  1 <= frame <= 3 →
  total (ditch_water_waves (512 * 4) (160 * 4) 4 (ditch_water_phase frame))
        (fun _ => True) cmd_well_formed.
Proof.
  intros Hframe. unfold ditch_water_waves. lift_compute.
  apply total_for_each. intros wy_base _.
  assert (Hw : ∃ wxs, py_range3 0 (512 * 4) (4 * 4) = Ok wxs ∧ length wxs = 128%nat
               ∧ forallb (fun wx =>
                    match PyFloat.int_truediv wx (30 * 4) with
                    | Ok q => forallb (fun f =>
                                PyFloat.is_finite (PyFloat.add q (ditch_water_phase f))) [1; 2; 3]
                    | Raise _ => false
                    end) wxs = true).
  { eexists. split; [vm_compute; reflexivity|]. split; vm_compute; reflexivity. }
  destruct Hw as (wxs & Hwxs & Hlen & Hc).
  assert (Hpts : ∃ points,
             res_map (fun wx =>
               q ← PyFloat.int_truediv wx (30 * 4);
               sn ← math_sin (PyFloat.add q (ditch_water_phase frame));
               a ← PyFloat.to_int (PyFloat.mul (PyFloat.mul sn (PyFloat.of_int 4))
                                               (PyFloat.of_int 4));
               mret (wx, wy_base + a)) wxs = Ok points
             ∧ length points = length wxs).
  { apply res_map_total. intros wx Hwx.
    apply (forallb_elem_of _ _ wx) in Hc; [|exact Hwx]. cbv beta in Hc.
    destruct (PyFloat.int_truediv wx (30 * 4)) as [q|e]; [|done].
    apply (forallb_elem_of _ _ frame) in Hc.
    - cbv beta in Hc. repeat res_step. eexists; reflexivity.
    - rewrite !elem_of_cons. lia. }
  destruct Hpts as (points & Hpts & Hplen).
  eapply total_bind.
  - apply (total_lift _ points (fun p => length p = 128%nat)).
    + unfold mbind at 1, res_mbind at 1, res_bind at 1. rewrite Hwxs. exact Hpts.
    + by rewrite Hplen.
  - intros pts Hp. cbv beta in Hp. unfold point in *. rewrite Hp.
    change (1 <? Z.of_nat 128) with true.
    cbv iota. apply total_emit. wf0. unfold point in *. rewrite Hp. lia.
Qed.

Lemma ditch_water_total frame :
  1 <= frame <= 3 →
  total (ditch_water_draw_fn frame (512 * 4) (160 * 4) 4) (fun _ => True) cmd_well_formed.
Proof.
  intros Hframe. unfold ditch_water_draw_fn. cbv zeta. total_step.
  eapply (total_bind _ _ (fun _ => True)); [apply ditch_water_gradient_total | intros _ _].
  eapply (total_bind _ _ (fun _ => True));
    [by apply ditch_water_waves_total | intros _ _].
  unfold ditch_water_shimmer. total_auto.
Qed.

Lemma ditch_edge_total :
  total (ditch_edge_draw_fn (512 * 4) (24 * 4) 4) (fun _ => True) cmd_well_formed.
Proof. unfold ditch_edge_draw_fn, ditch_edge_texture. total_auto. Qed.

Lemma fence_post_total :
  total (fence_post_draw_fn (24 * 4) (120 * 4) 4) (fun _ => True) cmd_well_formed.
Proof. unfold fence_post_draw_fn. total_auto. Qed.

Lemma fence_rail_total :
  total (fence_rail_draw_fn (512 * 4) (18 * 4) 4) (fun _ => True) cmd_well_formed.
Proof. unfold fence_rail_draw_fn. total_auto. Qed.

Lemma gate_door_total :
  total (gate_door_draw_fn (240 * 4) (108 * 4) 4) (fun _ => True) cmd_well_formed.
Proof.
  unfold gate_door_draw_fn. cbv zeta.
  change (py_range 4) with [0; 1; 2; 3]. cbn [for_each].
  total_auto.
Qed.

Lemma gate_post_total :
  total (gate_post_draw_fn (36 * 4) (144 * 4) 4) (fun _ => True) cmd_well_formed.
Proof. unfold gate_post_draw_fn. total_auto. Qed.

Lemma clouds_total v :
  1 <= v <= 3 →
  total (clouds_draw_fn v (240 * 4) (120 * 4) 4) (fun _ => True) cmd_well_formed.
Proof.
  intros Hv. unfold clouds_draw_fn. cbv zeta. cbn [for_each].
  total_auto.
Qed.

Lemma title_logo_total :
  total (title_logo_draw_fn (900 * 4) (240 * 4) 4) (fun _ => True) cmd_well_formed.
Proof.
  unfold title_logo_draw_fn. cbv zeta. total_step.
  eapply (total_bind _ _ (fun _ => True));
    [apply draw_text_outlined_total; cbv [color_ok channel_ok]; lia | intros _ _].
  eapply (total_bind _ _ (fun _ => True));
    [apply draw_text_outlined_total; cbv [color_ok channel_ok]; lia | intros _ _].
  by apply total_ret.
Qed.

Lemma button_total text r g b :
  channel_ok r → channel_ok g → channel_ok b →
  total (button_draw_fn text (r, g, b) (600 * 4) (180 * 4) 4) (fun _ => True)
        cmd_well_formed.
Proof.
  unfold channel_ok. intros Hr Hg Hb. unfold button_draw_fn. cbv zeta.
  do 3 total_step.
  eapply (total_bind _ _ (fun _ => True));
    [apply draw_text_outlined_total; cbv [color_ok channel_ok]; lia | intros _ _].
  by apply total_ret.
Qed.

Lemma heart_total r g b alpha :
  channel_ok r → channel_ok g → channel_ok b → channel_ok alpha →
  total (heart_draw_fn (r, g, b) alpha (84 * 4) (78 * 4) 4) (fun _ => True)
        cmd_well_formed.
Proof.
  unfold channel_ok. intros Hr Hg Hb Ha. unfold heart_draw_fn. cbv zeta. total_auto.
Qed.

Lemma score_badge_total :
  total (score_badge_draw_fn (480 * 4) (120 * 4) 4) (fun _ => True) cmd_well_formed.
Proof. unfold score_badge_draw_fn. total_auto. Qed.

Lemma game_over_banner_total :
  total (game_over_banner_draw_fn (900 * 4) (240 * 4) 4) (fun _ => True) cmd_well_formed.
Proof.
  unfold game_over_banner_draw_fn. cbv zeta. total_step.
  eapply (total_bind _ _ (fun _ => True));
    [apply draw_text_outlined_total; cbv [color_ok channel_ok]; lia | intros _ _].
  by apply total_ret.
Qed.

Lemma gate_indicator_total r g b :
  channel_ok r → channel_ok g → channel_ok b →
  total (gate_indicator_draw_fn (r, g, b) (48 * 4) (48 * 4) 4) (fun _ => True)
        cmd_well_formed.
Proof.
  unfold channel_ok. intros Hr Hg Hb. unfold gate_indicator_draw_fn. cbv zeta.
  total_auto.
Qed.

Lemma splash_total : total (splash (16 * 4) (16 * 4) 4) (fun _ => True) cmd_well_formed.
Proof. unfold splash. cbv zeta. total_auto. Qed.

Lemma dust_total : total (dust (12 * 4) (12 * 4) 4) (fun _ => True) cmd_well_formed.
Proof. unfold dust. cbv zeta. total_auto. Qed.

Lemma grass_blade_total :
  total (grass_blade (8 * 4) (8 * 4) 4) (fun _ => True) cmd_well_formed.
Proof. unfold grass_blade. cbv zeta. total_auto. Qed.

Lemma sparkle_total : total (sparkle (8 * 4) (8 * 4) 4) (fun _ => True) cmd_well_formed.
Proof. unfold sparkle. cbv zeta. total_auto. Qed.

Lemma star_total : total (star (16 * 4) (16 * 4) 4) (fun _ => True) cmd_well_formed.
Proof.
  unfold star. cbv zeta.
  assert (Hpts : ∃ points,
             res_map (fun i =>
               c ← math_cos (PyFloat.radians (PyFloat.of_int (i * 36 - 90)));
               a ← PyFloat.to_int
                     (PyFloat.mul c (PyFloat.of_int (if i mod 2 =? 0 then 6 * 4 else 3 * 4)));
               sn ← math_sin (PyFloat.radians (PyFloat.of_int (i * 36 - 90)));
               b ← PyFloat.to_int
                     (PyFloat.mul sn (PyFloat.of_int (if i mod 2 =? 0 then 6 * 4 else 3 * 4)));
               mret (16 * 4 / 2 + a, 16 * 4 / 2 + b)) (py_range 10) = Ok points
             ∧ length points = length (py_range 10)).
  { apply res_map_total. intros i Hi.
    assert (Hc : forallb (fun i =>
              PyFloat.is_finite (PyFloat.radians (PyFloat.of_int (i * 36 - 90))))
              (py_range 10) = true) by (vm_compute; reflexivity).
    apply (forallb_elem_of _ _ i) in Hc; [|exact Hi]. cbv beta in Hc.
    destruct (Hlibm _ Hc) as [(sn & Hsn & Hys) (c & Hcos & Hyc)].
    assert (Hr : PyFloat.fbounded 0 (PyFloat.of_int (if i mod 2 =? 0 then 6 * 4 else 3 * 4)) = true)
      by (destruct (i mod 2 =? 0); vm_compute; reflexivity).
    destruct (scaled_to_int c _ Hyc Hr) as [a Ha].
    destruct (scaled_to_int sn _ Hys Hr) as [b Hb].
    unfold mbind, res_mbind, res_bind. rewrite Hcos, Ha, Hsn, Hb. by eexists. }
  destruct Hpts as (points & Hpts & Hplen).
  eapply total_bind;
    [apply (total_lift _ points (fun p => length p = 10%nat) _ Hpts Hplen) | intros pts Hp].
  cbv beta in Hp.
  eapply total_bind; [apply total_emit; wf0; unfold point in *; rewrite Hp; lia | intros _ _].
  apply total_emit; wf0; unfold point in *; rewrite Hp; lia.
Qed.



Ltac head_of t :=
  lazymatch t with
  | ?f _ => head_of f
  | _ => t
  end.















Lemma sprites_ready : Forall sprite_ready sprites.
Proof.
  unfold sprites, sprite_ready, SUPERSAMPLE.
  repeat (apply Forall_cons_2; [cbn [fst snd]; split; [lia|split; [lia|]]|]);
    [..|apply Forall_nil_2].
  - apply draw_cow_total.
  - apply draw_cow_total.
  - exact cow_drowning_total.
  - exact farmer_total.
  - exact background_grass_total.
  - exact safe_pasture_total.
  - apply ditch_water_total; lia.
  - apply ditch_water_total; lia.
  - apply ditch_water_total; lia.
  - exact ditch_edge_total.
  - exact fence_post_total.
  - exact fence_rail_total.
  - exact gate_door_total.
  - exact gate_post_total.
  - apply clouds_total; lia.
  - apply clouds_total; lia.
  - apply clouds_total; lia.
  - exact title_logo_total.
  - apply button_total; unfold channel_ok; lia.
  - apply button_total; unfold channel_ok; lia.
  - apply heart_total; unfold channel_ok; lia.
  - apply heart_total; unfold channel_ok; lia.
  - exact score_badge_total.
  - exact game_over_banner_total.
  - apply gate_indicator_total; unfold channel_ok; lia.
  - apply gate_indicator_total; unfold channel_ok; lia.
  - exact splash_total.
  - exact dust_total.
  - exact grass_blade_total.
  - exact star_total.
  - exact sparkle_total.
Qed.



(** *** The gradients *)

Lemma rgb_is_inv r v : rgb_is r v = true → r = Ok v.
Proof.
  destruct r as [[[cr cg] cb]|e]; [|discriminate]. destruct v as [[vr vg] vb].
  unfold rgb_is; cbn [fst snd]. rewrite !andb_true_iff, !Z.eqb_eq.
  by intros [[-> ->] ->].
Qed.

Lemma for_each_lift_run {B} (f : Z → res B) (k : Z → B → Draw unit) (v : Z → B)
    (c : Z → draw_cmd) l g :
  (∀ y, y ∈ l → f y = Ok (v y)) → (∀ y, k y (v y) = emit (c y)) →
  for_each l (fun y => lift (f y) ≫= k y) g = Ok (tt, g, c <$> l).
Proof.
  intros Hf Hk. induction l as [|y l IH]; [reflexivity|].
  cbn [for_each].
  assert (Hy : (lift (f y) ≫= k y) g = Ok (tt, g, [c y])).
  { unfold mbind, draw_mbind, draw_bind, lift. rewrite Hf by left. by rewrite Hk. }
  unfold mbind at 1, draw_mbind at 1, draw_bind at 1.
  rewrite Hy, IH by (intros z Hz; apply Hf; by right). reflexivity.
Qed.

Lemma total_ext {A} (m m' : Draw A) (Q : A → Prop) P :
  (∀ g, m g = m' g) → total m Q P → total m' Q P.
Proof.
  intros Hmm Hm g. destruct (Hm g) as (a & g' & ops & Hrun & H).
  exists a, g', ops. by rewrite <- Hmm.
Qed.

(** The body of a draw function, as an equation between runs. *)
Ltac unfolded f h H :=
  let t := eval cbv beta delta [h] in f in
  assert (H : ∀ g, f g = t g) by (intros; reflexivity).

Lemma prefix_after_seed {B} n (grad : Draw unit) (k : unit → Draw B) rows
    (Q : B → Prop) P :
  grad (rseed n) = Ok (tt, rseed n, rows) →
  total (random_seed n;; (grad ≫= k)) Q P →
  ∀ g, ∃ b g' rest, (random_seed n;; (grad ≫= k)) g = Ok (b, g', rows ++ rest).
Proof.
  intros Hg Ht g. destruct (Ht g) as (b & g' & ops & Hrun & _).
  exists b, g'. rewrite Hrun.
  apply draw_bind_inv in Hrun as ([] & g1 & ops1 & ops2 & Hseed & Hrest & ->).
  unfold random_seed in Hseed. injection Hseed as <- <-.
  apply draw_bind_inv in Hrest as ([] & g2 & ops3 & ops4 & Hgrad & _ & ->).
  rewrite Hg in Hgrad. injection Hgrad as <- <-.
  by exists ops4.
Qed.

Lemma gradient_run w h (base span : Z * Z * Z) g :
  forallb (fun y =>
    rgb_is (t ← PyFloat.int_truediv y h;
            r ← gradient_channel base.1.1 t span.1.1;
            g ← gradient_channel base.1.2 t span.1.2;
            b ← gradient_channel base.2 t span.2;
            mret (r, g, b))
           (base.1.1 + y * span.1.1 / h, base.1.2 + y * span.1.2 / h,
            base.2 + y * span.2 / h)) (py_range h) = true →
  for_each (py_range h) (fun y =>
    '(r, g, b) ← lift (t ← PyFloat.int_truediv y h;
                       r ← gradient_channel base.1.1 t span.1.1;
                       g ← gradient_channel base.1.2 t span.1.2;
                       b ← gradient_channel base.2 t span.2;
                       mret (r, g, b));
    emit (Line [ (0, y); (w, y) ] (RGB r g b) None)) g
  = Ok (tt, g, gradient_rows w h base span).
Proof.
  intros Hc. unfold gradient_rows.
  apply (for_each_lift_run
           (fun y => t ← PyFloat.int_truediv y h;
                     r ← gradient_channel base.1.1 t span.1.1;
                     g ← gradient_channel base.1.2 t span.1.2;
                     b ← gradient_channel base.2 t span.2;
                     mret (r, g, b))
           (fun y '(r, g, b) => emit (Line [ (0, y); (w, y) ] (RGB r g b) None))
           (fun y => (base.1.1 + y * span.1.1 / h, base.1.2 + y * span.1.2 / h,
                      base.2 + y * span.2 / h))).
  - intros y Hy. apply rgb_is_inv. by apply (forallb_elem_of _ _ y) in Hc.
  - intros y. reflexivity.
Qed.

(** The gradient backgrounds, as drawn.  The first scanlines that the
    grass background, the pasture and each ditch-water frame issue are
    one line per canvas row, from [(0, y)] to [(w, y)], whose channels
    are [base + y * span / h] in integer arithmetic: at these canvas
    heights the float computation [int(base + (y / h) * span)] loses
    nothing.  The top row has the base colour, the channels never
    decrease down the canvas and stay below [base + span]. *)
Theorem gradient_scanlines :
  (∀ g, ∃ g' rest,
     background_grass_draw_fn (512 * 4) (512 * 4) 4 g
     = Ok (tt, g', gradient_rows 2048 2048 (60, 140, 30) (30, 40, 20) ++ rest))
  ∧ (∀ g, ∃ g' rest,
       safe_pasture_draw_fn (512 * 4) (512 * 4) 4 g
       = Ok (tt, g', gradient_rows 2048 2048 (40, 120, 20) (25, 30, 15) ++ rest))
  ∧ (∀ frame g, 1 <= frame <= 3 →
       ∃ g' rest,
         ditch_water_draw_fn frame (512 * 4) (160 * 4) 4 g
         = Ok (tt, g', gradient_rows 2048 640 (30, 60, 140) (20, 40, 40) ++ rest))
  ∧ (∀ w h base span y,
       0 < h → 0 <= span.1.1 → 0 <= span.1.2 → 0 <= span.2 → 0 <= y < h →
       ∃ r g b,
         gradient_rows w h base span !! Z.to_nat y
         = Some (Line [ (0, y); (w, y) ] (RGB r g b) None)
         ∧ base.1.1 <= r < base.1.1 + Z.max 1 span.1.1
         ∧ base.1.2 <= g < base.1.2 + Z.max 1 span.1.2
         ∧ base.2 <= b < base.2 + Z.max 1 span.2
         ∧ (y = 0 → (r, g, b) = base)).
Proof.
  split; [|split; [|split]].
  - pose proof (gradient_run (512 * 4) (512 * 4) (60, 140, 30) (30, 40, 20) (rseed 7)
                  ltac:(vm_compute; reflexivity)) as Hrows.
    cbn [fst snd] in Hrows.
    unfolded (background_grass_draw_fn (512 * 4) (512 * 4) 4) @background_grass_draw_fn Heq.
    pose proof (total_ext _ _ _ _ Heq background_grass_total) as Ht.
    intros g.
    destruct (prefix_after_seed _ _ _ _ _ _ Hrows Ht g) as ([] & g' & rest & Hrun).
    exists g', rest. rewrite Heq. exact Hrun.
  - pose proof (gradient_run (512 * 4) (512 * 4) (40, 120, 20) (25, 30, 15) (rseed 13)
                  ltac:(vm_compute; reflexivity)) as Hrows.
    cbn [fst snd] in Hrows.
    unfolded (safe_pasture_draw_fn (512 * 4) (512 * 4) 4) @safe_pasture_draw_fn Heq.
    pose proof (total_ext _ _ _ _ Heq safe_pasture_total) as Ht.
    intros g.
    destruct (prefix_after_seed _ _ _ _ _ _ Hrows Ht g) as ([] & g' & rest & Hrun).
    exists g', rest. rewrite Heq. exact Hrun.
  - intros frame g Hframe.
    pose proof (gradient_run (512 * 4) (160 * 4) (30, 60, 140) (20, 40, 40)
                  (rseed (ditch_water_seed frame)) ltac:(vm_compute; reflexivity)) as Hrows.
    cbn [fst snd] in Hrows.
    assert (Heq : ∀ g, ditch_water_draw_fn frame (512 * 4) (160 * 4) 4 g
                       = (random_seed (ditch_water_seed frame);;
                          (ditch_water_gradient (512 * 4) (160 * 4);;
                           (ditch_water_waves (512 * 4) (160 * 4) 4 (ditch_water_phase frame);;
                            ditch_water_shimmer (512 * 4) (160 * 4) 4))) g)
      by (intros; reflexivity).
    pose proof (total_ext _ _ _ _ Heq (ditch_water_total frame Hframe)) as Ht.
    destruct (prefix_after_seed _ (ditch_water_gradient (512 * 4) (160 * 4)) _ _ _ _
                Hrows Ht g) as ([] & g' & rest & Hrun).
    exists g', rest. rewrite Heq. exact Hrun.
  - intros w h [[b1 b2] b3] [[s1 s2] s3] y Hh H1 H2 H3 Hy. cbn [fst snd] in *.
    eexists _, _, _. split.
    + unfold gradient_rows. rewrite list_lookup_fmap.
      assert (Hl : py_range h !! Z.to_nat y = Some y).
      { unfold py_range. rewrite list_lookup_fmap, lookup_seq_lt by lia.
        cbn. f_equal. lia. }
      rewrite Hl. reflexivity.
    + assert (Hq : ∀ sp, 0 <= sp → 0 <= y * sp / h < Z.max 1 sp).
      { intros sp Hsp. split; [apply Z.div_pos; nia|].
        apply Z.div_lt_upper_bound; [lia|]. nia. }
      pose proof (Hq s1 H1). pose proof (Hq s2 H2). pose proof (Hq s3 H3).
      cbn [fst snd].
      split; [lia|]. split; [lia|]. split; [lia|].
      intros ->. rewrite !Z.mul_0_l, !Z.div_0_l by lia. by rewrite !Z.add_0_r.
Qed.

(** Given fonts that fail only with [OSError] and a libm whose sine and
    cosine stay in range, each of the 31 draw functions of [main], run
    on its supersampled canvas from any state of the random generator,
    returns, and every call it issues is well formed: its box in order
    ([x0 <= x1], [y0 <= y1]), its colour channels within 0..255, a
    polyline of at least two points, a polygon of at least three.  No
    random draw, float rounding or integer division of the script yields
    an inverted box or an out-of-range channel, no [randint] range is
    empty and no index is out of range. *)
Theorem sprites_well_formed :
  Forall (fun sp : sprite =>
            total (sp.2 (sp.1.2.1 * SUPERSAMPLE) (sp.1.2.2 * SUPERSAMPLE) SUPERSAMPLE)
                  (fun _ => True) cmd_well_formed)
         sprites.
Proof.
  eapply Forall_impl; [apply sprites_ready|]. by intros sp (_ & _ & Ht).
Qed.


End Returns.

End Theory.

(** * Runs on the reference libraries *)

(** The theorems above at concrete inputs: a machine without the macOS
    fonts, the box rasteriser, CPython's generator and the flat libm. *)

#[local] Existing Instance no_fonts.
#[local] Existing Instance raster.
#[local] Existing Instance mt_random.
#[local] Existing Instance flat_libm.

(** An empty disk, the generator freshly seeded. *)
Definition fresh_world : world := World (rseed 0) ∅ ∅.


(** Exporting the full heart runs through both resampling stages. *)
Lemma two_stage_resampling_witness :
  ∃ w' ops w2 h2,
    (img ← supersample_draw 84 78 (heart_draw_fn (220, 40, 40) 255);
     save_asset "" img "heart_full") fresh_world = Ok (tt, w')
    ∧ calls (heart_draw_fn (220, 40, 40) 255 (84 * 4) (78 * 4) 4) (w_rng fresh_world)
      = Ok ops
    ∧ w_files w' !! path_join (path_join (ASSETS_DIR "") "heart_full.imageset")
                              "heart_full@2x.png"
      = Some (FPng (resize (resize (paint ops (Image_new "RGBA" (84 * 4, 78 * 4)
                                                         (RGBA 0 0 0 0)))
                                   (84, 78) LANCZOS)
                           (w2, h2) LANCZOS)).
Proof.
  eexists.
  assert (Hrun : (img ← supersample_draw 84 78 (heart_draw_fn (220, 40, 40) 255);
                  save_asset "" img "heart_full") fresh_world = Ok (tt, _))
    by (unfold save_asset, ensure_imageset; cbv zeta; reflexivity).
  destruct (two_stage_resampling "" 84 78 (heart_draw_fn (220, 40, 40) 255)
              "heart_full" fresh_world _ Hrun) as (ops & w2 & h2 & Hc & _ & H2 & _).
  exists ops, w2, h2. split; [exact Hrun|]. split; [exact Hc | exact H2].
Defined.



(** The heart comes back as an 84x78 RGBA image. *)
Lemma transparent_canvas_witness :
  ∃ img w',
    supersample_draw 84 78 (heart_draw_fn (220, 40, 40) 255) fresh_world = Ok (img, w')
    ∧ im_mode img = "RGBA" ∧ im_size img = (84, 78).
Proof.
  eexists _, _.
  assert (Hrun : supersample_draw 84 78 (heart_draw_fn (220, 40, 40) 255) fresh_world
                 = Ok (_, _)) by reflexivity.
  destruct (transparent_canvas 84 78 (heart_draw_fn (220, 40, 40) 255) fresh_world
              _ _ ltac:(lia) ltac:(lia) Hrun)
    as (ops & _ & _ & _ & _ & _ & _ & Hm & Hs & _).
  split; [exact Hrun|]. split; [exact Hm | exact Hs].
Defined.

(** With outline width 1 the text is stamped on the full 3x3 block. *)
Lemma outlined_text_halo_witness :
  draw_text_outlined (10, 20) "A" 12 (RGB 255 255 255) (RGB 0 0 0) 1 4 (rseed 0)
  = Ok (BuiltinFont, rseed 0,
        ((fun d : Z * Z => Text (10 + d.1, 20 + d.2) "A" BuiltinFont (RGB 0 0 0) "mm")
           <$> halo_offsets 1)
        ++ [Text (10, 20) "A" BuiltinFont (RGB 255 255 255) "mm"])
  ∧ length (halo_offsets 1) = 9%nat.
Proof.
  destruct (outlined_text_halo (fonts := no_fonts) 10 20 "A" 12 (RGB 255 255 255) (RGB 0 0 0) 1 4
              (rseed 0) BuiltinFont) as (Hrun & _ & _); [reflexivity|].
  split; [exact Hrun | reflexivity].
Defined.


(** Claim C6 fails as stated: with outline width 1 the text is also
    stamped at the diagonal offset (1, 1), which lies outside the disk of
    radius 1. *)
Lemma halo_stamps_outside_disk :
  ∃ ops,
    calls (draw_text_outlined (10, 20) "A" 12 (RGB 255 255 255) (RGB 0 0 0) 1 4)
          (rseed 0) = Ok ops
    ∧ Text (10 + 1, 20 + 1) "A" BuiltinFont (RGB 0 0 0) "mm" ∈ ops
    ∧ ¬ (1 * 1 + 1 * 1 <= 1 * 1).
Proof.
  eexists. split; [reflexivity|]. split; [|lia].
  repeat first [apply list_elem_of_here | apply list_elem_of_further].
Qed.


(** ** Runs for the export and drawing properties *)


Lemma bundles_disjoint_witness :
  bundle_dir "" "heart_full" ≠ bundle_dir "" "heart_empty"
  ∧ ∀ p, p ∈ bundle_paths "" "heart_full" → p ∉ bundle_paths "" "heart_empty".
Proof.
  apply (bundles_disjoint "" "heart_full" "heart_empty");
    [reflexivity | reflexivity | discriminate].
Defined.


Lemma variant_size_bounds_witness :
  ∃ m, two_thirds 84 = Ok m
       ∧ 3 * m <= 2 * 84 < 3 * m + 3
       ∧ 0 <= m <= 84
       ∧ (m = 0 ↔ 84 <= 1)
       ∧ (1 <= 84 → m < 84).
Proof. apply (variant_size_bounds 84); cbn; lia. Defined.

Lemma halo_shape_witness :
  ∃ halo : list (Z * Z),
    draw_text_outlined (10, 20) "A" 12 (RGB 255 255 255) (RGB 0 0 0) 1 4 (rseed 0)
    = Ok (BuiltinFont, rseed 0,
          ((fun d : Z * Z => Text (10 + d.1, 20 + d.2) "A" BuiltinFont (RGB 0 0 0) "mm")
             <$> halo)
          ++ [Text (10, 20) "A" BuiltinFont (RGB 255 255 255) "mm"])
    ∧ (0, 0) ∈ halo ∧ (1, 0) ∈ halo ∧ (0, -1) ∈ halo.
Proof.
  destruct (halo_shape (fonts := no_fonts) 10 20 "A" 12 (RGB 255 255 255) (RGB 0 0 0) 1 4
              (rseed 0) BuiltinFont) as (halo & Hrun & _ & _ & Hin & _); [reflexivity|].
  exists halo. split; [exact Hrun|]. repeat split; apply Hin; lia.
Defined.

Lemma font_errors_propagate_witness :
  draw_text_outlined (H := sized_fonts) (10, 20) "A" 0 (RGB 255 255 255) (RGB 0 0 0)
                     1 4 (rseed 0)
  = Raise ValueError.
Proof.
  pose proof (font_errors_propagate (fonts := sized_fonts) (10, 20) "A" 0
                (RGB 255 255 255) (RGB 0 0 0) 1 4 (rseed 0) ValueError
                ltac:(discriminate)) as H.
  cbv zeta in H. destruct H as [H _]. apply H. reflexivity.
Defined.

Lemma sprites_well_formed_witness :
  Forall (fun sp : sprite =>
            total (sp.2 (sp.1.2.1 * SUPERSAMPLE) (sp.1.2.2 * SUPERSAMPLE) SUPERSAMPLE)
                  (fun _ => True) cmd_well_formed)
         sprites.
Proof.
  apply sprites_well_formed.
  - intros path size e Hraise. cbn in Hraise. congruence.
  - intros x _. split; eexists; (split; [reflexivity | vm_compute; reflexivity]).
Defined.



Lemma gradient_scanlines_witness :
  ∃ g' rest,
    ditch_water_draw_fn 1 (512 * 4) (160 * 4) 4 (rseed 0)
    = Ok (tt, g', gradient_rows 2048 640 (30, 60, 140) (20, 40, 40) ++ rest).
Proof.
  assert (Hl : libm_in_range).
  { intros x _. split; eexists; (split; [reflexivity | vm_compute; reflexivity]). }
  destruct (gradient_scanlines Hl) as (_ & _ & Hditch & _).
  apply (Hditch 1 (rseed 0)). lia.
Defined.
